(** * Smart cycle booking backend: ride lifecycle and statistics

    A shallow embedding of the Express/Mongoose backend:

    - [models/Ride.js], [models/Cycle.js], [models/Station.js]: the documents,
      the [pre('save')] hook, the virtuals and the static queries;
    - [routes/rides.js]: [POST /start], [POST /end], [POST /cancel],
      [GET /active], [GET /history], [GET /stats];
    - the cycles router: [PATCH /:id/status], [DELETE /:id];
    - [routes/users.js]: [GET /:id/stats], [GET /:id/rides];
    - [routes/stations.js]: [DELETE /:id], [GET /:id/stats];
    - [routes/admin.js]: the revenue reducers of the dashboard, the analytics
      and the comprehensive report, [DELETE /cycles/:id].

    Conventions.  An [ObjectId] is a natural number; a value of a request
    body that stands where the schema has an [ObjectId] is an [IdParam],
    which Mongoose can cast or not.  A [Date] is its [getTime()] value, an
    integer number of milliseconds.  A collection is the list of its
    documents in natural order, so that [findOne] is the first match.
    JavaScript numbers are exact: integers are [Z], and the fractional values
    of the revenue reducers are [Q]; the arithmetic of the [pre('save')] hook
    is the arithmetic of the code for elapsed times of at most [2 ^ 53]
    milliseconds (see [Ride.exactElapsed]).  Bookkeeping fields that no
    handler reads ([createdAt], [updatedAt], [qrCode], [model], [color], ...)
    are left out.

    In [exec] and [reachable] a request is served from its middleware to its
    response before the next one starts.  [overlapping] lets the requests
    overlap where it matters for the rider's active ride: the lookup of the
    middleware of one request and the handlers of the others alternate. *)

From Stdlib Require Import List String Ascii Bool Arith ZArith QArith Qround Lia.
From Stdlib Require Import DecimalString Permutation Sorted.
Import ListNotations.

Local Open Scope string_scope.
Local Open Scope Z_scope.

Definition ObjectId := nat.
Bind Scope nat_scope with ObjectId.

(** ** JavaScript arithmetic *)

Module Math.
(** [Math.floor], [Math.ceil] and [Math.round] on exact numbers;
    [Math.round] sends a tie to the larger integer. *)
Definition floor (x : Q) : Z := Qfloor x.
Definition ceil (x : Q) : Z := Qceiling x.
Definition round (x : Q) : Z := Qfloor (x + (1 # 2)).
End Math.

(** [`${n}`] for an integer [n]. *)
Definition toString (n : Z) : string := NilZero.string_of_int (Z.to_int n).

(** A Number path of a stored document: [None] is a document that holds
    [null] for the path or does not hold the path.  A document loaded through
    Mongoose has the default of the schema, [0], where the path is missing,
    so that the path reads [0] or [null].

    [js_num]: the path as an operand of [/]; [null] counts [0]. *)
Definition js_num (d : option Z) : Z :=
  match d with
  | Some n => n
  | None => 0
  end.

(** [d || 0] on a Number field. *)
Definition or0 (d : option Z) : Z :=
  match d with
  | Some n => n
  | None => 0
  end.

(** [!d] on a Number field: [null] and [0] are both falsy. *)
Definition falsy (d : option Z) : bool :=
  match d with
  | None => true
  | Some n => n =? 0
  end.

Definition sumZ (l : list Z) : Z := fold_right Z.add 0 l.

(** ** models/Ride.js *)

Module Ride.

Inductive Status := active | completed | cancelled.

Definition Status_eqb (a b : Status) : bool :=
  match a, b with
  | active, active | completed, completed | cancelled, cancelled => true
  | _, _ => false
  end.

Record Feedback := mkFeedback {
  rating : option Z;
  comment : option string
}.

(** [{}] *)
Definition noFeedback : Feedback := mkFeedback None None.

Record t := mk {
  _id : ObjectId;
  userId : ObjectId;
  cycleId : ObjectId;
  stationId : ObjectId;
  startTime : Z;
  endTime : option Z;
  duration : option Z;
  status : Status;
  startStation : ObjectId;
  endStation : option ObjectId;
  feedback : Feedback
}.

Definition set_duration (d : option Z) (r : t) : t :=
  mk (_id r) (userId r) (cycleId r) (stationId r) (startTime r) (endTime r)
     d (status r) (startStation r) (endStation r) (feedback r).

(** The elapsed times, in milliseconds, for which the subtraction, the
    division and [Math.round] of the hook below are exact in the double
    precision arithmetic of the code: the difference of the two dates is an
    integer the format holds, and the quotient by 60000, below [2 ^ 38], is
    computed to within [2 ^ -16], less than the [1 / 60000] that separates
    it from the nearest half integer it is not equal to. *)
Definition exactElapsed (ms : Z) : Prop := Z.abs ms <= 2 ^ 53.

(** [rideSchema.pre('save')]: the duration in minutes, once an end time is
    there.  The arithmetic is exact; it is the arithmetic of the code for
    an elapsed time within [exactElapsed]. *)
Definition preSave (r : t) : t :=
  match endTime r with
  | Some e =>
      let durationMs := e - startTime r in
      set_duration
        (Some (Math.round (inject_Z durationMs / inject_Z (1000 * 60)))) r
  | None => r
  end.

(** [rideSchema.virtual('formattedDuration')] *)
Definition formattedDuration (r : t) : string :=
  if falsy (duration r) then "Ongoing"
  else
    let d := or0 (duration r) in
    let hours := Math.floor (inject_Z d / inject_Z 60) in
    let minutes := Z.rem d 60 in
    if hours >? 0
    then toString hours ++ "h " ++ toString minutes ++ "m"
    else toString minutes ++ "m".

(** [rideSchema.virtual('cost')]: one unit per started hour. *)
Definition cost (r : t) : Z :=
  if falsy (duration r) then 0
  else
    let hours := (inject_Z (or0 (duration r)) / inject_Z 60)%Q in
    Math.ceil hours * 1.

(** The filter of [findActiveRide]:
    [{ userId, status: 'active', endTime: null }]. *)
Definition isActiveRideOf (u : ObjectId) (r : t) : bool :=
  Nat.eqb (userId r) u && Status_eqb (status r) active &&
  match endTime r with None => true | Some _ => false end.

(** The [$match] stage of [getUserStats]:
    [{ userId, status: 'completed' }]. *)
Definition isCompletedRideOf (u : ObjectId) (r : t) : bool :=
  Nat.eqb (userId r) u && Status_eqb (status r) completed.

(** One output document of the [$group] stage. *)
Record Stats := mkStats {
  totalRides : Z;
  totalDuration : Z;
  totalCost : Z
}.

(** [$ceil: { $divide: ['$duration', 60] }] times [1]; a missing duration
    yields [null], which [$sum] skips. *)
Definition costExpr (r : t) : Z :=
  match duration r with
  | Some d => Math.ceil (inject_Z d / inject_Z 60) * 1
  | None => 0
  end.

(** [rideSchema.statics.getUserStats]: [$match] then [$group] with
    [_id: null].  No matching document gives no group at all. *)
Definition getUserStats (u : ObjectId) (rides : list t) : list Stats :=
  match filter (isCompletedRideOf u) rides with
  | [] => []
  | matched =>
      [ mkStats (Z.of_nat (List.length matched))
                (sumZ (map (fun r => or0 (duration r)) matched))
                (sumZ (map costExpr matched)) ]
  end.

End Ride.

(** ** models/Cycle.js and models/Station.js *)

Module Cycle.

Inductive Status := available | in_use | maintenance | out_of_service.

Definition Status_eqb (a b : Status) : bool :=
  match a, b with
  | available, available | in_use, in_use
  | maintenance, maintenance | out_of_service, out_of_service => true
  | _, _ => false
  end.

(** The enum of the [status] path, as the strings of a request body. *)
Definition Status_of_string (s : string) : option Status :=
  if String.eqb s "available" then Some available
  else if String.eqb s "in-use" then Some in_use
  else if String.eqb s "maintenance" then Some maintenance
  else if String.eqb s "out-of-service" then Some out_of_service
  else None.

Record t := mk {
  _id : ObjectId;
  cycleId : string;        (* the identifier carried by the QR code *)
  stationId : ObjectId;
  status : Status;
  isActive : bool
}.

Definition set_status (s : Status) (c : t) : t :=
  mk (_id c) (cycleId c) (stationId c) s (isActive c).

End Cycle.

Module Station.

Record t := mk {
  _id : ObjectId;
  name : string;
  isActive : bool
}.

End Station.

(** ** The database *)

Record Db := mkDb {
  rides : list Ride.t;
  cycles : list Cycle.t;
  stations : list Station.t;
  nextId : ObjectId          (* the [_id] the next created ride receives *)
}.

Definition set_rides (l : list Ride.t) (d : Db) : Db :=
  mkDb l (cycles d) (stations d) (nextId d).

Definition set_cycles (l : list Cycle.t) (d : Db) : Db :=
  mkDb (rides d) l (stations d) (nextId d).

(** [updateOne]: the first document that matches is rewritten. *)
Fixpoint updateOne {A : Type} (p : A -> bool) (f : A -> A) (l : list A)
  : list A :=
  match l with
  | [] => []
  | x :: l' => if p x then f x :: l' else x :: updateOne p f l'
  end.

(** ** Handlers as computations over the database

    Every [await] on the database is a point where the driver may throw.
    The [fuse] counts the calls that still succeed: [Some n] makes the call
    number [n] (from zero) throw once, [None] lets every call through. *)

Inductive Exn := DbError | TypeError | ValidationError | CastError.

Record World := mkWorld {
  db : Db;
  fuse : option nat
}.

Definition M (A : Type) : Type := World -> (Exn + A) * World.

Definition ret {A : Type} (a : A) : M A := fun w => (inr a, w).

Definition bind {A B : Type} (m : M A) (k : A -> M B) : M B :=
  fun w =>
    match m w with
    | (inl e, w') => (inl e, w')
    | (inr a, w') => k a w'
    end.

Definition throw {A : Type} (e : Exn) : M A := fun w => (inl e, w).

Definition await {A : Type} (q : Db -> A * Db) : M A :=
  fun w =>
    match fuse w with
    | Some O => (inl DbError, mkWorld (db w) None)
    | Some (S n) => let (a, d) := q (db w) in (inr a, mkWorld d (Some n))
    | None => let (a, d) := q (db w) in (inr a, mkWorld d None)
    end.

Declare Scope handler_scope.
Delimit Scope handler_scope with handler.
Notation "x <- c ;; k" := (bind c (fun x => k))
  (at level 61, c at next level, right associativity) : handler_scope.
Notation "c ;;; k" := (bind c (fun _ => k))
  (at level 61, right associativity) : handler_scope.

(** *** Values cast to an [ObjectId]

    [stationId] of a request body is any value that passes [notEmpty()].
    Where it meets a path or an [_id] of type [ObjectId], Mongoose casts it:
    a value it can cast, such as the 24 hexadecimal digits of an id, gives
    that id, and any other value makes the query throw a [CastError] before
    it is sent. *)

Inductive IdParam :=
| castable (id : ObjectId)
| uncastable.

(** The id a value of a body denotes; [None] for a missing value and for a
    value that is no id. *)
Definition objectId (p : option IdParam) : option ObjectId :=
  match p with
  | Some (castable i) => Some i
  | _ => None
  end.

(** The cast of a value in a filter. *)
Definition castObjectId (p : option IdParam) : M (option ObjectId) :=
  match p with
  | Some uncastable => throw CastError
  | _ => ret (objectId p)
  end.

(** *** Queries of the models *)

Definition Cycle_findOne (p : Cycle.t -> bool) (d : Db)
  : option Cycle.t * Db :=
  (find p (cycles d), d).

Definition Cycle_findById (id : ObjectId) : Db -> option Cycle.t * Db :=
  Cycle_findOne (fun c => Nat.eqb (Cycle._id c) id).

(** [doc.save()] of a cycle whose [status] was assigned: the stored document
    with the same [_id] takes the new status. *)
Definition Cycle_save (c : Cycle.t) (d : Db) : unit * Db :=
  (tt, set_cycles
         (updateOne (fun c' => Nat.eqb (Cycle._id c') (Cycle._id c))
                    (Cycle.set_status (Cycle.status c)) (cycles d)) d).

(** [cycleSchema.methods.updateStatus] *)
Definition Cycle_updateStatus (c : Cycle.t) (newStatus : Cycle.Status)
  : Db -> unit * Db :=
  Cycle_save (Cycle.set_status newStatus c).

(** [Cycle.findByIdAndUpdate(id, { status })]; a [null] id matches nothing. *)
Definition Cycle_findByIdAndUpdate (id : option ObjectId)
  (s : Cycle.Status) (d : Db) : unit * Db :=
  match id with
  | Some i =>
      (tt, set_cycles
             (updateOne (fun c => Nat.eqb (Cycle._id c) i)
                        (Cycle.set_status s) (cycles d)) d)
  | None => (tt, d)
  end.

(** [Station.findById(id)] for an id that was cast; no id matches no
    station. *)
Definition Station_findById (id : option ObjectId) (d : Db)
  : option Station.t * Db :=
  match id with
  | Some i => (find (fun s => Nat.eqb (Station._id s) i) (stations d), d)
  | None => (None, d)
  end.

(** The insert of [Ride.create({ userId, cycleId, stationId, startStation,
    startTime })]: the schema defaults fill the other paths, the
    [pre('save')] hook runs, and the document is stored. *)
Definition Ride_insert (userId cycleId stationId startStation : ObjectId)
  (startTime : Z) (d : Db) : Ride.t * Db :=
  let r := Ride.preSave
             (Ride.mk (nextId d) userId cycleId stationId startTime None
                      (Some 0) Ride.active startStation None Ride.noFeedback) in
  (r, mkDb (rides d ++ [r]) (cycles d) (stations d) (S (nextId d))).

(** [Ride.findByIdAndUpdate(id, update, { new: true })]: the update sets
    the listed paths of the stored document and nothing else; query
    middleware is the only middleware that runs, so the [pre('save')] hook
    does not.  The result is the document after the update, or [null]. *)
Definition Ride_findByIdAndUpdate (id : ObjectId) (update : Ride.t -> Ride.t)
  (d : Db) : option Ride.t * Db :=
  (option_map update (find (fun r => Nat.eqb (Ride._id r) id) (rides d)),
   set_rides (updateOne (fun r => Nat.eqb (Ride._id r) id) update (rides d)) d).

(** A ride with its [cycleId] path populated in full, as [findActiveRide]
    populates it: the referenced cycle, or [null] when no cycle has that
    [_id]. *)
Record PopulatedRide := mkPopulated {
  ride : Ride.t;
  cycleDoc : option Cycle.t
}.

Definition populate (d : Db) (r : Ride.t) : PopulatedRide :=
  mkPopulated r
    (find (fun c => Nat.eqb (Cycle._id c) (Ride.cycleId r)) (cycles d)).

(** [rideSchema.statics.findActiveRide] *)
Definition Ride_findActiveRide (userId : ObjectId) (d : Db)
  : option PopulatedRide :=
  option_map (populate d) (find (Ride.isActiveRideOf userId) (rides d)).

(** What [{ path: 'cycleId', select: 'cycleId model color' }] brings of a
    cycle: its [_id] and the selected paths, of which [cycleId] is modelled;
    [status], [stationId] and [isActive] are not part of it. *)
Record CycleSummary := mkCycleSummary {
  summary_id : ObjectId;
  summary_cycleId : string
}.

Definition selectCycle (c : Cycle.t) : CycleSummary :=
  mkCycleSummary (Cycle._id c) (Cycle.cycleId c).

(** A ride as [POST /start] and [GET /active] answer it; the populated
    stations are left out. *)
Record RideView := mkRideView {
  viewed : Ride.t;
  cycleSummary : option CycleSummary
}.

(** [ride.populate([{ path: 'cycleId', select: 'cycleId model color' }, ...])]
    on a document in hand: the cycle is read again by its [_id], with the
    selected paths only. *)
Definition Ride_populate (r : Ride.t) (d : Db) : RideView * Db :=
  (mkRideView r
     (option_map selectCycle
        (find (fun c => Nat.eqb (Cycle._id c) (Ride.cycleId r)) (cycles d))),
   d).

(** Modelled from the spec: [middleware/auth.js] is not part of the sources.
    [checkActiveRide] runs before the handler and leaves in [req.activeRide]
    the rider's active ride as the lookup [Ride.findActiveRide] returns it,
    or [null]. *)
Definition checkActiveRide (user : ObjectId) (d : Db) : option PopulatedRide :=
  Ride_findActiveRide user d.

(** [Ride.create] of the start route.  The two station paths are cast, and
    the [required] validators of the schema run before the insert: they
    throw when a path is missing or is no id. *)
Definition Ride_create (userId cycleId : ObjectId)
  (stationId startStation : option IdParam) (startTime : Z) : M Ride.t :=
  match objectId stationId, objectId startStation with
  | Some st, Some ss => await (Ride_insert userId cycleId st ss startTime)
  | _, _ => throw ValidationError
  end.

(** ** Requests and responses *)

Inductive Payload :=
| NoData
| RideData (r : option Ride.t)
| PopulatedData (r : RideView)
| CycleData (c : Cycle.t).

Record Response := mkResponse {
  code : nat;
  success : bool;
  message : option string;
  errors : list string;
  data : Payload
}.

Definition fail (status : nat) (msg : string) : Response :=
  mkResponse status false (Some msg) [] NoData.

Definition invalid (errs : list string) : Response :=
  mkResponse 400 false None errs NoData.

Definition ok (status : nat) (msg : option string) (d : Payload) : Response :=
  mkResponse status true msg [] d.

Definition isEmpty {A : Type} (l : list A) : bool :=
  match l with
  | [] => true
  | _ :: _ => false
  end.

(** The [.trim()] sanitizer, on ASCII white space. *)
Definition isSpace (c : ascii) : bool :=
  let n := nat_of_ascii c in
  (Nat.eqb n 32 || (Nat.leb 9 n && Nat.leb n 13))%bool.

Fixpoint trimStart (s : string) : string :=
  match s with
  | EmptyString => EmptyString
  | String c s' => if isSpace c then trimStart s' else s
  end.

Fixpoint trimEnd (s : string) : string :=
  match s with
  | EmptyString => EmptyString
  | String c s' =>
      match trimEnd s' with
      | EmptyString => if isSpace c then EmptyString else String c EmptyString
      | rest => String c rest
      end
  end.

Definition trim (s : string) : string := trimEnd (trimStart s).

Module StartReq.
(** The body of [POST /start]; an empty [cycleId] or a [stationId] of
    [None] stands for a missing or empty field. *)
Record t := mk {
  cycleId : string;
  stationId : option IdParam
}.

Definition validationResult (b : t) : list string :=
  ((if String.eqb (cycleId b) "" then ["Cycle ID is required"] else []) ++
   (match stationId b with
    | None => ["Station ID is required"]
    | Some _ => []
    end))%list.
End StartReq.

Module EndReq.
Record t := mk {
  cycleId : string;
  stationId : option IdParam;
  feedback : option Ride.Feedback
}.

Definition rating (b : t) : option Z :=
  match feedback b with
  | Some f => Ride.rating f
  | None => None
  end.

Definition comment (b : t) : option string :=
  match feedback b with
  | Some f => option_map trim (Ride.comment f)
  | None => None
  end.

Definition validationResult (b : t) : list string :=
  ((if String.eqb (cycleId b) "" then ["Cycle ID is required"] else []) ++
   (match stationId b with
    | None => ["Station ID is required"]
    | Some _ => []
    end) ++
   (match rating b with
    | Some n =>
        if (1 <=? n) && (n <=? 5) then []
        else ["Rating must be between 1 and 5"]
    | None => []
    end) ++
   (match comment b with
    | Some c =>
        if Nat.leb (String.length c) 500 then []
        else ["Comment cannot exceed 500 characters"]
    | None => []
    end))%list.

(** [feedback || {}], with the comment as the sanitizer left it. *)
Definition sanitized (b : t) : Ride.Feedback :=
  match feedback b with
  | Some f => Ride.mkFeedback (Ride.rating f) (option_map trim (Ride.comment f))
  | None => Ride.noFeedback
  end.
End EndReq.

(** The filter [{ cycleId: cycleId, isActive: true }].  The [cycleId] path
    of the Cycle schema has [trim: true], and Mongoose runs the setters of a
    path on the value a filter gives for it: the stored identifiers are
    compared with the trimmed value. *)
Definition byQrCode (cycleId : string) (c : Cycle.t) : bool :=
  String.eqb (Cycle.cycleId c) (trim cycleId) && Cycle.isActive c.

(** ** routes/rides.js *)

(** The body of the [try] block of [POST /start]. *)
Definition startRide (user : ObjectId) (activeRide : option PopulatedRide)
  (body : StartReq.t) (now : Z) : M Response :=
  (let errors := StartReq.validationResult body in
   if negb (isEmpty errors) then ret (invalid errors)
   else
     match activeRide with
     | Some _ => ret (fail 400 "You already have an active ride")
     | None =>
         cycle <- await (Cycle_findOne (byQrCode (StartReq.cycleId body))) ;;
         match cycle with
         | None => ret (fail 404 "Cycle not found")
         | Some cycle =>
             if negb (Cycle.Status_eqb (Cycle.status cycle) Cycle.available)
             then ret (fail 400 "Cycle is not available for use")
             else
               stationId <- castObjectId (StartReq.stationId body) ;;
               station <- await (Station_findById stationId) ;;
               match station with
               | None => ret (fail 404 "Station not found")
               | Some _ =>
                   ride <- Ride_create user (Cycle._id cycle)
                             (StartReq.stationId body)
                             (StartReq.stationId body) now ;;
                   await (Cycle_updateStatus cycle Cycle.in_use) ;;;
                   populated <- await (Ride_populate ride) ;;
                   ret (ok 201 (Some "Ride started successfully")
                           (PopulatedData populated))
               end
         end
     end)%handler.

(** The update document of [POST /end]. *)
Definition endUpdate (now : Z) (stationId : option ObjectId)
  (fb : Ride.Feedback) (r : Ride.t) : Ride.t :=
  Ride.mk (Ride._id r) (Ride.userId r) (Ride.cycleId r) (Ride.stationId r)
          (Ride.startTime r) (Some now) (Ride.duration r) Ride.completed
          (Ride.startStation r) stationId fb.

(** The update document of [POST /cancel]. *)
Definition cancelUpdate (now : Z) (r : Ride.t) : Ride.t :=
  Ride.mk (Ride._id r) (Ride.userId r) (Ride.cycleId r) (Ride.stationId r)
          (Ride.startTime r) (Some now) (Ride.duration r) Ride.cancelled
          (Ride.startStation r) (Ride.endStation r) (Ride.feedback r).

(** The body of the [try] block of [POST /end].  Reading [._id] of a
    populated [cycleId] that is [null] throws.  The update stores for
    [endStation] the id [Station.findById] cast the same value to. *)
Definition endRide (activeRide : option PopulatedRide) (body : EndReq.t)
  (now : Z) : M Response :=
  (let errors := EndReq.validationResult body in
   if negb (isEmpty errors) then ret (invalid errors)
   else
     match activeRide with
     | None => ret (fail 400 "No active ride found")
     | Some activeRide =>
         cycle <- await (Cycle_findOne (byQrCode (EndReq.cycleId body))) ;;
         match cycle with
         | None => ret (fail 404 "Cycle not found")
         | Some cycle =>
             match cycleDoc activeRide with
             | None => throw TypeError
             | Some rideCycle =>
                 if negb (Nat.eqb (Cycle._id rideCycle) (Cycle._id cycle))
                 then ret (fail 400 "Cycle does not match your active ride")
                 else
                   stationId <- castObjectId (EndReq.stationId body) ;;
                   station <- await (Station_findById stationId) ;;
                   match station with
                   | None => ret (fail 404 "Station not found")
                   | Some _ =>
                       ride <- await (Ride_findByIdAndUpdate
                                        (Ride._id (ride activeRide))
                                        (endUpdate now stationId
                                                   (EndReq.sanitized body))) ;;
                       await (Cycle_updateStatus cycle Cycle.available) ;;;
                       ret (ok 200 (Some "Ride ended successfully")
                               (RideData ride))
                   end
             end
         end
     end)%handler.

(** The body of the [try] block of [POST /cancel]. *)
Definition cancelRide (activeRide : option PopulatedRide) (now : Z)
  : M Response :=
  (match activeRide with
   | None => ret (fail 400 "No active ride to cancel")
   | Some activeRide =>
       ride <- await (Ride_findByIdAndUpdate (Ride._id (ride activeRide))
                                             (cancelUpdate now)) ;;
       await (Cycle_findByIdAndUpdate
                (option_map Cycle._id (cycleDoc activeRide))
                Cycle.available) ;;;
       ret (ok 200 (Some "Ride cancelled successfully") (RideData ride))
   end)%handler.

(** [try { ... } catch (error) { res.status(500)... }] *)
Definition try_catch (body : M Response) (msg : string) (f : option nat)
  (d : Db) : Response * Db :=
  match body (mkWorld d f) with
  | (inr res, w) => (res, db w)
  | (inl _, w) => (fail 500 msg, db w)
  end.

(** [router.post('/start', protect, checkActiveRide, ...)]: [user] is the
    identity [protect] resolved. *)
Definition post_start (user : ObjectId) (body : StartReq.t) (now : Z)
  (f : option nat) (d : Db) : Response * Db :=
  try_catch (startRide user (checkActiveRide user d) body now)
            "Server error while starting ride" f d.

(** [router.post('/end', protect, checkActiveRide, ...)] *)
Definition post_end (user : ObjectId) (body : EndReq.t) (now : Z)
  (f : option nat) (d : Db) : Response * Db :=
  try_catch (endRide (checkActiveRide user d) body now)
            "Server error while ending ride" f d.

(** [router.post('/cancel', protect, checkActiveRide, ...)] *)
Definition post_cancel (user : ObjectId) (now : Z)
  (f : option nat) (d : Db) : Response * Db :=
  try_catch (cancelRide (checkActiveRide user d) now)
            "Server error while cancelling ride" f d.

(** ** The cycles router: [PATCH /:id/status] *)

Definition updateCycleStatus (id : ObjectId) (status : string) : M Response :=
  (match Cycle.Status_of_string status with
   | None => ret (invalid ["Invalid status value"])
   | Some s =>
       cycle <- await (Cycle_findById id) ;;
       match cycle with
       | None => ret (fail 404 "Cycle not found")
       | Some cycle =>
           let cycle := Cycle.set_status s cycle in
           await (Cycle_save cycle) ;;;
           ret (ok 200 None (CycleData cycle))
       end
   end)%handler.

Definition patch_cycle_status (id : ObjectId) (status : string)
  (f : option nat) (d : Db) : Response * Db :=
  try_catch (updateCycleStatus id status)
            "Server error while updating cycle status" f d.

(** ** routes/users.js: [GET /:id/stats] *)

Inductive Role := role_user | role_admin.

Record UserStats := mkUserStats {
  totalRides : Z;
  totalDuration : Z;
  totalCost : Z;
  avgDuration : Z
}.

Inductive StatsResponse :=
| Forbidden                      (* 403 *)
| StatsOk (stats : UserStats).   (* 200 *)

Definition isAdmin (role : Role) : bool :=
  match role with
  | role_admin => true
  | role_user => false
  end.

(** The rider may read their own statistics, an administrator anybody's. *)
Definition get_user_stats (role : Role) (caller id : ObjectId) (d : Db)
  : StatsResponse :=
  if negb (isAdmin role) && negb (Nat.eqb caller id) then Forbidden
  else
    let stats := Ride.getUserStats id (rides d) in
    let result := match stats with
                  | s :: _ => s
                  | [] => Ride.mkStats 0 0 0
                  end in
    StatsOk
      (mkUserStats
         (Ride.totalRides result) (Ride.totalDuration result)
         (Ride.totalCost result)
         (if Ride.totalRides result >? 0
          then Math.round (inject_Z (Ride.totalDuration result) /
                           inject_Z (Ride.totalRides result))
          else 0)).

(** ** routes/admin.js: the revenue reducers *)

Module Admin.

(** [Math.round(x * 100) / 100] *)
Definition round2 (x : Q) : Q :=
  (inject_Z (Math.round (x * inject_Z 100)) / inject_Z 100)%Q.

(** [{ endTime: { $exists: true } }]: every ride is stored with the path,
    [null] while it is active, so the filter keeps every ride. *)
Definition endTimeExists (r : Ride.t) : bool := true.

(** [GET /dashboard]: [ride.duration / 60 * 10] summed up. *)
Definition dashboardRevenue (completedRides : list Ride.t) : Q :=
  fold_left
    (fun sum ride =>
       let durationHours := (inject_Z (js_num (Ride.duration ride)) /
                             inject_Z 60)%Q in
       (sum + durationHours * inject_Z 10)%Q)
    completedRides 0%Q.

Definition dashboard (d : Db) : Q :=
  round2 (dashboardRevenue (filter endTimeExists (rides d))).

(** [GET /analytics/rides]: [(ride.duration || 0) / 60 * 10] summed up
    over the rides started since [startDate]. *)
Definition analyticsRevenue (rides : list Ride.t) : Q :=
  fold_left
    (fun sum ride =>
       let durationHours := (inject_Z (or0 (Ride.duration ride)) /
                             inject_Z 60)%Q in
       (sum + durationHours * inject_Z 10)%Q)
    rides 0%Q.

Definition analytics (startDate : Z) (d : Db) : Q :=
  round2 (analyticsRevenue
            (filter (fun r => startDate <=? Ride.startTime r) (rides d))).

(** [GET /reports/comprehensive]: the same reducer, over the rides of the
    date range when both ends are given, over every ride otherwise. *)
Definition reportRides (range : option (Z * Z)) (d : Db) : list Ride.t :=
  match range with
  | Some (startDate, endDate) =>
      filter (fun r => (startDate <=? Ride.startTime r) &&
                       (Ride.startTime r <=? endDate)) (rides d)
  | None => rides d
  end.

Definition reportRevenue (rides : list Ride.t) : Q :=
  fold_left
    (fun sum ride =>
       let durationHours := (inject_Z (or0 (Ride.duration ride)) /
                             inject_Z 60)%Q in
       (sum + durationHours * inject_Z 10)%Q)
    rides 0%Q.

(** The [topUsers] reducer reads [ride.user._id] on every ride.  The Ride
    schema has no [user] path ([populate('user', ...)] does not create one),
    so [ride.user] is [undefined] and the read throws on the first ride. *)
Definition topUsers (rides : list Ride.t) : Exn + unit :=
  match rides with
  | [] => inr tt
  | _ :: _ => inl TypeError
  end.

(** The [totalRevenue] of the summary the report answers with; [None] is the
    500 of the [catch]. *)
Definition report (range : option (Z * Z)) (d : Db) : option Q :=
  let rides := reportRides range d in
  let totalRevenue := reportRevenue rides in
  match topUsers rides with
  | inl _ => None
  | inr _ => Some (round2 totalRevenue)
  end.

End Admin.

(** ** The service as a transition system *)

Inductive Op :=
| StartRide (user : ObjectId) (body : StartReq.t) (now : Z)
| EndRide (user : ObjectId) (body : EndReq.t) (now : Z)
| CancelRide (user : ObjectId) (now : Z)
| UpdateCycleStatus (id : ObjectId) (status : string).

(** One request served; [f] is the fuse of the database driver. *)
Definition exec (op : Op) (f : option nat) (d : Db) : Response * Db :=
  match op with
  | StartRide user body now => post_start user body now f d
  | EndRide user body now => post_end user body now f d
  | CancelRide user now => post_cancel user now f d
  | UpdateCycleStatus id status => patch_cycle_status id status f d
  end.

Definition isRideOp (op : Op) : bool :=
  match op with
  | UpdateCycleStatus _ _ => false
  | _ => true
  end.

(** The databases a sequence of [allowed] requests leads to. *)
Inductive reachable (allowed : Op -> option nat -> Prop) (d0 : Db)
  : Db -> Prop :=
| reach_init : reachable allowed d0 d0
| reach_step d op f :
    reachable allowed d0 d -> allowed op f ->
    reachable allowed d0 (snd (exec op f d)).

(** Any request, with or without a failing database call. *)
Definition anyRequest (op : Op) (f : option nat) : Prop := True.

(** Any request, the database never failing. *)
Definition noFailure (op : Op) (f : option nat) : Prop := f = None.

(** Start, end and cancel only, the database never failing. *)
Definition rideRequest (op : Op) (f : option nat) : Prop :=
  isRideOp op = true /\ f = None.

(** A database before its first ride: no ride stored, cycles with distinct
    [_id] and none of them in use. *)
Definition fresh (d : Db) : Prop :=
  rides d = [] /\
  NoDup (map Cycle._id (cycles d)) /\
  (forall c, In c (cycles d) -> Cycle.status c <> Cycle.in_use).

(** ** The properties *)

Definition rideIsActive (r : Ride.t) : bool :=
  Ride.Status_eqb (Ride.status r) Ride.active.

(** The rides in [active] state of a rider, and those on a cycle. *)
Definition activeRidesOf (u : ObjectId) (d : Db) : list Ride.t :=
  filter (fun r => Nat.eqb (Ride.userId r) u && rideIsActive r) (rides d).

Definition activeRidesOn (c : ObjectId) (d : Db) : list Ride.t :=
  filter (fun r => Nat.eqb (Ride.cycleId r) c && rideIsActive r) (rides d).

(** A cycle is [in-use] exactly when an active ride references it. *)
Definition cycle_ride_sync (d : Db) : Prop :=
  forall c, In c (cycles d) ->
    (Cycle.status c = Cycle.in_use <->
     exists r, In r (rides d) /\ Ride.status r = Ride.active /\
               Ride.cycleId r = Cycle._id c).

(** At most one active ride per rider. *)
Definition one_active_ride_per_rider (d : Db) : Prop :=
  forall u, (List.length (activeRidesOf u d) <= 1)%nat.


(** At most one active ride per cycle. *)
Definition one_active_ride_per_cycle (d : Db) : Prop :=
  forall c, (List.length (activeRidesOn c d) <= 1)%nat.

(** A ride in [active] state has no end time yet. *)
Definition active_rides_open (d : Db) : Prop :=
  forall r, In r (rides d) ->
    Ride.status r = Ride.active -> Ride.endTime r = None.

(** The [_id] of every stored ride was handed out already. *)
Definition ride_ids_issued (d : Db) : Prop :=
  forall r, In r (rides d) -> (Ride._id r < nextId d)%nat.

(** What the ride handlers keep true of the database when each of them runs
    to its end. *)
Record Consistent (d : Db) : Prop := mkConsistent {
  ride_ids_unique : NoDup (map Ride._id (rides d));
  ride_ids_below : ride_ids_issued d;
  cycle_ids_unique : NoDup (map Cycle._id (cycles d));
  rides_open : active_rides_open d;
  rider_once : one_active_ride_per_rider d;
  cycle_once : one_active_ride_per_cycle d;
  cycles_synced : cycle_ride_sync d
}.

(** ** The laws in the words of the specification *)

(** [duration = round((endTime - startTime) / 60000)] *)
Definition spec_duration (startTime endTime : Z) : Z :=
  Math.round (inject_Z (endTime - startTime) / inject_Z 60000).

(** [cost = ceil(duration / 60) * rate_per_hour] *)
Definition spec_cost (rate_per_hour duration : Z) : Z :=
  Math.ceil (inject_Z duration / inject_Z 60) * rate_per_hour.

(** [avgDuration = totalDuration / count], [0] when [count] is [0]. *)
Definition spec_avgDuration (totalDuration count : Z) : Q :=
  if count =? 0 then 0%Q else (inject_Z totalDuration / inject_Z count)%Q.

(** The completed rides of a rider. *)
Definition completedRidesOf (u : ObjectId) (d : Db) : list Ride.t :=
  filter (fun r => Nat.eqb (Ride.userId r) u &&
                   Ride.Status_eqb (Ride.status r) Ride.completed) (rides d).

(** ** The scenarios of the specification *)

Definition S1 : ObjectId := 1.
Definition S2 : ObjectId := 2.
Definition U1 : ObjectId := 7.
Definition U2 : ObjectId := 8.

(** Two stations and two available cycles, no ride yet. *)
Definition scenarioDb : Db :=
  mkDb []
       [ Cycle.mk 10 "CYCLE001" S1 Cycle.available true;
         Cycle.mk 11 "CYCLE002" S1 Cycle.available true ]
       [ Station.mk S1 "Central" true; Station.mk S2 "Harbour" true ]
       100.

(** Scenario 1: [U1] starts a ride on CYCLE001 at time [0]. *)
Definition afterStart : Db :=
  snd (post_start U1 (StartReq.mk "CYCLE001" (Some (castable S1))) 0 None scenarioDb).

(** Scenario 4: [U1] ends that ride ten minutes later. *)
Definition afterEnd : Db :=
  snd (post_end U1 (EndReq.mk "CYCLE001" (Some (castable S2))
                              (Some (Ride.mkFeedback (Some 5) None)))
                600000 None afterStart).

(** A stored ride of [U1], completed, with the given duration in minutes. *)
Definition completedRide (id : ObjectId) (minutes : Z) : Ride.t :=
  Ride.mk id U1 10 S1 0 (Some (minutes * 60000)) (Some minutes)
          Ride.completed S1 (Some S2) Ride.noFeedback.

(** Two completed rides of one and two minutes. *)
Definition historyDb : Db :=
  mkDb [ completedRide 100 1; completedRide 101 2 ]
       (cycles scenarioDb) (stations scenarioDb) 102.

(** One completed ride of a full hour. *)
Definition hourDb : Db :=
  mkDb [ completedRide 100 60 ] (cycles scenarioDb) (stations scenarioDb) 101.

(** ** The claims of the specification, as stated, where the code departs *)

(** User statistics with the plain quotient as average. *)
Definition stats_with_exact_average (u : ObjectId) (d : Db) : Prop :=
  exists s,
    get_user_stats role_user u u d = StatsOk s /\
    totalDuration s =
      sumZ (map (fun r => or0 (Ride.duration r)) (completedRidesOf u d)) /\
    totalCost s =
      sumZ (map (fun r => spec_cost 1 (or0 (Ride.duration r)))
                (completedRidesOf u d)) /\
    (inject_Z (avgDuration s) ==
     spec_avgDuration (totalDuration s)
                      (Z.of_nat (List.length (completedRidesOf u d))))%Q.

(** One rate and one formula behind the cost virtual and the three revenue
    figures of the administrator. *)
Definition one_formula_everywhere : Prop :=
  exists rate : Z,
    forall l : list Ride.t,
      let total :=
        inject_Z (sumZ (map (fun r => spec_cost rate (or0 (Ride.duration r))) l))
      in
      (inject_Z (sumZ (map Ride.cost l)) == total)%Q /\
      (Admin.dashboardRevenue l == total)%Q /\
      (Admin.analyticsRevenue l == total)%Q /\
      (Admin.reportRevenue l == total)%Q.


(** The availability invariant over every request the service accepts. *)
Definition sync_in_every_state : Prop :=
  forall d0 d, fresh d0 -> reachable noFailure d0 d -> cycle_ride_sync d.

(** ** What a request refers to *)

(** No active cycle carries the scanned identifier, white space around it
    left aside. *)
Definition unknownCycle (cycleId : string) (d : Db) : Prop :=
  forall c, In c (cycles d) ->
    Cycle.cycleId c = trim cycleId -> Cycle.isActive c = false.

(** The value is an id, and no station has it. *)
Definition unknownStation (stationId : option IdParam) (d : Db) : Prop :=
  exists i, stationId = Some (castable i) /\
            forall s, In s (stations d) -> Station._id s <> i.

(** The cycle a scanned identifier resolves to. *)
Definition resolveCycle (cycleId : string) (d : Db) : option Cycle.t :=
  fst (Cycle_findOne (byQrCode cycleId) d).

(** ** The writes of the ride handlers *)

(** The document [POST /start] creates for a rider, a cycle and a station. *)
Definition newRide (d : Db) (user : ObjectId) (c : Cycle.t) (st : ObjectId)
  (now : Z) : Ride.t :=
  Ride.mk (nextId d) user (Cycle._id c) st now None (Some 0) Ride.active st
          None Ride.noFeedback.

(** The database after the insert of a ride. *)
Definition withRide (r : Ride.t) (d : Db) : Db :=
  mkDb (rides d ++ [r]) (cycles d) (stations d) (S (nextId d)).

(** The database after the update of the ride with a given [_id]. *)
Definition withRideUpdate (id : ObjectId) (g : Ride.t -> Ride.t) (d : Db)
  : Db :=
  set_rides (updateOne (fun r => Nat.eqb (Ride._id r) id) g (rides d)) d.

(** The database after the status write on the cycle with a given [_id]. *)
Definition withCycleStatus (id : ObjectId) (s : Cycle.Status) (d : Db) : Db :=
  set_cycles (updateOne (fun c => Nat.eqb (Cycle._id c) id)
                        (Cycle.set_status s) (cycles d)) d.

(** The answers of [POST /start] other than success. *)
Definition startError : Response :=
  fail 500 "Server error while starting ride".

(** The rider has no active ride: none of their rides is in [active] state
    with no end time. *)
Definition noActiveRide (user : ObjectId) (d : Db) : Prop :=
  forall r, In r (rides d) ->
    Ride.userId r = user -> Ride.status r = Ride.active ->
    Ride.endTime r <> None.

(** ** routes/rides.js: the read routes *)

(** The body of the [try] block of [GET /active]. *)
Definition activeRide (activeRide : option PopulatedRide) : M Response :=
  (match activeRide with
   | None => ret (ok 200 (Some "No active ride") (RideData None))
   | Some activeRide =>
       populated <- await (Ride_populate (ride activeRide)) ;;
       ret (ok 200 None (PopulatedData populated))
   end)%handler.

(** [router.get('/active', protect, checkActiveRide, ...)] *)
Definition get_active (user : ObjectId) (f : option nat) (d : Db)
  : Response * Db :=
  try_catch (activeRide (checkActiveRide user d))
            "Server error while fetching active ride" f d.

Module RideCounts.
Record t := mk {
  activeRides : nat;
  totalRides : nat;
  completedRides : nat
}.
End RideCounts.

(** [{ endTime: null }] *)
Definition endTimeIsNull (r : Ride.t) : bool :=
  match Ride.endTime r with
  | None => true
  | Some _ => false
  end.

(** [GET /stats] of the rides router, when the database serves the three
    counts. *)
Definition get_rides_stats (d : Db) : RideCounts.t :=
  RideCounts.mk (List.length (filter endTimeIsNull (rides d)))
                (List.length (rides d))
                (List.length (filter Admin.endTimeExists (rides d))).

(** *** Ride history, page by page *)

(** [parseInt(q) || dflt]: [q] is what [parseInt] made of the query
    parameter, [None] for [NaN] (the parameter is missing or no number). *)
Definition queryInt (q : option Z) (dflt : Z) : Z :=
  match q with
  | Some n => if n =? 0 then dflt else n
  | None => dflt
  end.

(** The order of [endTime] values, [null] below every date. *)
Definition endTime_ltb (a b : option Z) : bool :=
  match a, b with
  | None, Some _ => true
  | Some x, Some y => x <? y
  | _, None => false
  end.

(** [.sort({ endTime: -1 })]: latest end first.  The database promises no
    order among rides with equal end times; they are left in natural order
    here, which is one of the answers it may give ([sortedByEndTime]). *)
Fixpoint insertByEndTime (r : Ride.t) (l : list Ride.t) : list Ride.t :=
  match l with
  | [] => [r]
  | x :: l' =>
      if endTime_ltb (Ride.endTime r) (Ride.endTime x)
      then x :: insertByEndTime r l'
      else r :: x :: l'
  end.

Definition sortByEndTimeDesc (l : list Ride.t) : list Ride.t :=
  fold_right insertByEndTime [] l.

Module History.
Record Page := mkPage {
  data : list Ride.t;
  page : Z;
  limit : Z;
  total : Z;
  pages : Z
}.
End History.

(** [GET /history]: the completed rides of the rider, latest first, [limit]
    of them after the first [(page - 1) * limit].  The database refuses a
    negative [skip] (the answer is then the 500 of the [catch]) and reads a
    negative [limit] as its absolute value. *)
Definition get_history (user : ObjectId) (qpage qlimit : option Z) (d : Db)
  : option History.Page :=
  let page := queryInt qpage 1 in
  let limit := queryInt qlimit 10 in
  let skip := (page - 1) * limit in
  let found :=
    sortByEndTimeDesc (filter (Ride.isCompletedRideOf user) (rides d)) in
  if skip <? 0 then None
  else
    let docs := firstn (Z.to_nat (Z.abs limit)) (skipn (Z.to_nat skip) found) in
    let total := Z.of_nat (List.length
                             (filter (Ride.isCompletedRideOf user) (rides d))) in
    Some (History.mkPage docs page limit total
            (Math.ceil (inject_Z total / inject_Z limit))).

(** [GET /:id/rides] of the users router: the same pages, for the rider
    themselves or an administrator. *)
Definition get_user_rides (role : Role) (caller id : ObjectId)
  (qpage qlimit : option Z) (d : Db) : option (option History.Page) :=
  if negb (isAdmin role) && negb (Nat.eqb caller id) then None
  else Some (get_history id qpage qlimit d).

(** ** Removing cycles and stations *)

Definition set_stations (l : list Station.t) (d : Db) : Db :=
  mkDb (rides d) (cycles d) l (nextId d).

Definition Cycle_set_isActive (b : bool) (c : Cycle.t) : Cycle.t :=
  Cycle.mk (Cycle._id c) (Cycle.cycleId c) (Cycle.stationId c)
           (Cycle.status c) b.

Definition Station_set_isActive (b : bool) (s : Station.t) : Station.t :=
  Station.mk (Station._id s) (Station.name s) b.

(** [deleteOne]: the first document that matches is removed. *)
Fixpoint removeOne {A : Type} (p : A -> bool) (l : list A) : list A :=
  match l with
  | [] => []
  | x :: l' => if p x then l' else x :: removeOne p l'
  end.

(** [Cycle.findByIdAndUpdate(id, { isActive: false }, { new: true })] *)
Definition Cycle_deactivate (id : ObjectId) (d : Db) : option Cycle.t * Db :=
  (option_map (Cycle_set_isActive false)
              (find (fun c => Nat.eqb (Cycle._id c) id) (cycles d)),
   set_cycles (updateOne (fun c => Nat.eqb (Cycle._id c) id)
                         (Cycle_set_isActive false) (cycles d)) d).

(** [Cycle.findByIdAndDelete(id)] *)
Definition Cycle_findByIdAndDelete (id : ObjectId) (d : Db)
  : option Cycle.t * Db :=
  (find (fun c => Nat.eqb (Cycle._id c) id) (cycles d),
   set_cycles (removeOne (fun c => Nat.eqb (Cycle._id c) id) (cycles d)) d).

(** [Station.findByIdAndUpdate(id, { isActive: false }, { new: true })] *)
Definition Station_deactivate (id : ObjectId) (d : Db)
  : option Station.t * Db :=
  (option_map (Station_set_isActive false)
              (find (fun s => Nat.eqb (Station._id s) id) (stations d)),
   set_stations (updateOne (fun s => Nat.eqb (Station._id s) id)
                           (Station_set_isActive false) (stations d)) d).

(** [DELETE /:id] of the cycles router: the cycle is kept and marked
    inactive. *)
Definition delete_cycle (id : ObjectId) (f : option nat) (d : Db)
  : Response * Db :=
  try_catch
    (cycle <- await (Cycle_deactivate id) ;;
     match cycle with
     | None => ret (fail 404 "Cycle not found")
     | Some _ => ret (ok 200 (Some "Cycle deactivated successfully") NoData)
     end)%handler
    "Server error while deleting cycle" f d.

(** [DELETE /cycles/:id] of routes/admin.js: the cycle is removed. *)
Definition admin_delete_cycle (id : ObjectId) (f : option nat) (d : Db)
  : Response * Db :=
  try_catch
    (cycle <- await (Cycle_findByIdAndDelete id) ;;
     match cycle with
     | None => ret (fail 404 "Cycle not found")
     | Some _ => ret (ok 200 (Some "Cycle deleted successfully") NoData)
     end)%handler
    "Error deleting cycle" f d.

(** [DELETE /:id] of routes/stations.js: the station is kept and marked
    inactive. *)
Definition delete_station (id : ObjectId) (f : option nat) (d : Db)
  : Response * Db :=
  try_catch
    (station <- await (Station_deactivate id) ;;
     match station with
     | None => ret (fail 404 "Station not found")
     | Some _ => ret (ok 200 (Some "Station deactivated successfully") NoData)
     end)%handler
    "Server error while deleting station" f d.

(** ** routes/stations.js: [GET /:id/stats] *)

Module StationStats.
Record t := mk {
  total : Z;          (* cycles.total *)
  available : Z;      (* cycles.available *)
  inUse : Z;          (* cycles.inUse *)
  totalRides : Z;
  totalDuration : Z;
  avgDuration : option Q   (* [null] when no ride has a duration *)
}.
End StationStats.

(** [{ stationId: id, isActive: true }] *)
Definition cycleAtStation (id : ObjectId) (c : Cycle.t) : bool :=
  Nat.eqb (Cycle.stationId c) id && Cycle.isActive c.

(** [{ stationId: id, status: 'available', isActive: true }] *)
Definition availableAtStation (id : ObjectId) (c : Cycle.t) : bool :=
  Nat.eqb (Cycle.stationId c) id &&
  Cycle.Status_eqb (Cycle.status c) Cycle.available && Cycle.isActive c.

(** [{ startStation: id, status: 'completed' }] *)
Definition completedFromStation (id : ObjectId) (r : Ride.t) : bool :=
  Nat.eqb (Ride.startStation r) id &&
  Ride.Status_eqb (Ride.status r) Ride.completed.

(** The durations that are numbers, which [$sum] and [$avg] work on. *)
Definition numericDurations (l : list Ride.t) : list Z :=
  flat_map (fun r => match Ride.duration r with
                     | Some n => [n]
                     | None => []
                     end) l.

(** [{ $avg: '$duration' }] *)
Definition avg (l : list Z) : option Q :=
  match l with
  | [] => None
  | _ => Some (inject_Z (sumZ l) / inject_Z (Z.of_nat (List.length l)))%Q
  end.

(** The statistics of a station, when the database serves; [None] is the
    404 for an unknown station. *)
Definition get_station_stats (id : ObjectId) (d : Db)
  : option StationStats.t :=
  match fst (Station_findById (Some id) d) with
  | None => None
  | Some _ =>
      let totalCycles :=
        Z.of_nat (List.length (filter (cycleAtStation id) (cycles d))) in
      let availableCycles :=
        Z.of_nat (List.length (filter (availableAtStation id) (cycles d))) in
      let matched := filter (completedFromStation id) (rides d) in
      Some
        match matched with
        | [] =>
            StationStats.mk totalCycles availableCycles
              (totalCycles - availableCycles) 0 0 (Some 0%Q)
        | _ =>
            StationStats.mk totalCycles availableCycles
              (totalCycles - availableCycles)
              (Z.of_nat (List.length matched))
              (sumZ (numericDurations matched))
              (avg (numericDurations matched))
        end
  end.

(** ** routes/admin.js: the summary of [GET /analytics/rides] *)

Module Summary.
Record t := mk {
  totalRides : Z;
  totalDuration : Z;
  totalRevenue : Q;
  averageDuration : Z
}.
End Summary.

Definition analyticsSummary (rides : list Ride.t) : Summary.t :=
  let totalRides := Z.of_nat (List.length rides) in
  let totalDuration :=
    fold_left (fun sum ride => sum + or0 (Ride.duration ride)) rides 0 in
  let totalRevenue := Admin.analyticsRevenue rides in
  Summary.mk totalRides totalDuration (Admin.round2 totalRevenue)
             (if totalRides >? 0
              then Math.round (inject_Z totalDuration / inject_Z totalRides)
              else 0).

(** ** The requests that go through *)

(** The value is the [_id] of a stored station. *)
Definition knownStation (stationId : option IdParam) (d : Db) : Prop :=
  exists st, stationId = Some (castable st) /\
             In st (map Station._id (stations d)).

(** What a start leaves and answers once it has resolved an available cycle
    [c] and a station [st]. *)
Definition started (d : Db) (user : ObjectId) (c : Cycle.t) (st : ObjectId)
  (now : Z) : Response * Db :=
  let d' := withCycleStatus (Cycle._id c) Cycle.in_use
              (withRide (newRide d user c st now) d) in
  (ok 201 (Some "Ride started successfully")
      (PopulatedData (fst (Ride_populate (newRide d user c st now) d'))), d').

(** What an end leaves and answers for the active ride [ar]. *)
Definition ended (d : Db) (ar : PopulatedRide) (body : EndReq.t) (now : Z)
  : Response * Db :=
  let upd := endUpdate now (objectId (EndReq.stationId body))
             (EndReq.sanitized body) in
  (ok 200 (Some "Ride ended successfully")
      (RideData (option_map upd
                   (find (fun r => Nat.eqb (Ride._id r) (Ride._id (ride ar)))
                         (rides d)))),
   withCycleStatus (Ride.cycleId (ride ar)) Cycle.available
     (withRideUpdate (Ride._id (ride ar)) upd d)).

(** What a cancel leaves and answers for the active ride [ar]. *)
Definition cancelled (d : Db) (ar : PopulatedRide) (now : Z)
  : Response * Db :=
  (ok 200 (Some "Ride cancelled successfully")
      (RideData (option_map (cancelUpdate now)
                   (find (fun r => Nat.eqb (Ride._id r) (Ride._id (ride ar)))
                         (rides d)))),
   withCycleStatus (Ride.cycleId (ride ar)) Cycle.available
     (withRideUpdate (Ride._id (ride ar)) (cancelUpdate now) d)).

(** ** The shape of stored rides *)

(** A rating within 1..5 and a comment of at most 500 characters. *)
Definition validFeedback (fb : Ride.Feedback) : Prop :=
  (forall n, Ride.rating fb = Some n -> 1 <= n <= 5) /\
  (forall c, Ride.comment fb = Some c -> (String.length c <= 500)%nat).

(** What the state of a ride says about its other paths. *)
Definition lifecycle (r : Ride.t) : Prop :=
  match Ride.status r with
  | Ride.active =>
      Ride.endTime r = None /\ Ride.endStation r = None /\
      Ride.feedback r = Ride.noFeedback
  | Ride.completed =>
      Ride.endTime r <> None /\ Ride.endStation r <> None
  | Ride.cancelled =>
      Ride.endTime r <> None /\ Ride.endStation r = None /\
      Ride.feedback r = Ride.noFeedback
  end.

(** The rides as the routes store them. *)
Record RidesAsStored (d : Db) : Prop := mkRidesAsStored {
  stored_ids_unique : NoDup (map Ride._id (rides d));
  stored_ids_issued : ride_ids_issued d;
  stored_lifecycle : forall r, In r (rides d) -> lifecycle r;
  stored_duration : forall r, In r (rides d) -> Ride.duration r = Some 0;
  stored_station :
    forall r, In r (rides d) -> Ride.startStation r = Ride.stationId r;
  stored_feedback : forall r, In r (rides d) -> validFeedback (Ride.feedback r)
}.

(** Two documents for the same ride: the paths no route rewrites agree. *)
Definition sameRide (r r' : Ride.t) : Prop :=
  Ride._id r' = Ride._id r /\ Ride.userId r' = Ride.userId r /\
  Ride.cycleId r' = Ride.cycleId r /\ Ride.stationId r' = Ride.stationId r /\
  Ride.startTime r' = Ride.startTime r /\
  Ride.startStation r' = Ride.startStation r /\
  Ride.duration r' = Ride.duration r.

(** The ride of the scenario as [afterEnd] stores it. *)
Definition endedRide : Ride.t :=
  Ride.mk 100 U1 10 S1 0 (Some 600000) (Some 0) Ride.completed S1 (Some S2)
          (Ride.mkFeedback (Some 5) None).

(** The rides on page [k + 1] of the history in pages of [n]. *)
Definition historyPage (user : ObjectId) (d : Db) (n k : nat)
  : list Ride.t :=
  match get_history user (Some (Z.of_nat (S k))) (Some (Z.of_nat n)) d with
  | Some p => History.data p
  | None => []
  end.

(** Latest end first. *)
Definition endsNotBefore (a b : Ride.t) : Prop :=
  endTime_ltb (Ride.endTime a) (Ride.endTime b) = false.

(** The active cycles at a station that are not [available]. *)
Definition notAvailableAtStation (id : ObjectId) (c : Cycle.t) : bool :=
  cycleAtStation id c &&
  negb (Cycle.Status_eqb (Cycle.status c) Cycle.available).

(** The four status names a request may carry. *)
Definition statusNames : list string :=
  ["available"; "in-use"; "maintenance"; "out-of-service"].

(** The statistics of a rider as an administrator reads them. *)
Definition statsOf (id : ObjectId) (d : Db) : StatsResponse :=
  get_user_stats role_admin id id d.

(** ** Requests that overlap

    [checkActiveRide] is a middleware: it runs, and leaves [req.activeRide],
    before the handler starts, and the server takes up other requests
    between the two (and at every [await] of a handler).  A request in that
    interval is [pending], with what the lookup returned.  The handler
    itself is still taken as one step here: every database [overlapping]
    reaches is one the service can reach, and it is enough for the rider's
    active rides that the lookup and the insert are apart. *)

Inductive Pending := pending (op : Op) (activeRide : option PopulatedRide).

(** The lookup of the middleware in front of a request. *)
Definition lookup (op : Op) (d : Db) : option PopulatedRide :=
  match op with
  | StartRide user _ _ => checkActiveRide user d
  | EndRide user _ _ => checkActiveRide user d
  | CancelRide user _ => checkActiveRide user d
  | UpdateCycleStatus _ _ => None
  end.

(** The handler of a request, for the [req.activeRide] the middleware
    left. *)
Definition handle (op : Op) (activeRide : option PopulatedRide)
  (f : option nat) (d : Db) : Response * Db :=
  match op with
  | StartRide user body now =>
      try_catch (startRide user activeRide body now)
                "Server error while starting ride" f d
  | EndRide user body now =>
      try_catch (endRide activeRide body now)
                "Server error while ending ride" f d
  | CancelRide user now =>
      try_catch (cancelRide activeRide now)
                "Server error while cancelling ride" f d
  | UpdateCycleStatus id status => patch_cycle_status id status f d
  end.

(** The databases that overlapping requests lead to, with the requests whose
    handler has not run yet. *)
Inductive overlapping (d0 : Db) : Db -> list Pending -> Prop :=
| overlap_init : overlapping d0 d0 []
| overlap_lookup d q op :
    overlapping d0 d q ->
    overlapping d0 d (pending op (lookup op d) :: q)
| overlap_handle d q1 q2 op ar f :
    overlapping d0 d (q1 ++ pending op ar :: q2) ->
    overlapping d0 (snd (handle op ar f d)) (q1 ++ q2).

(** Two start requests of [U1], on the two cycles of the scenario, whose
    lookups both ran before either handler. *)
Definition twoStarts : Db :=
  let s1 := StartRide U1 (StartReq.mk "CYCLE001" (Some (castable S1))) 0 in
  let s2 := StartRide U1 (StartReq.mk "CYCLE002" (Some (castable S1))) 1 in
  let ar1 := lookup s1 scenarioDb in
  let ar2 := lookup s2 scenarioDb in
  snd (handle s2 ar2 None (snd (handle s1 ar1 None scenarioDb))).

(** The ride of [afterStart] once the administrator has removed its cycle
    with [DELETE /cycles/:id]. *)
Definition orphanDb : Db := snd (admin_delete_cycle 10 None afterStart).

(** ** More claims of the specification, as stated *)

(** At most one active ride per rider in every state the ride operations
    reach, overlapping requests included. *)
Definition one_active_ride_in_every_state : Prop :=
  forall d0 d q,
    rides d0 = [] -> overlapping d0 d q -> one_active_ride_per_rider d.

(** The active cycle that carries the given external identifier. *)
Definition cycleNamed (cycleId : string) (d : Db) : option Cycle.t :=
  find (fun c => String.eqb (Cycle.cycleId c) cycleId && Cycle.isActive c)
       (cycles d).

(** The given station does not exist: no station is stored under it. *)
Definition noSuchStation (stationId : option IdParam) (d : Db) : Prop :=
  forall s, In s (stations d) -> stationId <> Some (castable (Station._id s)).

(** A request is turned down with a status, and nothing is written. *)
Definition turnedDown (status : nat) (res : Response * Db) (d : Db) : Prop :=
  code (fst res) = status /\ snd res = d.

(** The rejections of [EndRide], read in the order of the checks: 404 for a
    cycle that does not resolve, 400 for one that is not the cycle of the
    active ride, 404 for a station that does not resolve. *)
Definition end_rejections_as_stated : Prop :=
  forall user body now d ar,
    EndReq.validationResult body = [] ->
    Ride_findActiveRide user d = Some ar ->
    let res := post_end user body now None d in
    (cycleNamed (EndReq.cycleId body) d = None -> turnedDown 404 res d) /\
    (forall c, cycleNamed (EndReq.cycleId body) d = Some c ->
       Cycle._id c <> Ride.cycleId (ride ar) -> turnedDown 400 res d) /\
    (forall c, cycleNamed (EndReq.cycleId body) d = Some c ->
       Cycle._id c = Ride.cycleId (ride ar) ->
       noSuchStation (EndReq.stationId body) d -> turnedDown 404 res d).

(** The rejections of [StartRide], read in the order of the checks. *)
Definition start_rejections_as_stated : Prop :=
  forall user body now d,
    StartReq.validationResult body = [] ->
    let res := post_start user body now None d in
    (Ride_findActiveRide user d <> None -> turnedDown 400 res d) /\
    (Ride_findActiveRide user d = None ->
       (cycleNamed (StartReq.cycleId body) d = None ->
          turnedDown 404 res d) /\
       (forall c, cycleNamed (StartReq.cycleId body) d = Some c ->
          Cycle.status c <> Cycle.available -> turnedDown 400 res d) /\
       (forall c, cycleNamed (StartReq.cycleId body) d = Some c ->
          Cycle.status c = Cycle.available ->
          noSuchStation (StartReq.stationId body) d ->
          turnedDown 404 res d)).

(** ** The order of a sorted query *)

(** What the database may answer to [.sort({ endTime: -1 })] over the
    documents [l]: all of them, latest end first.  The order of two rides
    with the same end time is not determined, and may differ from one query
    to the next; [sortByEndTimeDesc] is one such answer. *)
Definition sortedByEndTime (l out : list Ride.t) : Prop :=
  Permutation out l /\ StronglySorted endsNotBefore out.

(** A page [k + 1] of [n] rides that [GET /history] may answer. *)
Definition isHistoryPage (user : ObjectId) (d : Db) (n k : nat)
  (pg : list Ride.t) : Prop :=
  exists out,
    sortedByEndTime (filter (Ride.isCompletedRideOf user) (rides d)) out /\
    pg = firstn n (skipn (k * n) out).

(** The number of pages of [n] that [GET /history] announces. *)
Definition historyPages (user : ObjectId) (d : Db) (n : nat) : nat :=
  Z.to_nat
    (Math.ceil
       (inject_Z (Z.of_nat (List.length
                              (filter (Ride.isCompletedRideOf user) (rides d))))
        / inject_Z (Z.of_nat n))).

(** * Verification *)

(** ** Arithmetic of the rounding functions *)

Section Rounding.

Lemma floor_div (a b : Z) :
  Math.floor (inject_Z a / inject_Z b) = a / b.
Proof. unfold Math.floor. symmetry. apply Zdiv_Qdiv. Qed.

Lemma ceil_div (a b : Z) :
  Math.ceil (inject_Z a / inject_Z b) = - ((- a) / b).
Proof.
  unfold Math.ceil, Qceiling. f_equal.
  rewrite Zdiv_Qdiv. apply Qfloor_comp.
  rewrite inject_Z_opp. unfold Qdiv. ring.
Qed.

Lemma round_div (a b : Z) :
  0 < b -> Math.round (inject_Z a / inject_Z b) = (2 * a + b) / (2 * b).
Proof.
  intros Hb. unfold Math.round. rewrite Zdiv_Qdiv. apply Qfloor_comp.
  rewrite inject_Z_plus, !inject_Z_mult.
  assert (Hq : ~ inject_Z b == 0).
  { intros H. apply (inject_Z_injective b 0) in H. lia. }
  field. exact Hq.
Qed.

(** [Math.round] of a quotient is the nearest integer, a tie going up. *)
Lemma round_div_nearest (a b : Z) :
  0 < b ->
  let m := Math.round (inject_Z a / inject_Z b) in
  2 * a - b < 2 * m * b <= 2 * a + b.
Proof.
  intros Hb m. subst m. rewrite (round_div a b Hb).
  pose proof (Z.div_mod (2 * a + b) (2 * b) ltac:(lia)) as Hdm.
  pose proof (Z.mod_pos_bound (2 * a + b) (2 * b) ltac:(lia)) as Hm.
  nia.
Qed.

(** [ceil(d / 60)] counts the started hours. *)
Lemma ceil_div_hours (d : Z) :
  let h := Math.ceil (inject_Z d / inject_Z 60) in
  60 * (h - 1) < d <= 60 * h.
Proof.
  intros h. subst h. rewrite ceil_div.
  pose proof (Z.div_mod (- d) 60 ltac:(lia)) as Hdm.
  pose proof (Z.mod_pos_bound (- d) 60 ltac:(lia)) as Hm.
  lia.
Qed.

End Rounding.

(** ** Collections *)

Section Collections.

Context {A : Type}.
Variables (p : A -> bool) (f : A -> A).

Lemma updateOne_length (l : list A) :
  List.length (updateOne p f l) = List.length l.
Proof.
  induction l as [|x l IH]; simpl; [reflexivity|].
  destruct (p x); simpl; congruence.
Qed.

(** A path the update does not write keeps its values. *)
Lemma updateOne_map {B : Type} (g : A -> B) (l : list A) :
  (forall x, g (f x) = g x) -> map g (updateOne p f l) = map g l.
Proof.
  intros Hg. induction l as [|x l IH]; simpl; [reflexivity|].
  destruct (p x); simpl; [rewrite Hg|rewrite IH]; reflexivity.
Qed.

Lemma updateOne_no_match (l : list A) :
  find p l = None -> updateOne p f l = l.
Proof.
  induction l as [|x l IH]; simpl; [reflexivity|].
  destruct (p x); [discriminate|]. intros H. now rewrite IH.
Qed.

(** An updated document is an old one, or the image of an old one that the
    filter selects. *)
Lemma updateOne_In (l : list A) (y : A) :
  In y (updateOne p f l) ->
  In y l \/ exists x, In x l /\ p x = true /\ y = f x.
Proof.
  induction l as [|x l IH]; simpl; [tauto|].
  destruct (p x) eqn:Hp; simpl.
  - intros [<-|H]; [right; exists x; auto|auto].
  - intros [<-|H]; [auto|].
    destruct (IH H) as [H'|(x' & Hin & Hp' & ->)]; [auto|].
    right. exists x'. auto.
Qed.

End Collections.

(** ** The Ride model: duration and cost *)

(** The [pre('save')] hook stores the duration law of the specification. *)
Lemma preSave_duration (r : Ride.t) (e : Z) :
  Ride.endTime r = Some e ->
  Ride.duration (Ride.preSave r) = Some (spec_duration (Ride.startTime r) e).
Proof.
  intros He. unfold Ride.preSave. rewrite He. reflexivity.
Qed.

(** The aggregation expression and the virtual agree on every ride, and both
    are the cost law at rate [1]. *)
Lemma costExpr_cost (r : Ride.t) : Ride.costExpr r = Ride.cost r.
Proof.
  unfold Ride.costExpr, Ride.cost, falsy.
  destruct (Ride.duration r) as [n|]; [|reflexivity].
  destruct (Z.eqb_spec n 0) as [->|]; reflexivity.
Qed.

Lemma cost_spec (r : Ride.t) :
  Ride.cost r = spec_cost 1 (or0 (Ride.duration r)).
Proof.
  rewrite <- costExpr_cost. unfold Ride.costExpr, spec_cost.
  destruct (Ride.duration r); reflexivity.
Qed.

(** C10. A ride whose stored duration is 0 serializes with cost 0 and with
    the formatted duration 'Ongoing', not '0m': both virtuals give for the
    duration 0 what they give for a ride without a duration. *)
Theorem zero_duration_virtuals (r : Ride.t) :
  Ride.duration r = Some 0 ->
  Ride.cost r = 0 /\
  Ride.formattedDuration r = "Ongoing" /\
  Ride.formattedDuration r <> "0m" /\
  Ride.cost r = Ride.cost (Ride.set_duration None r) /\
  Ride.formattedDuration r = Ride.formattedDuration (Ride.set_duration None r).
Proof.
  intros H. unfold Ride.cost, Ride.formattedDuration. simpl. rewrite H. simpl.
  repeat split; try reflexivity. discriminate.
Qed.

Lemma zero_duration_virtuals_witness :
  Ride.duration (completedRide 100 0) = Some 0 /\
  Ride.cost (completedRide 100 0) = 0 /\
  Ride.formattedDuration (completedRide 100 0) = "Ongoing".
Proof.
  split; [reflexivity|].
  destruct (zero_duration_virtuals (completedRide 100 0) eq_refl)
    as (Hc & Hf & _).
  split; [exact Hc|exact Hf].
Defined.

(** An ended ride whose elapsed time rounds to 0 minutes is such a ride once
    the hook has run on it. *)
Lemma short_ride_virtuals (r : Ride.t) (e : Z) :
  Ride.endTime r = Some e ->
  spec_duration (Ride.startTime r) e = 0 ->
  Ride.cost (Ride.preSave r) = 0 /\
  Ride.formattedDuration (Ride.preSave r) = "Ongoing".
Proof.
  intros He H0.
  pose proof (preSave_duration r e He) as Hd. rewrite H0 in Hd.
  unfold Ride.cost, Ride.formattedDuration. rewrite Hd. simpl. auto.
Qed.

(** ** Ending a ride and the stored duration *)

(** [POST /end] writes [endTime], [endStation], [status] and [feedback]
    through [findByIdAndUpdate]: no stored duration changes, whatever the
    request and whatever the database does. *)
Lemma post_end_keeps_durations user body now f d :
  map Ride.duration (rides (snd (post_end user body now f d))) =
  map Ride.duration (rides d).
Proof.
  unfold post_end, try_catch, endRide.
  destruct (negb (isEmpty (EndReq.validationResult body))); [reflexivity|].
  destruct (checkActiveRide user d) as [ar|]; [|reflexivity].
  unfold bind, await, ret, throw, Cycle_findOne, Station_findById,
    castObjectId, objectId, Ride_findByIdAndUpdate, Cycle_updateStatus,
    Cycle_save; simpl.
  assert (Hupd : forall st l,
    map Ride.duration
      (updateOne (fun r => Nat.eqb (Ride._id r) (Ride._id (ride ar)))
         (endUpdate now st (EndReq.sanitized body)) l) =
    map Ride.duration l).
  { intros st l. apply updateOne_map. reflexivity. }
  destruct (EndReq.stationId body) as [[st|]|];
  destruct f as [[|[|[|[|n]]]]|]; simpl;
    repeat (match goal with
            | |- context [match ?x with _ => _ end] =>
                match type of x with
                | option _ => destruct x
                | bool => destruct x
                end; simpl
            end);
    try reflexivity; try apply Hupd.
Qed.

(** C4. The ride of the scenario starts at time 0 and is ended at 600000 ms:
    the duration law gives 10 minutes, and the stored duration of the
    completed ride is still the default 0, since no hook ran on the update. *)
Theorem end_ride_duration_not_stored :
  map Ride.status (rides afterEnd) = [Ride.completed] /\
  map Ride.startTime (rides afterEnd) = [0] /\
  map Ride.endTime (rides afterEnd) = [Some 600000] /\
  spec_duration 0 600000 = 10 /\
  map Ride.duration (rides afterEnd) = [Some 0].
Proof. vm_compute. repeat split; reflexivity. Qed.

(** ** User statistics *)

Lemma completedRidesOf_filter (u : ObjectId) (d : Db) :
  filter (Ride.isCompletedRideOf u) (rides d) = completedRidesOf u d.
Proof. reflexivity. Qed.

Lemma sumZ_costExpr (l : list Ride.t) :
  sumZ (map Ride.costExpr l) =
  sumZ (map (fun r => spec_cost 1 (or0 (Ride.duration r))) l).
Proof.
  induction l as [|r l IH]; simpl; [reflexivity|].
  rewrite IH, costExpr_cost, cost_spec. reflexivity.
Qed.

(** The group the aggregation returns, when it returns one. *)
Lemma getUserStats_group (u : ObjectId) (d : Db) :
  let done := completedRidesOf u d in
  match Ride.getUserStats u (rides d) with
  | [] => done = []
  | s :: _ =>
      done <> [] /\
      Ride.totalRides s = Z.of_nat (List.length done) /\
      Ride.totalDuration s = sumZ (map (fun r => or0 (Ride.duration r)) done) /\
      Ride.totalCost s = sumZ (map Ride.costExpr done)
  end.
Proof.
  unfold Ride.getUserStats. rewrite completedRidesOf_filter.
  destruct (completedRidesOf u d) as [|r l]; simpl; [reflexivity|].
  repeat split; discriminate.
Qed.

(** C9, as the code has it. For the rider or an administrator, the statistics
    over the rider's completed rides are their number, the sum of their
    durations, the sum of ceil(duration / 60) times the rate 1, and as
    average the quotient of total duration by count rounded to the nearest
    integer (a tie going up); all of them are 0 without a completed ride. *)
Theorem user_stats_rounded_average (role : Role) (caller id : ObjectId)
  (d : Db) :
  isAdmin role = true \/ caller = id ->
  exists s,
    get_user_stats role caller id d = StatsOk s /\
    let done := completedRidesOf id d in
    totalRides s = Z.of_nat (List.length done) /\
    totalDuration s = sumZ (map (fun r => or0 (Ride.duration r)) done) /\
    totalCost s =
      sumZ (map (fun r => spec_cost 1 (or0 (Ride.duration r))) done) /\
    avgDuration s =
      (if totalRides s =? 0 then 0
       else Math.round (spec_avgDuration (totalDuration s) (totalRides s))) /\
    (0 < totalRides s ->
     2 * totalDuration s - totalRides s
       < 2 * avgDuration s * totalRides s
       <= 2 * totalDuration s + totalRides s) /\
    (done = [] ->
     totalDuration s = 0 /\ totalCost s = 0 /\ avgDuration s = 0).
Proof.
  intros Hauth. unfold get_user_stats.
  assert (Hgate : negb (isAdmin role) && negb (Nat.eqb caller id) = false).
  { destruct Hauth as [->| ->]; [reflexivity|].
    rewrite Nat.eqb_refl. apply andb_false_r. }
  rewrite Hgate.
  pose proof (getUserStats_group id d) as Hg. cbv zeta in Hg.
  destruct (Ride.getUserStats id (rides d)) as [|g gs].
  - eexists. split; [reflexivity|]. simpl. rewrite Hg. simpl.
    repeat split; try reflexivity; lia.
  - destruct Hg as (Hne & Hn & Hd & Hc).
    eexists. split; [reflexivity|]. cbv zeta. simpl.
    assert (Hpos : 0 < Ride.totalRides g).
    { rewrite Hn. destruct (completedRidesOf id d); [congruence|simpl; lia]. }
    assert (Hgt : (Ride.totalRides g >? 0) = true) by (apply Z.gtb_lt; lia).
    assert (Hz : (Ride.totalRides g =? 0) = false) by (apply Z.eqb_neq; lia).
    rewrite Hgt, Hz. unfold spec_avgDuration. rewrite Hz.
    split; [exact Hn|]. split; [exact Hd|].
    split; [rewrite Hc; apply sumZ_costExpr|].
    split; [reflexivity|].
    split; [intros _; apply round_div_nearest; exact Hpos|].
    intros Hnil. congruence.
Qed.

Lemma user_stats_rounded_average_witness :
  exists s,
    get_user_stats role_user U1 U1 historyDb = StatsOk s /\
    totalRides s = 2 /\ totalDuration s = 3 /\ totalCost s = 2 /\
    avgDuration s = 2.
Proof.
  destruct (user_stats_rounded_average role_user U1 U1 historyDb
              (or_intror eq_refl)) as (s & Hs & Hn & Hd & Hc & Ha & _).
  exists s. split; [exact Hs|].
  split; [exact Hn|]. split; [exact Hd|]. split; [exact Hc|].
  rewrite Ha, Hn, Hd. reflexivity.
Defined.

(** C9, as stated, fails: one ride of one minute and one of two minutes
    average to 2 in the response, not to 3/2. *)
Lemma stats_with_exact_average_counterexample :
  ~ stats_with_exact_average U1 historyDb.
Proof.
  intros (s & Hs & _ & _ & Havg).
  vm_compute in Hs. injection Hs as <-.
  vm_compute in Havg. discriminate.
Qed.

(** ** Revenue *)

Lemma analyticsRevenue_acc (l : list Ride.t) (acc : Q) :
  (fold_left
     (fun sum ride =>
        (sum + inject_Z (or0 (Ride.duration ride)) / inject_Z 60
               * inject_Z 10)%Q)
     l acc ==
   acc + inject_Z (sumZ (map (fun r => or0 (Ride.duration r)) l)) * (10 # 60))%Q.
Proof.
  revert acc. induction l as [|r l IH]; intros acc; simpl.
  - change (inject_Z 0) with 0%Q. ring.
  - rewrite IH. rewrite inject_Z_plus. field.
Qed.

(** [ride.duration / 60] and [(ride.duration || 0) / 60] are one number. *)
Lemma dashboardRevenue_analytics (l : list Ride.t) :
  Admin.dashboardRevenue l = Admin.analyticsRevenue l.
Proof.
  unfold Admin.dashboardRevenue, Admin.analyticsRevenue.
  generalize 0%Q. induction l as [|r l IH]; intros acc; simpl; [reflexivity|].
  rewrite IH. destruct (Ride.duration r); reflexivity.
Qed.

(** The durations against sixty times the costs, ride by ride. *)
Lemma durations_le_costs (l : list Ride.t) :
  sumZ (map (fun r => or0 (Ride.duration r)) l) <= 60 * sumZ (map Ride.cost l) /\
  (sumZ (map (fun r => or0 (Ride.duration r)) l) = 60 * sumZ (map Ride.cost l)
   <-> forall r, In r l -> (or0 (Ride.duration r)) mod 60 = 0).
Proof.
  assert (Hone : forall r,
    or0 (Ride.duration r) <= 60 * Ride.cost r /\
    (or0 (Ride.duration r) = 60 * Ride.cost r <->
     (or0 (Ride.duration r)) mod 60 = 0)).
  { intros r. rewrite cost_spec. unfold spec_cost.
    pose proof (ceil_div_hours (or0 (Ride.duration r))) as H. cbv zeta in H.
    split; [lia|]. split.
    - intros He. rewrite He, Z.mul_comm. apply Z_mod_mult.
    - intros Hm.
      pose proof (Z.div_mod (or0 (Ride.duration r)) 60 ltac:(lia)) as Hdm.
      lia. }
  induction l as [|r l [IHle IHeq]]; [simpl; split; [lia|]; split; [intros _ r []|reflexivity]|].
  cbn [map sumZ fold_right].
  fold (sumZ (map Ride.cost l)).
  fold (sumZ (map (fun r => or0 (Ride.duration r)) l)).
  destruct (Hone r) as [Hle Heq].
  split; [lia|]. split.
  - intros He r' [<-|Hr'].
    + apply Heq. lia.
    + apply IHeq; [lia|exact Hr'].
  - intros Hall.
    assert (H1 : or0 (Ride.duration r) = 60 * Ride.cost r)
      by (apply Heq, Hall; now left).
    assert (H2 : sumZ (map (fun r => or0 (Ride.duration r)) l) =
                 60 * sumZ (map Ride.cost l))
      by (apply IHeq; intros r' Hr'; apply Hall; now right).
    lia.
Qed.

(** [GET /reports/comprehensive] answers with its summary when no ride is
    in the range, and with the 500 of its [catch] as soon as one is. *)
Lemma report_answers (range : option (Z * Z)) (d : Db) :
  Admin.report range d =
  match Admin.reportRides range d with
  | [] => Some (Admin.round2 0)
  | _ :: _ => None
  end.
Proof.
  unfold Admin.report, Admin.topUsers.
  destruct (Admin.reportRides range d); reflexivity.
Qed.

(** The figure of the dashboard is over every stored ride. *)
Lemma dashboard_every_ride (d : Db) :
  Admin.dashboard d = Admin.round2 (Admin.analyticsRevenue (rides d)).
Proof.
  unfold Admin.dashboard. rewrite dashboardRevenue_analytics. f_equal. f_equal.
  induction (rides d) as [|r l IH]; simpl; [reflexivity|]. now rewrite IH.
Qed.

(** C8, as the code has it. The cost virtual is ceil(duration / 60) at the
    rate 1, and so is the cost expression of the statistics.  The reducers
    of the dashboard, of the analytics and of the report sum
    duration / 60 * 10 with no rounding up, a missing duration counting 0:
    on the same rides the three sums are one number, a sixth of the total
    duration, which is at most ten times the total cost and is ten times
    the total cost exactly when every duration is a multiple of 60. *)
Theorem two_cost_formulas (l : list Ride.t) :
  (forall r, In r l -> Ride.cost r = spec_cost 1 (or0 (Ride.duration r))) /\
  sumZ (map Ride.costExpr l) = sumZ (map Ride.cost l) /\
  Admin.dashboardRevenue l = Admin.analyticsRevenue l /\
  Admin.reportRevenue l = Admin.analyticsRevenue l /\
  (Admin.analyticsRevenue l ==
   inject_Z (sumZ (map (fun r => or0 (Ride.duration r)) l)) * (10 # 60))%Q /\
  (Admin.analyticsRevenue l <= inject_Z (10 * sumZ (map Ride.cost l)))%Q /\
  ((Admin.analyticsRevenue l == inject_Z (10 * sumZ (map Ride.cost l)))%Q <->
   forall r, In r l -> (or0 (Ride.duration r)) mod 60 = 0).
Proof.
  split; [intros r _; apply cost_spec|].
  split; [f_equal; apply map_ext; intros r; apply costExpr_cost|].
  split; [apply dashboardRevenue_analytics|].
  split; [reflexivity|].
  assert (Hsum : (Admin.analyticsRevenue l ==
    inject_Z (sumZ (map (fun r => or0 (Ride.duration r)) l)) * (10 # 60))%Q).
  { unfold Admin.analyticsRevenue. rewrite analyticsRevenue_acc. ring. }
  split; [exact Hsum|].
  destruct (durations_le_costs l) as [Hle Heq].
  split.
  - rewrite Hsum. unfold Qle, Qmult, inject_Z. cbn [Qnum Qden].
    change (Z.pos (1 * 60)) with 60. lia.
  - rewrite <- Heq, Hsum. unfold Qeq, Qmult, inject_Z. cbn [Qnum Qden].
    change (Z.pos (1 * 60)) with 60. split; lia.
Qed.

Lemma two_cost_formulas_witness :
  Ride.cost (completedRide 100 60) = 1 /\
  Admin.dashboardRevenue (rides hourDb) = Admin.analyticsRevenue (rides hourDb) /\
  (Admin.analyticsRevenue (rides hourDb) == 10)%Q.
Proof.
  destruct (two_cost_formulas (rides hourDb))
    as (Hcost & _ & Hdash & _ & Hsum & _).
  split; [rewrite (Hcost _ (or_introl eq_refl)); reflexivity|].
  split; [exact Hdash|].
  rewrite Hsum. reflexivity.
Defined.

(** C8, as stated, fails: no rate makes the cost virtual and the revenue
    figures equal on the one-hour ride, which costs 1 and yields 10. *)
Lemma one_formula_everywhere_counterexample : ~ one_formula_everywhere.
Proof.
  intros (rate & H).
  destruct (H (rides hourDb)) as (Hcost & _ & Ha & _).
  rewrite <- Hcost in Ha. vm_compute in Ha. discriminate.
Qed.

(** ** Lookups *)

Lemma find_none_iff {A : Type} (p : A -> bool) (l : list A) :
  find p l = None <-> (forall x, In x l -> p x = false).
Proof.
  split; [apply find_none|].
  induction l as [|x l IH]; simpl; intros H; [reflexivity|].
  rewrite (H x (or_introl eq_refl)). apply IH. intros y Hy. apply H. now right.
Qed.

Lemma filter_nil_iff {A : Type} (p : A -> bool) (l : list A) :
  filter p l = [] <-> (forall x, In x l -> p x = false).
Proof.
  induction l as [|x l IH]; simpl.
  - split; [intros _ y []|reflexivity].
  - destruct (p x) eqn:Hp; split.
    + discriminate.
    + intros H. specialize (H x (or_introl eq_refl)). congruence.
    + intros H y [<-|Hy]; [exact Hp|]. now apply IH.
    + intros H. apply IH. intros y Hy. apply H. now right.
Qed.

(** The lookup returns [null] exactly for a rider without an active ride. *)
Lemma findActiveRide_none_iff (user : ObjectId) (d : Db) :
  Ride_findActiveRide user d = None <-> noActiveRide user d.
Proof.
  unfold Ride_findActiveRide, noActiveRide. split.
  - intros H r Hr Hu Hs He.
    destruct (find (Ride.isActiveRideOf user) (rides d)) eqn:Hf; [discriminate|].
    pose proof (find_none _ _ Hf r Hr) as Hq. unfold Ride.isActiveRideOf in Hq.
    rewrite Hu, Hs, He, Nat.eqb_refl in Hq. discriminate.
  - intros H.
    assert (Hf : find (Ride.isActiveRideOf user) (rides d) = None).
    { apply find_none_iff. intros r Hr. unfold Ride.isActiveRideOf.
      destruct (Nat.eqb_spec (Ride.userId r) user) as [Hu|]; [|reflexivity].
      destruct (Ride.status r) eqn:Hs; try reflexivity.
      destruct (Ride.endTime r) eqn:He; [reflexivity|].
      now destruct (H r Hr Hu Hs). }
    rewrite Hf. reflexivity.
Qed.

(** The ride the lookup returns is stored, belongs to the rider, is active
    and has no end time. *)
Lemma findActiveRide_some (user : ObjectId) (d : Db) (ar : PopulatedRide) :
  Ride_findActiveRide user d = Some ar ->
  In (ride ar) (rides d) /\ Ride.userId (ride ar) = user /\
  Ride.status (ride ar) = Ride.active /\ Ride.endTime (ride ar) = None /\
  ar = populate d (ride ar).
Proof.
  unfold Ride_findActiveRide.
  destruct (find (Ride.isActiveRideOf user) (rides d)) as [r|] eqn:Hf;
    [|discriminate].
  intros [= <-]. apply find_some in Hf. destruct Hf as [Hin Hp].
  unfold Ride.isActiveRideOf in Hp.
  apply andb_prop in Hp. destruct Hp as [Hp He].
  apply andb_prop in Hp. destruct Hp as [Hu Hs].
  simpl. split; [exact Hin|]. split; [now apply Nat.eqb_eq|].
  split; [destruct (Ride.status r); simpl in Hs; congruence|].
  split; [destruct (Ride.endTime r); congruence|reflexivity].
Qed.

Lemma unknownCycle_find (cycleId : string) (d : Db) :
  unknownCycle cycleId d -> find (byQrCode cycleId) (cycles d) = None.
Proof.
  intros H. apply find_none_iff. intros c Hc. unfold byQrCode.
  destruct (String.eqb_spec (Cycle.cycleId c) (trim cycleId)) as [He|];
    [|reflexivity].
  rewrite (H c Hc He). reflexivity.
Qed.

(** The cycle a scanned identifier resolves to is stored, active, and
    carries the identifier without the white space around it. *)
Lemma resolveCycle_some (cycleId : string) (d : Db) (c : Cycle.t) :
  resolveCycle cycleId d = Some c ->
  In c (cycles d) /\ Cycle.cycleId c = trim cycleId /\ Cycle.isActive c = true.
Proof.
  intros H. apply find_some in H. destruct H as [Hin Hq].
  unfold byQrCode in Hq. apply andb_prop in Hq. destruct Hq as [He Ha].
  apply String.eqb_eq in He. auto.
Qed.

Lemma unknownStation_find (stationId : option IdParam) (d : Db) :
  unknownStation stationId d ->
  exists i, stationId = Some (castable i) /\
            Station_findById (Some i) d = (None, d).
Proof.
  intros (i & Hi & H). exists i. split; [exact Hi|].
  unfold Station_findById. f_equal. apply find_none_iff. intros s Hs.
  apply Nat.eqb_neq. now apply H.
Qed.

(** ** Requests the handlers turn down *)

Ltac handler :=
  cbv beta iota zeta delta
    [post_start post_end post_cancel patch_cycle_status try_catch
     startRide endRide cancelRide updateCycleStatus checkActiveRide
     Ride_create castObjectId bind await ret throw resolveCycle
     Cycle_findById Cycle_findOne fuse db fst snd] in *.

(** C7, as the code has it. A start request with both fields that the
    database serves is turned down with 400 'You already have an active
    ride' when the lookup finds an active ride of the rider; otherwise with
    404 when no active cycle carries the identifier, white space around it
    removed; otherwise with 400 when the cycle it resolves to is not
    available; otherwise with 404 when the station id is an id that no
    station has, and with 500 when the station id is no id at all.  In each
    case the database is left as it was. *)
Theorem start_ride_rejections (user : ObjectId) (body : StartReq.t) (now : Z)
  (d : Db) :
  StartReq.validationResult body = [] ->
  let res := post_start user body now None d in
  (forall ar, Ride_findActiveRide user d = Some ar ->
     res = (fail 400 "You already have an active ride", d)) /\
  (Ride_findActiveRide user d = None ->
     (unknownCycle (StartReq.cycleId body) d ->
        res = (fail 404 "Cycle not found", d)) /\
     (forall c, resolveCycle (StartReq.cycleId body) d = Some c ->
        Cycle.cycleId c = trim (StartReq.cycleId body) /\
        Cycle.isActive c = true) /\
     (forall c, resolveCycle (StartReq.cycleId body) d = Some c ->
        Cycle.status c <> Cycle.available ->
        res = (fail 400 "Cycle is not available for use", d)) /\
     (forall c, resolveCycle (StartReq.cycleId body) d = Some c ->
        Cycle.status c = Cycle.available ->
        unknownStation (StartReq.stationId body) d ->
        res = (fail 404 "Station not found", d)) /\
     (forall c, resolveCycle (StartReq.cycleId body) d = Some c ->
        Cycle.status c = Cycle.available ->
        StartReq.stationId body = Some uncastable ->
        res = (fail 500 "Server error while starting ride", d))).
Proof.
  intros Hvalid res. subst res.
  split.
  - intros ar Har. handler. rewrite Hvalid, Har. reflexivity.
  - intros Hnone. split; [|split; [|split; [|split]]].
    + intros Hc. handler. rewrite Hvalid, Hnone. cbn [isEmpty negb].
      rewrite (unknownCycle_find _ _ Hc). reflexivity.
    + intros c Hc. destruct (resolveCycle_some _ _ _ Hc) as (_ & He & Ha).
      auto.
    + intros c Hc Hs. handler. rewrite Hvalid, Hnone. cbn [isEmpty negb].
      rewrite Hc. destruct (Cycle.status c); simpl; congruence.
    + intros c Hc Hs Hst.
      destruct (unknownStation_find _ _ Hst) as (i & Hi & Hf).
      handler. rewrite Hvalid, Hnone. cbn [isEmpty negb].
      rewrite Hc, Hs, Hi. cbn [Cycle.Status_eqb negb objectId].
      rewrite Hf. reflexivity.
    + intros c Hc Hs Hst. handler. rewrite Hvalid, Hnone. cbn [isEmpty negb].
      rewrite Hc, Hs, Hst. reflexivity.
Qed.

Lemma start_ride_rejections_witness :
  post_start U1 (StartReq.mk "CYCLE001" (Some (castable S1))) 5 None afterStart =
  (fail 400 "You already have an active ride", afterStart).
Proof.
  destruct (start_ride_rejections U1
              (StartReq.mk "CYCLE001" (Some (castable S1))) 5
              afterStart eq_refl) as [Hconflict _].
  eapply Hconflict. reflexivity.
Defined.

(** C7, as stated, fails: a station id that is no id at all names no
    station, and the start request that carries it is answered 500, not
    404. *)
Lemma start_rejections_as_stated_counterexample :
  ~ start_rejections_as_stated.
Proof.
  intros H.
  destruct (H U1 (StartReq.mk "CYCLE001" (Some uncastable)) 0 scenarioDb
              eq_refl) as [_ Hfree].
  destruct (Hfree eq_refl) as (_ & _ & H404).
  destruct (H404 (Cycle.mk 10 "CYCLE001" S1 Cycle.available true)
                 eq_refl eq_refl) as [Hcode _].
  - intros s _. discriminate.
  - vm_compute in Hcode. discriminate.
Qed.

(** C6, as the code has it. An end request that passes validation, from a
    rider with an active ride, served by the database: 404 when no active
    cycle carries the scanned identifier, white space around it removed;
    400 'Cycle does not match your active ride' when it resolves to a cycle
    other than the cycle the ride references and that cycle is still stored;
    500 when the cycle the ride references is stored no more, whatever cycle
    the identifier resolves to; 404 when the cycle matches and the station id is an id that
    no station has; 500 when the cycle matches and the station id is no id
    at all.  In each case the database, ride and cycle included, is left as
    it was. *)
Theorem end_ride_rejections (user : ObjectId) (body : EndReq.t) (now : Z)
  (d : Db) (ar : PopulatedRide) :
  EndReq.validationResult body = [] ->
  Ride_findActiveRide user d = Some ar ->
  let res := post_end user body now None d in
  (unknownCycle (EndReq.cycleId body) d ->
     res = (fail 404 "Cycle not found", d)) /\
  (forall c, resolveCycle (EndReq.cycleId body) d = Some c ->
     In (Ride.cycleId (ride ar)) (map Cycle._id (cycles d)) ->
     Cycle._id c <> Ride.cycleId (ride ar) ->
     res = (fail 400 "Cycle does not match your active ride", d)) /\
  (forall c, resolveCycle (EndReq.cycleId body) d = Some c ->
     ~ In (Ride.cycleId (ride ar)) (map Cycle._id (cycles d)) ->
     res = (fail 500 "Server error while ending ride", d)) /\
  (forall c, resolveCycle (EndReq.cycleId body) d = Some c ->
     Cycle._id c = Ride.cycleId (ride ar) ->
     unknownStation (EndReq.stationId body) d ->
     res = (fail 404 "Station not found", d)) /\
  (forall c, resolveCycle (EndReq.cycleId body) d = Some c ->
     Cycle._id c = Ride.cycleId (ride ar) ->
     EndReq.stationId body = Some uncastable ->
     res = (fail 500 "Server error while ending ride", d)).
Proof.
  intros Hvalid Har res. subst res.
  destruct (findActiveRide_some _ _ _ Har) as (_ & _ & _ & _ & Hpop).
  assert (Hdoc : In (Ride.cycleId (ride ar)) (map Cycle._id (cycles d)) ->
    exists rc, cycleDoc ar = Some rc /\ Cycle._id rc = Ride.cycleId (ride ar)).
  { intros Hin. rewrite Hpop. unfold populate. cbn [cycleDoc ride].
    destruct (find (fun c => Nat.eqb (Cycle._id c) (Ride.cycleId (ride ar)))
                   (cycles d)) as [rc|] eqn:Hf.
    - exists rc. split; [reflexivity|].
      apply find_some in Hf. now apply Nat.eqb_eq.
    - exfalso. apply in_map_iff in Hin. destruct Hin as (c & Hc & Hin).
      pose proof (find_none _ _ Hf c Hin) as Hn. simpl in Hn.
      rewrite Hc, Nat.eqb_refl in Hn. discriminate. }
  assert (Hgone : ~ In (Ride.cycleId (ride ar)) (map Cycle._id (cycles d)) ->
    cycleDoc ar = None).
  { intros Hout. rewrite Hpop. unfold populate. cbn [cycleDoc ride].
    destruct (find (fun c => Nat.eqb (Cycle._id c) (Ride.cycleId (ride ar)))
                   (cycles d)) as [rc|] eqn:Hf; [|reflexivity].
    exfalso. apply Hout. apply find_some in Hf. destruct Hf as [Hin He].
    apply Nat.eqb_eq in He. rewrite <- He. now apply in_map. }
  assert (Hstored : forall c, resolveCycle (EndReq.cycleId body) d = Some c ->
    Cycle._id c = Ride.cycleId (ride ar) ->
    In (Ride.cycleId (ride ar)) (map Cycle._id (cycles d))).
  { intros c Hc He. destruct (resolveCycle_some _ _ _ Hc) as (Hin & _).
    rewrite <- He. now apply in_map. }
  split; [|split; [|split; [|split]]].
  - intros Hc. handler. rewrite Hvalid, Har. cbn [isEmpty negb].
    rewrite (unknownCycle_find _ _ Hc). reflexivity.
  - intros c Hc Hin Hne. destruct (Hdoc Hin) as (rc & Hrc & Hid).
    handler. rewrite Hvalid, Har. cbn [isEmpty negb]. rewrite Hc, Hrc, Hid.
    destruct (Nat.eqb_spec (Ride.cycleId (ride ar)) (Cycle._id c));
      [congruence|reflexivity].
  - intros c Hc Hout. pose proof (Hgone Hout) as Hrc.
    handler. rewrite Hvalid, Har. cbn [isEmpty negb]. rewrite Hc, Hrc.
    reflexivity.
  - intros c Hc He Hst.
    destruct (Hdoc (Hstored c Hc He)) as (rc & Hrc & Hid).
    destruct (unknownStation_find _ _ Hst) as (i & Hi & Hf).
    handler. rewrite Hvalid, Har. cbn [isEmpty negb].
    rewrite Hc, Hrc, Hid, <- He, Nat.eqb_refl, Hi. cbn [negb objectId].
    rewrite Hf. reflexivity.
  - intros c Hc He Hst.
    destruct (Hdoc (Hstored c Hc He)) as (rc & Hrc & Hid).
    handler. rewrite Hvalid, Har. cbn [isEmpty negb].
    rewrite Hc, Hrc, Hid, <- He, Nat.eqb_refl, Hst. reflexivity.
Qed.

Lemma end_ride_rejections_witness :
  post_end U1 (EndReq.mk "CYCLE002" (Some (castable S2)) None) 600000 None
           afterStart =
  (fail 400 "Cycle does not match your active ride", afterStart).
Proof.
  assert (Har : Ride_findActiveRide U1 afterStart =
                Some (populate afterStart
                        (Ride.mk 100 U1 10 S1 0 None (Some 0) Ride.active S1
                                 None Ride.noFeedback))) by reflexivity.
  destruct (end_ride_rejections U1
              (EndReq.mk "CYCLE002" (Some (castable S2)) None)
              600000 afterStart _ eq_refl Har) as (_ & Hmismatch & _).
  eapply Hmismatch.
  - reflexivity.
  - simpl. auto.
  - simpl. discriminate.
Defined.

(** C6, as stated, fails: once the administrator has removed the cycle of
    the active ride, the end request that scans another cycle is answered
    500, not 400. *)
Lemma end_rejections_as_stated_counterexample : ~ end_rejections_as_stated.
Proof.
  intros H.
  assert (Har : Ride_findActiveRide U1 orphanDb =
                Some (populate orphanDb
                        (Ride.mk 100 U1 10 S1 0 None (Some 0) Ride.active S1
                                 None Ride.noFeedback))) by reflexivity.
  destruct (H U1 (EndReq.mk "CYCLE002" (Some (castable S2)) None) 9 orphanDb
              _ eq_refl Har) as (_ & H400 & _).
  destruct (H400 (Cycle.mk 11 "CYCLE002" S1 Cycle.available true) eq_refl)
    as [Hcode _].
  - simpl. discriminate.
  - vm_compute in Hcode. discriminate.
Qed.

Lemma post_end_without_active_ride (user : ObjectId) (d : Db)
  (body : EndReq.t) (now : Z) (f : option nat) :
  noActiveRide user d ->
  code (fst (post_end user body now f d)) = 400%nat /\
  success (fst (post_end user body now f d)) = false /\
  snd (post_end user body now f d) = d /\
  (EndReq.validationResult body = [] ->
   fst (post_end user body now f d) = fail 400 "No active ride found").
Proof.
  intros Hnone. apply findActiveRide_none_iff in Hnone.
  handler. rewrite Hnone.
  destruct (EndReq.validationResult body); simpl; repeat split; auto.
  discriminate.
Qed.

Lemma post_cancel_without_active_ride (user : ObjectId) (d : Db)
  (now : Z) (f : option nat) :
  noActiveRide user d ->
  post_cancel user now f d = (fail 400 "No active ride to cancel", d).
Proof.
  intros Hnone. apply findActiveRide_none_iff in Hnone.
  handler. rewrite Hnone. reflexivity.
Qed.

(** Ending or cancelling succeeds only from an active ride of the rider. *)
Lemma success_needs_active_ride (user : ObjectId) (d : Db) :
  (forall body now f, success (fst (post_end user body now f d)) = true ->
     ~ noActiveRide user d) /\
  (forall now f, success (fst (post_cancel user now f d)) = true ->
     ~ noActiveRide user d).
Proof.
  split.
  - intros body now f Hs Hnone.
    destruct (post_end_without_active_ride user d body now f Hnone)
      as (_ & Hf & _).
    congruence.
  - intros now f Hs Hnone.
    rewrite (post_cancel_without_active_ride user d now f Hnone) in Hs.
    discriminate.
Qed.

(** C5. For a rider without an active ride, ending and cancelling fail with
    status 400 and leave the database as it was, whatever the request and
    whatever the database would do; the end request that passes validation
    is answered 'No active ride found', the cancel request 'No active ride
    to cancel'. *)
Theorem no_active_ride_rejections (user : ObjectId) (d : Db) :
  noActiveRide user d ->
  (forall body now f,
     code (fst (post_end user body now f d)) = 400%nat /\
     success (fst (post_end user body now f d)) = false /\
     snd (post_end user body now f d) = d /\
     (EndReq.validationResult body = [] ->
      fst (post_end user body now f d) = fail 400 "No active ride found")) /\
  (forall now f,
     post_cancel user now f d = (fail 400 "No active ride to cancel", d)).
Proof.
  intros Hnone. split.
  - intros body now f. now apply post_end_without_active_ride.
  - intros now f. now apply post_cancel_without_active_ride.
Qed.

Lemma no_active_ride_rejections_witness :
  post_end U1 (EndReq.mk "CYCLE001" (Some (castable S2)) None) 9 None scenarioDb =
    (fail 400 "No active ride found", scenarioDb) /\
  post_cancel U1 9 None scenarioDb =
    (fail 400 "No active ride to cancel", scenarioDb).
Proof.
  assert (Hnone : noActiveRide U1 scenarioDb) by (intros r []).
  destruct (no_active_ride_rejections U1 scenarioDb Hnone) as [Hend Hcancel].
  split; [|apply Hcancel].
  destruct (Hend (EndReq.mk "CYCLE001" (Some (castable S2)) None) 9 None)
    as (_ & _ & Hdb & Hmsg).
  rewrite (surjective_pairing (post_end _ _ _ _ _)), Hdb, (Hmsg eq_refl).
  reflexivity.
Defined.


(** ** What a request writes *)

(** [POST /start], whatever the database does: either nothing is written
    and the answer is not a success, or the request got as far as the
    insert.  Then a failure of call 3, the status write, leaves the ride
    without its cycle marked; from there on both writes are in, and the
    answer is the success or, when call 4 (the final populate) fails, a
    500. *)
Lemma post_start_cases (user : ObjectId) (body : StartReq.t) (now : Z)
  (f : option nat) (d : Db) :
  let res := fst (post_start user body now f d) in
  let d' := snd (post_start user body now f d) in
  (d' = d /\ code res <> 201%nat /\
   (code res = 500%nat ->
    f = Some 0%nat \/ f = Some 1%nat \/ f = Some 2%nat \/
    StartReq.stationId body = Some uncastable)) \/
  (exists c st,
     StartReq.validationResult body = [] /\
     Ride_findActiveRide user d = None /\
     resolveCycle (StartReq.cycleId body) d = Some c /\
     Cycle.status c = Cycle.available /\
     StartReq.stationId body = Some (castable st) /\
     let r := newRide d user c st now in
     ((f = Some 3%nat /\ res = startError /\ d' = withRide r d) \/
      (f = Some 4%nat /\ res = startError /\
       d' = withCycleStatus (Cycle._id c) Cycle.in_use (withRide r d)) \/
      (code res = 201%nat /\
       d' = withCycleStatus (Cycle._id c) Cycle.in_use (withRide r d)))).
Proof.
  cbv zeta. handler.
  destruct (StartReq.validationResult body) eqn:Hv;
    [|left; simpl; repeat split; [discriminate|discriminate]].
  cbn [isEmpty negb].
  destruct (Ride_findActiveRide user d) eqn:Ha;
    [left; simpl; repeat split; discriminate|].
  destruct f as [[|n]|]; [left; simpl; repeat split; [discriminate|auto]| |].
  - (* the cycle lookup went through *)
    destruct (find (byQrCode (StartReq.cycleId body)) (cycles d)) as [c|] eqn:Hc;
      [|left; simpl; repeat split; discriminate].
    destruct (Cycle.status c) eqn:Hs;
      try (left; simpl; repeat split; discriminate).
    cbn [fuse db Cycle.Status_eqb negb].
    destruct (StartReq.stationId body) as [[st|]|] eqn:Hst;
      [|left; simpl; repeat split; [discriminate|auto 6]
       |left; destruct n; simpl; repeat split; try discriminate; auto].
    cbn [objectId fuse db].
    destruct n as [|n]; [left; simpl; repeat split; [discriminate|auto]|].
    unfold Station_findById.
    destruct (find (fun s => Nat.eqb (Station._id s) st) (stations d));
      [|left; simpl; repeat split; discriminate].
    cbn [fuse db].
    destruct n as [|n]; [left; simpl; repeat split; [discriminate|auto]|].
    right. exists c, st. repeat split; try assumption.
    destruct n as [|[|n]]; cbn.
    + left. auto.
    + right. left. auto.
    + right. right. auto.
  - destruct (find (byQrCode (StartReq.cycleId body)) (cycles d)) as [c|] eqn:Hc;
      [|left; simpl; repeat split; discriminate].
    destruct (Cycle.status c) eqn:Hs;
      try (left; simpl; repeat split; discriminate).
    cbn [fuse db Cycle.Status_eqb negb].
    destruct (StartReq.stationId body) as [[st|]|] eqn:Hst;
      [|left; simpl; repeat split; [discriminate|auto 6]
       |left; simpl; repeat split; discriminate].
    cbn [objectId fuse db]. unfold Station_findById.
    destruct (find (fun s => Nat.eqb (Station._id s) st) (stations d));
      [|left; simpl; repeat split; discriminate].
    right. exists c, st. repeat split; try assumption.
    right. right. cbn. auto.
Qed.

(** [POST /end]: nothing is written and the answer is not a success, or the
    active ride is completed; then a failure of call 3, the status write,
    leaves the cycle as it was. *)
Lemma post_end_cases (user : ObjectId) (body : EndReq.t) (now : Z)
  (f : option nat) (d : Db) :
  let res := fst (post_end user body now f d) in
  let d' := snd (post_end user body now f d) in
  (d' = d /\ code res <> 200%nat) \/
  (exists ar c rc,
     Ride_findActiveRide user d = Some ar /\
     resolveCycle (EndReq.cycleId body) d = Some c /\
     cycleDoc ar = Some rc /\ Cycle._id rc = Cycle._id c /\
     let upd := endUpdate now (objectId (EndReq.stationId body))
                          (EndReq.sanitized body) in
     ((f = Some 3%nat /\ code res = 500%nat /\
       d' = withRideUpdate (Ride._id (ride ar)) upd d) \/
      (code res = 200%nat /\
       d' = withCycleStatus (Cycle._id c) Cycle.available
              (withRideUpdate (Ride._id (ride ar)) upd d)))).
Proof.
  cbv zeta. handler.
  destruct (EndReq.validationResult body) eqn:Hv;
    [|left; simpl; split; [reflexivity|discriminate]].
  cbn [isEmpty negb].
  destruct (Ride_findActiveRide user d) as [ar|] eqn:Ha;
    [|left; simpl; split; [reflexivity|discriminate]].
  destruct (EndReq.stationId body) as [[st|]|] eqn:Hst;
  destruct f as [[|[|[|[|n]]]]|];
    try (left; simpl; split; [reflexivity|discriminate]);
    (destruct (find (byQrCode (EndReq.cycleId body)) (cycles d)) as [c|] eqn:Hc;
       [|left; simpl; split; [reflexivity|discriminate]]);
    (destruct (cycleDoc ar) as [rc|] eqn:Hrc;
       [|left; simpl; split; [reflexivity|discriminate]]);
    (destruct (Nat.eqb (Cycle._id rc) (Cycle._id c)) eqn:He;
       [|left; simpl; split; [reflexivity|discriminate]]);
    cbn [negb fuse db objectId]; unfold Station_findById;
    try (left; simpl; split; [reflexivity|discriminate]);
    (destruct (find (fun s => Nat.eqb (Station._id s) st) (stations d));
       [|left; simpl; split; [reflexivity|discriminate]]);
    cbn [fuse db];
    try (left; simpl; split; [reflexivity|discriminate]);
    apply Nat.eqb_eq in He;
    right; exists ar, c, rc; repeat split; try assumption.
  - left. cbn. auto.
  - right. cbn. auto.
  - right. cbn. auto.
Qed.

(** [POST /cancel]: the same shape, with the status write as call 1. *)
Lemma post_cancel_cases (user : ObjectId) (now : Z) (f : option nat)
  (d : Db) :
  let res := fst (post_cancel user now f d) in
  let d' := snd (post_cancel user now f d) in
  (d' = d /\ code res <> 200%nat) \/
  (exists ar,
     Ride_findActiveRide user d = Some ar /\
     ((f = Some 1%nat /\ code res = 500%nat /\
       d' = withRideUpdate (Ride._id (ride ar)) (cancelUpdate now) d) \/
      (code res = 200%nat /\
       d' = match cycleDoc ar with
            | Some rc => withCycleStatus (Cycle._id rc) Cycle.available
                           (withRideUpdate (Ride._id (ride ar))
                                           (cancelUpdate now) d)
            | None => withRideUpdate (Ride._id (ride ar)) (cancelUpdate now) d
            end))).
Proof.
  cbv zeta. handler.
  destruct (Ride_findActiveRide user d) as [ar|] eqn:Ha;
    [|left; simpl; split; [reflexivity|discriminate]].
  unfold Cycle_findByIdAndUpdate.
  destruct f as [[|[|n]]|]; cbn.
  - left. split; [reflexivity|discriminate].
  - right. exists ar. split; [reflexivity|]. left. auto.
  - right. exists ar. split; [reflexivity|]. right.
    destruct (cycleDoc ar); cbn; split; reflexivity.
  - right. exists ar. split; [reflexivity|]. right.
    destruct (cycleDoc ar); cbn; split; reflexivity.
Qed.

(** [PATCH /:id/status] writes no ride; it writes the requested status on
    the cycle with the given [_id], whatever rides reference it. *)
Lemma patch_cycle_status_cases (id : ObjectId) (status : string)
  (f : option nat) (d : Db) :
  let d' := snd (patch_cycle_status id status f d) in
  d' = d \/
  (exists s, Cycle.Status_of_string status = Some s /\
             d' = withCycleStatus id s d).
Proof.
  cbv zeta. handler.
  destruct (Cycle.Status_of_string status) as [s|]; [|left; reflexivity].
  destruct f as [[|[|n]]|]; cbn;
    try (left; reflexivity);
    (destruct (find (fun c => Nat.eqb (Cycle._id c) id) (cycles d)) as [c|] eqn:Hc;
       [|left; reflexivity]);
    cbn; try (left; reflexivity);
    right; exists s; (split; [reflexivity|]);
    apply find_some in Hc; destruct Hc as [_ Hc]; apply Nat.eqb_eq in Hc;
    unfold withCycleStatus; rewrite Hc; reflexivity.
Qed.

(** ** Counting the documents a filter selects *)

Section Counting.

Context {A : Type}.
Variable q : A -> bool.

Lemma count_snoc (l : list A) (x : A) :
  List.length (filter q (l ++ [x])) =
  (List.length (filter q l) + (if q x then 1 else 0))%nat.
Proof.
  rewrite filter_app, length_app. simpl. destruct (q x); reflexivity.
Qed.

(** An update that takes no document into the filter does not raise the
    count. *)
Lemma count_updateOne_le (p : A -> bool) (g : A -> A) (l : list A) :
  (forall x, q (g x) = true -> q x = true) ->
  (List.length (filter q (updateOne p g l)) <= List.length (filter q l))%nat.
Proof.
  intros Hg. induction l as [|x l IH]; simpl; [lia|].
  destruct (p x); simpl.
  - destruct (q (g x)) eqn:Hq; [rewrite (Hg x Hq)|destruct (q x)]; simpl; lia.
  - destruct (q x); simpl; lia.
Qed.

Lemma count_le_1_unique (l : list A) (x y : A) :
  (List.length (filter q l) <= 1)%nat ->
  In x l -> q x = true -> In y l -> q y = true -> x = y.
Proof.
  intros Hlen Hx Hqx Hy Hqy.
  assert (Hfx : In x (filter q l)) by (apply filter_In; auto).
  assert (Hfy : In y (filter q l)) by (apply filter_In; auto).
  destruct (filter q l) as [|a [|b l']]; simpl in *; [tauto| |lia].
  destruct Hfx as [<-|[]]. destruct Hfy as [<-|[]]. reflexivity.
Qed.

End Counting.

(** ** One active ride per rider *)

Lemma rideIsActive_true (r : Ride.t) :
  rideIsActive r = true <-> Ride.status r = Ride.active.
Proof.
  unfold rideIsActive. destruct (Ride.status r); simpl; split;
    congruence.
Qed.

(** In a database whose active rides are open, the lookup misses no active
    ride. *)
Lemma findActiveRide_none_inv (user : ObjectId) (d : Db) :
  active_rides_open d ->
  Ride_findActiveRide user d = None -> activeRidesOf user d = [].
Proof.
  intros Hopen Hnone. unfold Ride_findActiveRide in Hnone.
  destruct (find (Ride.isActiveRideOf user) (rides d)) eqn:Hf; [discriminate|].
  apply filter_nil_iff. intros r Hr.
  pose proof (find_none _ _ Hf r Hr) as Hq. unfold Ride.isActiveRideOf in Hq.
  destruct (Nat.eqb (Ride.userId r) user); [|reflexivity].
  destruct (rideIsActive r) eqn:Hact; [|reflexivity].
  exfalso. pose proof Hact as Hs. apply rideIsActive_true in Hs.
  rewrite (Hopen r Hr Hs) in Hq. unfold rideIsActive in Hact.
  rewrite Hact in Hq. discriminate.
Qed.

(** What one request does to the rides: nothing, or the insert of an open
    active ride for a rider whose lookup found none, or an update that takes
    one ride out of the [active] state. *)
Lemma exec_rides (op : Op) (f : option nat) (d : Db) :
  let d' := snd (exec op f d) in
  rides d' = rides d \/
  (exists user c st now,
     Ride_findActiveRide user d = None /\
     rides d' = (rides d ++ [newRide d user c st now])%list) \/
  (exists id g,
     (forall x, Ride.status (g x) <> Ride.active) /\
     rides d' = updateOne (fun r => Nat.eqb (Ride._id r) id) g (rides d)).
Proof.
  destruct op as [user body now|user body now|user now|id status]; cbn [exec].
  - destruct (post_start_cases user body now f d)
      as [(-> & _)|(c & st & _ & Ha & _ & _ & _ & H)]; [now left|].
    right. left. exists user, c, st, now. split; [exact Ha|].
    destruct H as [(_ & _ & ->)|[(_ & _ & ->)|(_ & ->)]]; reflexivity.
  - destruct (post_end_cases user body now f d)
      as [(-> & _)|(ar & c & rc & _ & _ & _ & _ & H)]; [now left|].
    right. right.
    exists (Ride._id (ride ar)),
      (endUpdate now (objectId (EndReq.stationId body))
             (EndReq.sanitized body)).
    split; [intros x; simpl; discriminate|].
    destruct H as [(_ & _ & ->)|(_ & ->)]; reflexivity.
  - destruct (post_cancel_cases user now f d)
      as [(-> & _)|(ar & _ & H)]; [now left|].
    right. right. exists (Ride._id (ride ar)), (cancelUpdate now).
    split; [intros x; simpl; discriminate|].
    destruct H as [(_ & _ & ->)|(_ & ->)]; [reflexivity|].
    destruct (cycleDoc ar); reflexivity.
  - destruct (patch_cycle_status_cases id status f d) as [->|(s & _ & ->)];
      now left.
Qed.

(** The two facts about rides that every request preserves. *)
Lemma rider_invariant_step (op : Op) (f : option nat) (d : Db) :
  active_rides_open d /\ one_active_ride_per_rider d ->
  active_rides_open (snd (exec op f d)) /\
  one_active_ride_per_rider (snd (exec op f d)).
Proof.
  intros [Hopen Hone].
  destruct (exec_rides op f d)
    as [Hr|[(user & c & st & now & Ha & Hr)|(id & g & Hg & Hr)]];
    unfold active_rides_open, one_active_ride_per_rider, activeRidesOf;
    rewrite Hr.
  - split; assumption.
  - split.
    + intros r Hin Hs. apply in_app_iff in Hin.
      destruct Hin as [Hin|[<-|[]]]; [now apply Hopen|reflexivity].
    + intros u. rewrite count_snoc.
      destruct (Nat.eqb_spec user u) as [<-|Hne].
      * pose proof (findActiveRide_none_inv user d Hopen Ha) as Hnil.
        unfold activeRidesOf in Hnil. rewrite Hnil. simpl.
        destruct (_ && _); lia.
      * cbn [newRide Ride.userId]. apply Nat.eqb_neq in Hne. rewrite Hne.
        cbn [andb]. specialize (Hone u). unfold activeRidesOf in Hone. lia.
  - split.
    + intros r Hin Hs. apply updateOne_In in Hin.
      destruct Hin as [Hin|(x & _ & _ & ->)]; [now apply Hopen|].
      now destruct (Hg x).
    + intros u. etransitivity; [|apply (Hone u)].
      apply count_updateOne_le. intros x Hq.
      apply andb_prop in Hq. destruct Hq as [_ Hq].
      apply rideIsActive_true in Hq. now destruct (Hg x).
Qed.

Lemma rider_invariant_reachable (allowed : Op -> option nat -> Prop)
  (d0 d : Db) :
  rides d0 = [] -> reachable allowed d0 d ->
  active_rides_open d /\ one_active_ride_per_rider d.
Proof.
  intros Hempty Hreach. induction Hreach as [|d op f _ IH _].
  - unfold active_rides_open, one_active_ride_per_rider, activeRidesOf.
    rewrite Hempty. split; [intros r []|intros u; simpl; lia].
  - now apply rider_invariant_step.
Qed.

(** C2, as the code has it. From a database without rides, after any
    sequence of requests (start, end, cancel, and the status update of the
    administrator as well), each served to its end before the next one
    starts, with or without a failing database call, no rider has more than
    one ride in [active] state; and a start request adds a ride only when
    the lookup finds no active ride of the rider, who then has none in
    [active] state. *)
Theorem one_active_ride_per_rider_invariant (d0 d : Db) :
  rides d0 = [] -> reachable anyRequest d0 d ->
  one_active_ride_per_rider d /\
  (forall user body now f,
     rides (snd (post_start user body now f d)) <> rides d ->
     Ride_findActiveRide user d = None /\ activeRidesOf user d = []).
Proof.
  intros Hempty Hreach.
  destruct (rider_invariant_reachable _ _ _ Hempty Hreach) as [Hopen Hone].
  split; [exact Hone|].
  intros user body now f Hch.
  destruct (post_start_cases user body now f d)
    as [(Hd & _)|(c & st & _ & Ha & _)].
  - rewrite Hd in Hch. now destruct Hch.
  - split; [exact Ha|]. now apply findActiveRide_none_inv.
Qed.

Lemma one_active_ride_per_rider_invariant_witness :
  one_active_ride_per_rider afterStart /\
  List.length (activeRidesOf U1 afterStart) = 1%nat.
Proof.
  assert (Hreach : reachable anyRequest scenarioDb afterStart).
  { apply (reach_step anyRequest scenarioDb scenarioDb
             (StartRide U1 (StartReq.mk "CYCLE001" (Some (castable S1))) 0) None).
    - apply reach_init.
    - exact I. }
  destruct (one_active_ride_per_rider_invariant scenarioDb afterStart
              eq_refl Hreach) as [Hone _].
  split; [exact Hone|reflexivity].
Defined.

(** Requests served one after the other are among the overlapping ones. *)
Lemma exec_handle (op : Op) (f : option nat) (d : Db) :
  exec op f d = handle op (lookup op d) f d.
Proof. destruct op; reflexivity. Qed.

Lemma reachable_overlapping (allowed : Op -> option nat -> Prop)
  (d0 d : Db) :
  reachable allowed d0 d -> overlapping d0 d [].
Proof.
  intros Hreach. induction Hreach as [|d op f _ IH _]; [constructor|].
  rewrite exec_handle.
  apply (overlap_handle d0 d [] [] op (lookup op d) f).
  apply overlap_lookup. exact IH.
Qed.

(** C2, as stated, fails: nothing but the lookup of the middleware keeps a
    rider from a second active ride (no unique index, no transaction), and
    when two start requests of a rider overlap, both lookups run before
    either insert: both requests are answered 201, and the rider has two
    rides in [active] state. *)
Lemma one_active_ride_in_every_state_counterexample :
  ~ one_active_ride_in_every_state.
Proof.
  intros H.
  set (s1 := StartRide U1 (StartReq.mk "CYCLE001" (Some (castable S1))) 0).
  set (s2 := StartRide U1 (StartReq.mk "CYCLE002" (Some (castable S1))) 1).
  assert (Hreach : overlapping scenarioDb twoStarts []).
  { apply (overlap_handle scenarioDb _ [] [] s2 (lookup s2 scenarioDb) None).
    apply (overlap_handle scenarioDb scenarioDb
             [pending s2 (lookup s2 scenarioDb)] []
             s1 (lookup s1 scenarioDb) None).
    apply (overlap_lookup scenarioDb scenarioDb
             [pending s1 (lookup s1 scenarioDb)] s2).
    apply (overlap_lookup scenarioDb scenarioDb [] s1).
    apply overlap_init. }
  specialize (H scenarioDb twoStarts [] eq_refl Hreach U1).
  vm_compute in H. lia.
Qed.

(** ** Documents and their [_id] *)

Section ById.

Context {A : Type}.
Variable id : A -> ObjectId.

Lemma NoDup_id_inj (l : list A) (x y : A) :
  NoDup (map id l) -> In x l -> In y l -> id x = id y -> x = y.
Proof.
  induction l as [|a l IH]; simpl; [tauto|].
  intros Hnd Hx Hy He. apply NoDup_cons_iff in Hnd. destruct Hnd as [Hna Hnd].
  destruct Hx as [<-|Hx], Hy as [<-|Hy]; auto.
  - exfalso. apply Hna. rewrite He. now apply in_map.
  - exfalso. apply Hna. rewrite <- He. now apply in_map.
Qed.

Lemma find_by_id (l : list A) (x : A) :
  NoDup (map id l) -> In x l ->
  find (fun y => Nat.eqb (id y) (id x)) l = Some x.
Proof.
  intros Hnd Hx.
  destruct (find (fun y => Nat.eqb (id y) (id x)) l) as [y|] eqn:Hf.
  - apply find_some in Hf. destruct Hf as [Hy He]. apply Nat.eqb_eq in He.
    f_equal. now apply (NoDup_id_inj l).
  - pose proof (find_none _ _ Hf x Hx) as Hn. simpl in Hn.
    rewrite Nat.eqb_refl in Hn. discriminate.
Qed.

(** After [findByIdAndUpdate], the lookup by the same [_id] returns the
    updated document. *)
Lemma find_updateOne (k : ObjectId) (g : A -> A) (l : list A) :
  (forall x, id (g x) = id x) ->
  find (fun y => Nat.eqb (id y) k)
       (updateOne (fun y => Nat.eqb (id y) k) g l) =
  option_map g (find (fun y => Nat.eqb (id y) k) l).
Proof.
  intros Hg. induction l as [|x l IH]; simpl; [reflexivity|].
  destruct (Nat.eqb (id x) k) eqn:He; simpl.
  - rewrite Hg, He. reflexivity.
  - rewrite He. exact IH.
Qed.

(** With distinct [_id]s the update replaces exactly the document it names. *)
Lemma updateOne_by_id_In (k : ObjectId) (g : A -> A) (l : list A) (y : A) :
  NoDup (map id l) -> (forall x, id (g x) = id x) ->
  In y (updateOne (fun x => Nat.eqb (id x) k) g l) <->
  (In y l /\ id y <> k) \/ (exists x, In x l /\ id x = k /\ y = g x).
Proof.
  intros Hnd Hg. induction l as [|a l IH]; simpl.
  - split; [tauto|]. intros [[[] _]|(x & [] & _)].
  - apply NoDup_cons_iff in Hnd. destruct Hnd as [Hna Hnd].
    destruct (Nat.eqb_spec (id a) k) as [Ha|Ha]; simpl.
    + split.
      * intros [<-|Hy]; [right; exists a; auto|].
        left. split; [auto|]. intros Hk. apply Hna. rewrite Ha, <- Hk.
        now apply in_map.
      * intros [[[<-|Hy] Hk]|(x & [<-|Hx] & Hk & ->)]; auto; [congruence|].
        exfalso. apply Hna. rewrite Ha, <- Hk. now apply in_map.
    + rewrite (IH Hnd). split.
      * intros [<-|[[Hy Hk]|(x & Hx & Hk & ->)]]; auto.
        right. exists x. auto.
      * intros [[[<-|Hy] Hk]|(x & [<-|Hx] & Hk & ->)]; auto; [congruence|].
        right. right. exists x. auto.
Qed.

End ById.

(** ** Starting a ride: the two writes *)

Lemma resolveCycle_In (cycleId : string) (d : Db) (c : Cycle.t) :
  resolveCycle cycleId d = Some c -> In c (cycles d).
Proof. intros H. apply find_some in H. tauto. Qed.




(** ** The availability invariant *)

Lemma fresh_consistent (d : Db) : fresh d -> Consistent d.
Proof.
  intros (Hempty & Hnd & Hidle).
  constructor; unfold ride_ids_issued, active_rides_open,
    one_active_ride_per_rider, one_active_ride_per_cycle, activeRidesOf,
    activeRidesOn, cycle_ride_sync; rewrite ?Hempty; simpl; auto.
  - constructor.
  - intros r [].
  - intros r [].
  - intros c Hc. split; [intros Hs; now destruct (Hidle c Hc)|].
    intros (r & [] & _).
Qed.

(** No active ride references a cycle that is not in use. *)
Lemma idle_cycle_no_ride (d : Db) (c : Cycle.t) :
  cycle_ride_sync d -> In c (cycles d) -> Cycle.status c <> Cycle.in_use ->
  activeRidesOn (Cycle._id c) d = [].
Proof.
  intros Hsync Hc Hs. apply filter_nil_iff. intros r Hr.
  destruct (Nat.eqb_spec (Ride.cycleId r) (Cycle._id c)) as [He|]; [|reflexivity].
  destruct (rideIsActive r) eqn:Hact; [|reflexivity].
  exfalso. apply Hs. apply (Hsync c Hc). exists r.
  apply rideIsActive_true in Hact. auto.
Qed.

(** The two writes of a successful start keep the database consistent. *)
Lemma consistent_start (d : Db) (user : ObjectId) (c : Cycle.t)
  (st : ObjectId) (now : Z) :
  Consistent d ->
  Ride_findActiveRide user d = None ->
  In c (cycles d) -> Cycle.status c = Cycle.available ->
  Consistent (withCycleStatus (Cycle._id c) Cycle.in_use
                (withRide (newRide d user c st now) d)).
Proof.
  intros [Hru Hrb Hcu Hopen Hrider Hcycle Hsync] Ha Hc Hs.
  set (r := newRide d user c st now).
  assert (Hidle : activeRidesOn (Cycle._id c) d = []).
  { apply idle_cycle_no_ride; auto. rewrite Hs. discriminate. }
  constructor; unfold withCycleStatus, withRide; cbn [rides cycles nextId set_cycles].
  - rewrite map_app. apply NoDup_app; [exact Hru|repeat constructor; simpl; tauto|].
    intros a Ha' [He|[]]. apply in_map_iff in Ha'.
    destruct Ha' as (x & Hx & Hin). specialize (Hrb x Hin).
    subst r. simpl in He. rewrite <- He in Hx. rewrite Hx in Hrb.
    exact (Nat.lt_irrefl _ Hrb).
  - subst r. intros x Hx. simpl in Hx |- *. apply in_app_iff in Hx.
    destruct Hx as [Hx|[<-|[]]]; [specialize (Hrb x Hx); lia|simpl; lia].
  - rewrite updateOne_map; [exact Hcu|reflexivity].
  - intros x Hx Hact. cbn [rides cycles set_cycles set_rides] in Hx. apply in_app_iff in Hx.
    destruct Hx as [Hx|[<-|[]]]; [now apply Hopen|reflexivity].
  - subst r. intros u. unfold activeRidesOf. cbn [rides cycles set_cycles set_rides]. rewrite count_snoc.
    destruct (Nat.eqb_spec user u) as [<-|Hne].
    + pose proof (findActiveRide_none_inv user d Hopen Ha) as Hnil.
      unfold activeRidesOf in Hnil. rewrite Hnil. simpl.
      destruct (_ && _); lia.
    + cbn [newRide Ride.userId]. apply Nat.eqb_neq in Hne.
      rewrite Hne. cbn [andb]. specialize (Hrider u).
      unfold activeRidesOf in Hrider. lia.
  - subst r. intros k. unfold activeRidesOn. cbn [rides cycles set_cycles set_rides]. rewrite count_snoc.
    destruct (Nat.eqb_spec (Cycle._id c) k) as [<-|Hne].
    + unfold activeRidesOn in Hidle. rewrite Hidle. simpl.
      destruct (_ && _); lia.
    + cbn [newRide Ride.cycleId]. apply Nat.eqb_neq in Hne.
      rewrite Hne. cbn [andb]. specialize (Hcycle k).
      unfold activeRidesOn in Hcycle. lia.
  - intros c' Hc'. cbn [rides cycles set_cycles set_rides] in *.
    apply (updateOne_by_id_In Cycle._id) in Hc'; [|exact Hcu|reflexivity].
    destruct Hc' as [[Hold Hne]|(x & Hx & Hk & ->)].
    + rewrite (Hsync c' Hold). split.
      * intros (x & Hx & Hact & Hon). exists x.
        split; [apply in_app_iff; now left|auto].
      * intros (x & Hx & Hact & Hon). apply in_app_iff in Hx.
        destruct Hx as [Hx|[<-|[]]]; [exists x; auto|].
        subst r. simpl in Hon. congruence.
    + simpl. split; [|reflexivity]. intros _. exists r.
      split; [apply in_app_iff; right; now left|].
      subst r. simpl. auto.
Qed.

(** Taking an active ride out of the [active] state and writing [available]
    on the cycle it references keep the database consistent. *)
Lemma consistent_finish (d : Db) (r0 : Ride.t) (g : Ride.t -> Ride.t) :
  Consistent d ->
  In r0 (rides d) -> Ride.status r0 = Ride.active ->
  (forall x, Ride.status (g x) <> Ride.active) ->
  (forall x, Ride._id (g x) = Ride._id x) ->
  Consistent (withCycleStatus (Ride.cycleId r0) Cycle.available
                (withRideUpdate (Ride._id r0) g d)).
Proof.
  intros [Hru Hrb Hcu Hopen Hrider Hcycle Hsync] Hr0 Hact0 Hg Hid.
  assert (Hold : forall r,
    In r (updateOne (fun x => Nat.eqb (Ride._id x) (Ride._id r0)) g (rides d)) ->
    Ride.status r = Ride.active -> In r (rides d) /\ r <> r0).
  { intros r Hr Hact.
    apply (updateOne_by_id_In Ride._id) in Hr; [|exact Hru|exact Hid].
    destruct Hr as [[Hin Hne]|(x & _ & _ & ->)]; [|now destruct (Hg x)].
    split; [exact Hin|congruence]. }
  constructor; unfold withCycleStatus, withRideUpdate;
    cbn [rides cycles nextId set_cycles set_rides].
  - rewrite updateOne_map; [exact Hru|exact Hid].
  - intros x Hx. simpl in Hx |- *.
    apply updateOne_In in Hx. destruct Hx as [Hx|(y & Hy & _ & ->)].
    + now apply Hrb.
    + rewrite Hid. now apply Hrb.
  - rewrite updateOne_map; [exact Hcu|reflexivity].
  - intros x Hx Hact. cbn [rides cycles set_cycles set_rides] in Hx.
    destruct (Hold x Hx Hact) as [Hin _]. now apply Hopen.
  - intros u. unfold activeRidesOf. cbn [rides cycles set_cycles set_rides].
    etransitivity; [|apply (Hrider u)].
    apply count_updateOne_le. intros x Hq.
    apply andb_prop in Hq. destruct Hq as [_ Hq].
    apply rideIsActive_true in Hq. now destruct (Hg x).
  - intros k. unfold activeRidesOn. cbn [rides cycles set_cycles set_rides].
    etransitivity; [|apply (Hcycle k)].
    apply count_updateOne_le. intros x Hq.
    apply andb_prop in Hq. destruct Hq as [_ Hq].
    apply rideIsActive_true in Hq. now destruct (Hg x).
  - intros c' Hc'. cbn [rides cycles set_cycles set_rides] in *.
    apply (updateOne_by_id_In Cycle._id) in Hc'; [|exact Hcu|reflexivity].
    destruct Hc' as [[Hin Hne]|(x & Hx & Hk & ->)].
    + rewrite (Hsync c' Hin). split.
      * intros (r & Hr & Hact & Hon). exists r. split; [|auto].
        apply (updateOne_by_id_In Ride._id); [exact Hru|exact Hid|].
        left. split; [exact Hr|]. intros He.
        assert (r = r0) by (apply (NoDup_id_inj Ride._id (rides d)); auto).
        subst r. congruence.
      * intros (r & Hr & Hact & Hon). destruct (Hold r Hr Hact) as [Hin' _].
        exists r. auto.
    + simpl. split; [discriminate|].
      intros (r & Hr & Hact & Hon). exfalso.
      destruct (Hold r Hr Hact) as [Hin' Hne]. apply Hne.
      apply (count_le_1_unique
               (fun r => Nat.eqb (Ride.cycleId r) (Ride.cycleId r0) && rideIsActive r)
               (rides d)); auto.
      * apply (Hcycle (Ride.cycleId r0)).
      * apply andb_true_intro. split; [apply Nat.eqb_eq; congruence|].
        now apply rideIsActive_true.
      * apply andb_true_intro. split; [apply Nat.eqb_refl|].
        now apply rideIsActive_true.
Qed.

(** The cycle a populated ride carries is the one its [cycleId] names. *)
Lemma populated_cycle (user : ObjectId) (d : Db) (ar : PopulatedRide) :
  Ride_findActiveRide user d = Some ar ->
  match cycleDoc ar with
  | Some rc => Cycle._id rc = Ride.cycleId (ride ar)
  | None => forall s,
      withCycleStatus (Ride.cycleId (ride ar)) s d = d
  end.
Proof.
  intros Har. destruct (findActiveRide_some _ _ _ Har) as (_ & _ & _ & _ & ->).
  unfold populate. cbn [cycleDoc ride].
  destruct (find (fun c => Nat.eqb (Cycle._id c) (Ride.cycleId (ride ar)))
                 (cycles d)) as [rc|] eqn:Hf.
  - apply find_some in Hf. now apply Nat.eqb_eq.
  - intros s. unfold withCycleStatus. rewrite updateOne_no_match; [|exact Hf].
    destruct d; reflexivity.
Qed.

Lemma consistent_step (op : Op) (d : Db) :
  isRideOp op = true -> Consistent d -> Consistent (snd (exec op None d)).
Proof.
  intros Hop Hcons.
  destruct op as [user body now|user body now|user now|id status];
    [| | |discriminate]; cbn [exec].
  - destruct (post_start_cases user body now None d)
      as [(-> & _)|(c & st & _ & Ha & Hc & Hs & _ & H)]; [exact Hcons|].
    destruct H as [(Hf & _)|[(Hf & _)|(_ & ->)]]; try discriminate.
    apply consistent_start; auto. now apply (resolveCycle_In _ _ _ Hc).
  - destruct (post_end_cases user body now None d)
      as [(-> & _)|(ar & c & rc & Har & _ & Hrc & Hid & H)]; [exact Hcons|].
    destruct H as [(Hf & _)|(_ & ->)]; [discriminate|].
    pose proof (populated_cycle _ _ _ Har) as Hpop. rewrite Hrc in Hpop.
    destruct (findActiveRide_some _ _ _ Har) as (Hin & _ & Hact & _).
    rewrite <- Hid, Hpop.
    apply consistent_finish; auto. intros x. simpl. discriminate.
  - destruct (post_cancel_cases user now None d)
      as [(-> & _)|(ar & Har & H)]; [exact Hcons|].
    destruct H as [(Hf & _)|(_ & ->)]; [discriminate|].
    pose proof (populated_cycle _ _ _ Har) as Hpop.
    destruct (findActiveRide_some _ _ _ Har) as (Hin & _ & Hact & _).
    assert (Hfin : Consistent
      (withCycleStatus (Ride.cycleId (ride ar)) Cycle.available
         (withRideUpdate (Ride._id (ride ar)) (cancelUpdate now) d))).
    { apply consistent_finish; auto. intros x. simpl. discriminate. }
    destruct (cycleDoc ar) as [rc|] eqn:Hrc.
    + rewrite Hpop. exact Hfin.
    + revert Hfin. unfold withCycleStatus, withRideUpdate.
      cbn [cycles set_rides].
      specialize (Hpop Cycle.available). unfold withCycleStatus in Hpop.
      assert (Hcy : updateOne
                (fun c => Nat.eqb (Cycle._id c) (Ride.cycleId (ride ar)))
                (Cycle.set_status Cycle.available) (cycles d) = cycles d).
      { apply (f_equal cycles) in Hpop. exact Hpop. }
      rewrite Hcy. unfold set_cycles, set_rides. cbn. auto.
Qed.

Lemma consistent_reachable (d0 d : Db) :
  fresh d0 -> reachable rideRequest d0 d -> Consistent d.
Proof.
  intros Hfresh Hreach. induction Hreach as [|d op f _ IH [Hop ->]].
  - now apply fresh_consistent.
  - now apply consistent_step.
Qed.

(** C1, as the code has it. From a database without rides whose cycles
    have distinct ids and are not in use, after any sequence of start, end
    and cancel requests, each served to its end by a database that does not
    fail, a cycle has status [in-use] exactly when a ride in [active] state
    references it, and no cycle carries two active rides. *)
Theorem sync_under_ride_requests (d0 d : Db) :
  fresh d0 -> reachable rideRequest d0 d ->
  cycle_ride_sync d /\ one_active_ride_per_cycle d.
Proof.
  intros Hfresh Hreach.
  destruct (consistent_reachable d0 d Hfresh Hreach). auto.
Qed.

Lemma scenarioDb_fresh : fresh scenarioDb.
Proof.
  split; [reflexivity|]. split.
  - simpl. repeat constructor; simpl; intuition discriminate.
  - intros c [<-|[<-|[]]]; discriminate.
Qed.

Lemma sync_under_ride_requests_witness :
  cycle_ride_sync afterEnd /\ one_active_ride_per_cycle afterEnd.
Proof.
  apply (sync_under_ride_requests scenarioDb afterEnd scenarioDb_fresh).
  apply (reach_step rideRequest scenarioDb afterStart
           (EndRide U1 (EndReq.mk "CYCLE001" (Some (castable S2))
                                  (Some (Ride.mkFeedback (Some 5) None)))
                    600000) None).
  - apply (reach_step rideRequest scenarioDb scenarioDb
             (StartRide U1 (StartReq.mk "CYCLE001" (Some (castable S1))) 0) None).
    + apply reach_init.
    + split; reflexivity.
  - split; reflexivity.
Defined.

(** C1, as stated, fails: the administrator writes [in-use] on an idle
    cycle of the fresh database, and no ride references that cycle. *)
Lemma sync_in_every_state_counterexample : ~ sync_in_every_state.
Proof.
  intros H.
  assert (Hreach : reachable noFailure scenarioDb
            (snd (exec (UpdateCycleStatus 10 "in-use") None scenarioDb))).
  { apply reach_step; [apply reach_init|reflexivity]. }
  specialize (H _ _ scenarioDb_fresh Hreach
                (Cycle.mk 10 "CYCLE001" S1 Cycle.in_use true)
                (or_introl eq_refl)).
  destruct H as [H _]. destruct (H eq_refl) as (r & [] & _).
Qed.

(** * Further properties of the routes *)

(** ** More on collections *)

Section MoreCollections.

Context {A : Type}.

Lemma find_app_none (p : A -> bool) (l l' : list A) :
  find p l = None -> find p (l ++ l') = find p l'.
Proof.
  induction l as [|x l IH]; simpl; [reflexivity|].
  destruct (p x); [discriminate|exact IH].
Qed.

Lemma updateOne_app_no_match (p : A -> bool) (g : A -> A) (l l' : list A) :
  find p l = None -> updateOne p g (l ++ l') = (l ++ updateOne p g l')%list.
Proof.
  induction l as [|x l IH]; simpl; [reflexivity|].
  destruct (p x); [discriminate|]. intros H. now rewrite IH.
Qed.

(** An update that changes nothing on the documents it may select. *)
Lemma updateOne_fixed (p : A -> bool) (g : A -> A) (l : list A) :
  (forall x, In x l -> p x = true -> g x = x) -> updateOne p g l = l.
Proof.
  induction l as [|x l IH]; simpl; intros H; [reflexivity|].
  destruct (p x) eqn:Hp.
  - rewrite (H x (or_introl eq_refl) Hp). reflexivity.
  - rewrite IH; [reflexivity|]. intros y Hy. apply H. now right.
Qed.

(** Two updates through the same filter act as one. *)
Lemma updateOne_twice (p : A -> bool) (g h : A -> A) (l : list A) :
  (forall x, p (g x) = p x) ->
  updateOne p h (updateOne p g l) = updateOne p (fun x => h (g x)) l.
Proof.
  intros Hp. induction l as [|x l IH]; simpl; [reflexivity|].
  destruct (p x) eqn:Hx; simpl.
  - rewrite Hp, Hx. reflexivity.
  - rewrite Hx, IH. reflexivity.
Qed.

(** A filter that the update does not move selects the same documents. *)
Lemma filter_updateOne_same (q p : A -> bool) (g : A -> A) (l : list A) :
  (forall x, In x l -> p x = true -> q x = false /\ q (g x) = false) ->
  filter q (updateOne p g l) = filter q l.
Proof.
  induction l as [|x l IH]; simpl; intros H; [reflexivity|].
  destruct (p x) eqn:Hp; simpl.
  - destruct (H x (or_introl eq_refl) Hp) as [-> ->]. reflexivity.
  - rewrite IH; [reflexivity|]. intros y Hy. apply H. now right.
Qed.

End MoreCollections.

(** With distinct [_id]s, a lookup through another filter that the update
    does not move finds the updated document where it found the old one. *)
Lemma find_other_updateOne {A : Type} (id : A -> ObjectId) (q : A -> bool)
  (g : A -> A) (l : list A) (c : A) :
  NoDup (map id l) -> (forall x, q (g x) = q x) ->
  find q l = Some c ->
  find q (updateOne (fun x => Nat.eqb (id x) (id c)) g l) = Some (g c).
Proof.
  intros Hnd Hq. induction l as [|x l IH]; simpl; [discriminate|].
  apply NoDup_cons_iff in Hnd. destruct Hnd as [Hna Hnd].
  destruct (q x) eqn:Hx.
  - intros [= <-]. rewrite Nat.eqb_refl. simpl. rewrite Hq, Hx. reflexivity.
  - intros Hf. destruct (Nat.eqb_spec (id x) (id c)) as [He|He].
    + exfalso. apply Hna. rewrite He. apply in_map.
      apply find_some in Hf. tauto.
    + simpl. rewrite Hx. now apply IH.
Qed.

(** ** When a request goes through *)

Lemma knownStation_find (stationId : option IdParam) (d : Db) :
  knownStation stationId d <->
  exists st s, stationId = Some (castable st) /\
               fst (Station_findById (Some st) d) = Some s.
Proof.
  unfold knownStation, Station_findById. cbn [fst]. split.
  - intros (st & -> & Hin). apply in_map_iff in Hin.
    destruct Hin as (s & Hs & Hin). exists st.
    destruct (find (fun s0 => Nat.eqb (Station._id s0) st) (stations d))
      as [s'|] eqn:Hf; [exists s'; auto|].
    pose proof (find_none _ _ Hf s Hin) as Hn. simpl in Hn.
    rewrite Hs, Nat.eqb_refl in Hn. discriminate.
  - intros (st & s & -> & Hs). exists st. split; [reflexivity|].
    apply find_some in Hs. destruct Hs as [Hin He].
    apply Nat.eqb_eq in He. rewrite <- He. now apply in_map.
Qed.

Lemma post_start_run (user : ObjectId) (body : StartReq.t) (now : Z)
  (d : Db) (c : Cycle.t) (st : ObjectId) :
  StartReq.validationResult body = [] ->
  Ride_findActiveRide user d = None ->
  resolveCycle (StartReq.cycleId body) d = Some c ->
  Cycle.status c = Cycle.available ->
  StartReq.stationId body = Some (castable st) ->
  In st (map Station._id (stations d)) ->
  post_start user body now None d = started d user c st now.
Proof.
  intros Hv Ha Hc Hs Hst Hin.
  assert (Hk : knownStation (StartReq.stationId body) d)
    by (exists st; auto).
  apply knownStation_find in Hk. destruct Hk as (st' & s & Hst' & Hfs).
  rewrite Hst in Hst'. injection Hst' as <-.
  unfold Station_findById in Hfs. cbn [fst] in Hfs.
  handler. rewrite Hv, Ha. cbn [isEmpty negb]. rewrite Hc, Hs, Hst.
  cbn [Cycle.Status_eqb negb objectId]. unfold Station_findById.
  rewrite Hfs. reflexivity.
Qed.

Lemma post_end_run (user : ObjectId) (body : EndReq.t) (now : Z)
  (d : Db) (ar : PopulatedRide) (c : Cycle.t) :
  EndReq.validationResult body = [] ->
  Ride_findActiveRide user d = Some ar ->
  resolveCycle (EndReq.cycleId body) d = Some c ->
  Cycle._id c = Ride.cycleId (ride ar) ->
  knownStation (EndReq.stationId body) d ->
  post_end user body now None d = ended d ar body now.
Proof.
  intros Hv Ha Hc Hid Hk.
  apply knownStation_find in Hk. destruct Hk as (st & s & Hst & Hfs).
  unfold Station_findById in Hfs. cbn [fst] in Hfs.
  pose proof (populated_cycle _ _ _ Ha) as Hpop.
  assert (Hrc : exists rc, cycleDoc ar = Some rc).
  { destruct (findActiveRide_some _ _ _ Ha) as (_ & _ & _ & _ & Hp).
    rewrite Hp. unfold populate. cbn [cycleDoc ride].
    destruct (find (fun c0 => Nat.eqb (Cycle._id c0) (Ride.cycleId (ride ar)))
                   (cycles d)) as [rc|] eqn:Hf; [eauto|].
    pose proof (find_none _ _ Hf c (resolveCycle_In _ _ _ Hc)) as Hn.
    simpl in Hn. rewrite Hid, Nat.eqb_refl in Hn. discriminate. }
  destruct Hrc as (rc & Hrc). rewrite Hrc in Hpop.
  unfold ended. rewrite Hst.
  handler. rewrite Hv, Ha. cbn [isEmpty negb]. rewrite Hc, Hrc.
  rewrite Hpop, <- Hid, Nat.eqb_refl, Hst. cbn [negb objectId].
  unfold Station_findById. rewrite Hfs. reflexivity.
Qed.

Lemma post_cancel_run (user : ObjectId) (now : Z) (d : Db)
  (ar : PopulatedRide) :
  Ride_findActiveRide user d = Some ar ->
  post_cancel user now None d = cancelled d ar now.
Proof.
  intros Ha. pose proof (populated_cycle _ _ _ Ha) as Hpop.
  handler. rewrite Ha. unfold cancelled, Cycle_findByIdAndUpdate.
  destruct (cycleDoc ar) as [rc|]; cbn.
  - rewrite Hpop. reflexivity.
  - f_equal. symmetry.
    specialize (Hpop Cycle.available). unfold withCycleStatus in *.
    apply (f_equal cycles) in Hpop. cbn [cycles set_cycles] in Hpop.
    unfold withRideUpdate, set_rides, set_cycles. cbn. rewrite Hpop.
    reflexivity.
Qed.

(** What the answer 201 of a start says of the request and the database. *)
Lemma post_start_201_inv (user : ObjectId) (body : StartReq.t)
  (now : Z) (d : Db) :
  code (fst (post_start user body now None d)) = 201%nat ->
  StartReq.validationResult body = [] /\
  Ride_findActiveRide user d = None /\
  exists c st,
    resolveCycle (StartReq.cycleId body) d = Some c /\
    Cycle.status c = Cycle.available /\
    StartReq.stationId body = Some (castable st) /\
    In st (map Station._id (stations d)).
Proof.
  intros Hcode.
  destruct (post_start_cases user body now None d)
    as [(_ & Hne & _)|(c & st & Hv & Ha & Hc & Hs & Hst & _)];
    [now destruct Hne|].
  split; [exact Hv|]. split; [exact Ha|]. exists c, st.
  repeat split; auto.
  revert Hcode. handler. rewrite Hv, Ha. cbn [isEmpty negb].
  rewrite Hc, Hs, Hst. cbn [Cycle.Status_eqb negb objectId].
  unfold Station_findById.
  destruct (find (fun s => Nat.eqb (Station._id s) st) (stations d))
    as [s|] eqn:Hf; [|discriminate].
  intros _. apply find_some in Hf. destruct Hf as [Hin He].
  apply Nat.eqb_eq in He. rewrite <- He. now apply in_map.
Qed.

Lemma post_start_201_iff (user : ObjectId) (body : StartReq.t)
  (now : Z) (d : Db) :
  code (fst (post_start user body now None d)) = 201%nat <->
  (StartReq.validationResult body = [] /\
   Ride_findActiveRide user d = None /\
   exists c st,
     resolveCycle (StartReq.cycleId body) d = Some c /\
     Cycle.status c = Cycle.available /\
     StartReq.stationId body = Some (castable st) /\
     In st (map Station._id (stations d)) /\
     post_start user body now None d = started d user c st now).
Proof.
  split.
  - intros Hcode.
    destruct (post_start_201_inv user body now d Hcode)
      as (Hv & Ha & c & st & Hc & Hs & Hst & Hin).
    split; [exact Hv|]. split; [exact Ha|]. exists c, st.
    repeat split; auto. now apply post_start_run.
  - intros (_ & _ & c & st & _ & _ & _ & _ & ->). reflexivity.
Qed.

(** What the answer 200 of an end says of the request and the database. *)
Lemma post_end_200_inv (user : ObjectId) (body : EndReq.t) (now : Z)
  (d : Db) :
  code (fst (post_end user body now None d)) = 200%nat ->
  EndReq.validationResult body = [] /\
  exists ar c,
    Ride_findActiveRide user d = Some ar /\
    resolveCycle (EndReq.cycleId body) d = Some c /\
    Cycle._id c = Ride.cycleId (ride ar) /\
    knownStation (EndReq.stationId body) d.
Proof.
  intros Hcode.
  destruct (post_end_cases user body now None d)
    as [(_ & Hne)|(ar & c & rc & Ha & Hc & Hrc & Hid & _)];
    [now destruct Hne|].
  pose proof (populated_cycle _ _ _ Ha) as Hpop. rewrite Hrc in Hpop.
  assert (Hv : EndReq.validationResult body = []).
  { revert Hcode. handler.
    destruct (EndReq.validationResult body); [reflexivity|discriminate]. }
  assert (Hk : knownStation (EndReq.stationId body) d).
  { apply knownStation_find. revert Hcode. handler.
    rewrite Hv, Ha. cbn [isEmpty negb]. rewrite Hc, Hrc, Hid, Nat.eqb_refl.
    cbn [negb].
    destruct (EndReq.stationId body) as [[st|]|]; cbn [objectId];
      [|discriminate|discriminate].
    unfold Station_findById.
    destruct (find (fun s => Nat.eqb (Station._id s) st) (stations d))
      as [s|] eqn:Hf; [|discriminate].
    intros _. exists st, s. split; [reflexivity|cbn [fst]; exact Hf]. }
  split; [exact Hv|]. exists ar, c.
  assert (Hidc : Cycle._id c = Ride.cycleId (ride ar)) by congruence.
  repeat split; auto.
Qed.

Lemma post_end_200_iff (user : ObjectId) (body : EndReq.t) (now : Z)
  (d : Db) :
  code (fst (post_end user body now None d)) = 200%nat <->
  (EndReq.validationResult body = [] /\
   exists ar c,
     Ride_findActiveRide user d = Some ar /\
     resolveCycle (EndReq.cycleId body) d = Some c /\
     Cycle._id c = Ride.cycleId (ride ar) /\
     knownStation (EndReq.stationId body) d /\
     post_end user body now None d = ended d ar body now).
Proof.
  split.
  - intros Hcode.
    destruct (post_end_200_inv user body now d Hcode)
      as (Hv & ar & c & Ha & Hc & Hid & Hk).
    split; [exact Hv|]. exists ar, c.
    repeat split; auto. now apply (post_end_run user body now d ar c).
  - intros (_ & ar & c & _ & _ & _ & _ & ->). reflexivity.
Qed.

Lemma post_cancel_200_iff (user : ObjectId) (now : Z) (d : Db) :
  code (fst (post_cancel user now None d)) = 200%nat <->
  exists ar,
    Ride_findActiveRide user d = Some ar /\
    post_cancel user now None d = cancelled d ar now.
Proof.
  split.
  - intros Hcode.
    destruct (Ride_findActiveRide user d) as [ar|] eqn:Ha.
    + exists ar. split; [reflexivity|]. now apply post_cancel_run.
    + revert Hcode. handler. rewrite Ha. discriminate.
  - intros (ar & _ & ->). reflexivity.
Qed.

(** ** The database after a ride request *)

(** The lookup right after the insert of a ride for a rider it found none
    for. *)
Lemma findActiveRide_after_insert (user : ObjectId) (d : Db) (c : Cycle.t)
  (st : ObjectId) (now : Z) (k : ObjectId) (s : Cycle.Status) :
  Ride_findActiveRide user d = None ->
  let r := newRide d user c st now in
  let d' := withCycleStatus k s (withRide r d) in
  Ride_findActiveRide user d' = Some (populate d' r).
Proof.
  intros Ha r d'. unfold Ride_findActiveRide in *.
  destruct (find (Ride.isActiveRideOf user) (rides d)) eqn:Hf; [discriminate|].
  subst d'. unfold withCycleStatus, withRide.
  cbn [rides set_cycles]. rewrite find_app_none by exact Hf.
  subst r. cbn [find]. unfold Ride.isActiveRideOf.
  cbn [newRide Ride.userId Ride.status Ride.endTime Ride.Status_eqb andb].
  rewrite Nat.eqb_refl. reflexivity.
Qed.

(** X4. After a start that went through, in a database whose cycles have
    distinct ids, [GET /active] answers the rider with the ride just created
    and, for its cycle, the id and the QR identifier of the cycle the start
    resolved. *)
Theorem started_ride_is_active (user : ObjectId) (body : StartReq.t)
  (now : Z) (d : Db) :
  NoDup (map Cycle._id (cycles d)) ->
  code (fst (post_start user body now None d)) = 201%nat ->
  exists c st,
    resolveCycle (StartReq.cycleId body) d = Some c /\
    StartReq.stationId body = Some (castable st) /\
    let d' := snd (post_start user body now None d) in
    get_active user None d' =
      (ok 200 None
          (PopulatedData
             (mkRideView (newRide d user c st now)
                         (Some (mkCycleSummary (Cycle._id c)
                                               (Cycle.cycleId c))))), d').
Proof.
  intros Hnd Hcode. apply post_start_201_iff in Hcode.
  destruct Hcode as (_ & Ha & c & st & Hc & _ & Hst & _ & Hrun).
  exists c, st. split; [exact Hc|]. split; [exact Hst|].
  cbv zeta. rewrite Hrun. unfold started. cbn [snd].
  unfold get_active, try_catch, activeRide, checkActiveRide.
  rewrite (findActiveRide_after_insert user d c st now _ _ Ha).
  cbv beta iota zeta delta [bind await ret fuse db Ride_populate ride populate].
  cbn [fst snd ride]. f_equal. f_equal. f_equal. f_equal.
  unfold withCycleStatus, withRide.
  cbn [cycles set_cycles Ride.cycleId newRide].
  rewrite (find_updateOne Cycle._id); [|reflexivity].
  rewrite (find_by_id Cycle._id _ c Hnd (resolveCycle_In _ _ _ Hc)).
  reflexivity.
Qed.

Lemma started_ride_is_active_witness :
  get_active U1 None afterStart =
    (ok 200 None
        (PopulatedData
           (mkRideView
              (Ride.mk 100 U1 10 S1 0 None (Some 0) Ride.active S1 None
                       Ride.noFeedback)
              (Some (mkCycleSummary 10 "CYCLE001")))),
     afterStart).
Proof.
  assert (Hnd : NoDup (map Cycle._id (cycles scenarioDb))).
  { simpl. repeat constructor; simpl; intuition discriminate. }
  destruct (started_ride_is_active U1
              (StartReq.mk "CYCLE001" (Some (castable S1))) 0
              scenarioDb Hnd eq_refl) as (c & st & Hc & Hst & H).
  injection Hc as <-. injection Hst as <-. exact H.
Defined.

(** Once the active ride of a rider has left the [active] state, the
    lookup finds none: the rider had no other. *)
Lemma findActiveRide_after_update (user : ObjectId) (d : Db)
  (ar : PopulatedRide) (g : Ride.t -> Ride.t) (k : ObjectId)
  (s : Cycle.Status) :
  NoDup (map Ride._id (rides d)) ->
  one_active_ride_per_rider d ->
  Ride_findActiveRide user d = Some ar ->
  (forall x, Ride.status (g x) <> Ride.active) ->
  (forall x, Ride._id (g x) = Ride._id x) ->
  Ride_findActiveRide user
    (withCycleStatus k s (withRideUpdate (Ride._id (ride ar)) g d)) = None.
Proof.
  intros Hnd Hone Ha Hg Hid. apply findActiveRide_none_iff.
  destruct (findActiveRide_some _ _ _ Ha) as (Hin0 & Hu0 & Hs0 & _).
  intros r Hr Hu Hs _. unfold withCycleStatus, withRideUpdate in Hr.
  cbn [rides set_cycles set_rides] in Hr.
  apply (updateOne_by_id_In Ride._id) in Hr; [|exact Hnd|exact Hid].
  destruct Hr as [[Hin Hne]|(x & _ & _ & ->)]; [|now destruct (Hg x)].
  apply Hne. f_equal.
  apply (count_le_1_unique
           (fun r => Nat.eqb (Ride.userId r) user && rideIsActive r)
           (rides d)); auto.
  - apply (Hone user).
  - apply andb_true_intro. split; [now apply Nat.eqb_eq|].
    now apply rideIsActive_true.
  - apply andb_true_intro. split; [now apply Nat.eqb_eq|].
    now apply rideIsActive_true.
Qed.

Lemma get_active_none (user : ObjectId) (d : Db) :
  Ride_findActiveRide user d = None ->
  get_active user None d = (ok 200 (Some "No active ride") (RideData None), d).
Proof.
  intros H. unfold get_active, try_catch, activeRide, checkActiveRide.
  rewrite H. reflexivity.
Qed.

(** X5. After an end that went through, in a database with distinct ride
    ids, distinct cycle ids and at most one active ride per rider: the ride
    is stored completed with the end time of the request, the station and
    the sanitized feedback, every other path as it was; the answer carries
    that document; the scanned cycle is stored [available]; and [GET /active]
    answers the rider 'No active ride'. *)
Theorem ended_ride_state (user : ObjectId) (body : EndReq.t) (now : Z)
  (d : Db) :
  NoDup (map Ride._id (rides d)) ->
  NoDup (map Cycle._id (cycles d)) ->
  one_active_ride_per_rider d ->
  code (fst (post_end user body now None d)) = 200%nat ->
  let d' := snd (post_end user body now None d) in
  exists ar c,
    Ride_findActiveRide user d = Some ar /\
    resolveCycle (EndReq.cycleId body) d = Some c /\
    let done := endUpdate now (objectId (EndReq.stationId body))
             (EndReq.sanitized body)
                          (ride ar) in
    data (fst (post_end user body now None d)) = RideData (Some done) /\
    find (fun r => Nat.eqb (Ride._id r) (Ride._id (ride ar))) (rides d') =
      Some done /\
    fst (Cycle_findById (Cycle._id c) d') =
      Some (Cycle.set_status Cycle.available c) /\
    get_active user None d' =
      (ok 200 (Some "No active ride") (RideData None), d').
Proof.
  intros Hnr Hnc Hone Hcode. apply post_end_200_iff in Hcode.
  destruct Hcode as (_ & ar & c & Ha & Hc & Hid & _ & Hrun).
  destruct (findActiveRide_some _ _ _ Ha) as (Hin0 & _).
  cbv zeta. rewrite Hrun. exists ar, c.
  split; [exact Ha|]. split; [exact Hc|].
  unfold ended. cbn [fst snd data].
  rewrite (find_by_id Ride._id _ _ Hnr Hin0). cbn [option_map].
  split; [reflexivity|]. split.
  - unfold withCycleStatus, withRideUpdate. cbn [rides set_cycles set_rides].
    rewrite (find_updateOne Ride._id); [|reflexivity].
    rewrite (find_by_id Ride._id _ _ Hnr Hin0). reflexivity.
  - split.
    + unfold Cycle_findById, Cycle_findOne, withCycleStatus, withRideUpdate.
      cbn [fst cycles set_cycles set_rides]. rewrite <- Hid.
      rewrite (find_updateOne Cycle._id); [|reflexivity].
      rewrite (find_by_id Cycle._id _ c Hnc (resolveCycle_In _ _ _ Hc)).
      reflexivity.
    + apply get_active_none. apply findActiveRide_after_update; auto.
      intros x. simpl. discriminate.
Qed.

Lemma afterStart_distinct :
  NoDup (map Ride._id (rides afterStart)) /\
  NoDup (map Cycle._id (cycles afterStart)) /\
  one_active_ride_per_rider afterStart.
Proof.
  split; [simpl; repeat constructor; simpl; tauto|].
  split; [simpl; repeat constructor; simpl; intuition discriminate|].
  intros u. unfold activeRidesOf.
  change (rides afterStart)
    with [Ride.mk 100 U1 10 S1 0 None (Some 0) Ride.active S1 None
                  Ride.noFeedback].
  cbn [filter Ride.userId]. destruct (Nat.eqb U1 u); simpl; lia.
Qed.

Lemma ended_ride_state_witness :
  get_active U1 None afterEnd =
    (ok 200 (Some "No active ride") (RideData None), afterEnd) /\
  fst (Cycle_findById 10 afterEnd) =
    Some (Cycle.mk 10 "CYCLE001" S1 Cycle.available true).
Proof.
  destruct afterStart_distinct as (Hnr & Hnc & Hone).
  destruct (ended_ride_state U1
              (EndReq.mk "CYCLE001" (Some (castable S2))
                         (Some (Ride.mkFeedback (Some 5) None)))
              600000 afterStart Hnr Hnc Hone eq_refl)
    as (ar & c & _ & Hc & _ & _ & Hcy & Hact).
  split; [exact Hact|].
  injection Hc as <-. exact Hcy.
Defined.

(** X6. After a cancel that went through, in a database with distinct ride
    ids and at most one active ride per rider: the ride is stored cancelled
    with the end time of the request and with no other path changed (no end
    station, the duration and the feedback it had), and [GET /active] answers
    the rider 'No active ride'. *)
Theorem cancelled_ride_state (user : ObjectId) (now : Z) (d : Db) :
  NoDup (map Ride._id (rides d)) ->
  one_active_ride_per_rider d ->
  code (fst (post_cancel user now None d)) = 200%nat ->
  let d' := snd (post_cancel user now None d) in
  exists ar,
    Ride_findActiveRide user d = Some ar /\
    let gone := cancelUpdate now (ride ar) in
    data (fst (post_cancel user now None d)) = RideData (Some gone) /\
    find (fun r => Nat.eqb (Ride._id r) (Ride._id (ride ar))) (rides d') =
      Some gone /\
    Ride.status gone = Ride.cancelled /\
    Ride.endTime gone = Some now /\
    Ride.endStation gone = Ride.endStation (ride ar) /\
    Ride.duration gone = Ride.duration (ride ar) /\
    Ride.feedback gone = Ride.feedback (ride ar) /\
    get_active user None d' =
      (ok 200 (Some "No active ride") (RideData None), d').
Proof.
  intros Hnr Hone Hcode. apply post_cancel_200_iff in Hcode.
  destruct Hcode as (ar & Ha & Hrun).
  destruct (findActiveRide_some _ _ _ Ha) as (Hin0 & _).
  cbv zeta. rewrite Hrun. exists ar. split; [exact Ha|].
  unfold cancelled. cbn [fst snd data].
  rewrite (find_by_id Ride._id _ _ Hnr Hin0). cbn [option_map].
  split; [reflexivity|]. split.
  - unfold withCycleStatus, withRideUpdate. cbn [rides set_cycles set_rides].
    rewrite (find_updateOne Ride._id); [|reflexivity].
    rewrite (find_by_id Ride._id _ _ Hnr Hin0). reflexivity.
  - repeat (split; [reflexivity|]).
    apply get_active_none. apply findActiveRide_after_update; auto.
    intros x. simpl. discriminate.
Qed.

Lemma cancelled_ride_state_witness :
  get_active U1 None (snd (post_cancel U1 9 None afterStart)) =
    (ok 200 (Some "No active ride") (RideData None),
     snd (post_cancel U1 9 None afterStart)).
Proof.
  destruct afterStart_distinct as (Hnr & _ & Hone).
  destruct (cancelled_ride_state U1 9 afterStart Hnr Hone eq_refl)
    as (ar & _ & _ & _ & _ & _ & _ & _ & _ & Hact).
  exact Hact.
Defined.

(** ** A ride from start to finish *)

(** Marking an available cycle [in-use] and then [available] again gives
    back the collection of cycles. *)
Lemma cycles_restored (l : list Cycle.t) (c : Cycle.t) :
  NoDup (map Cycle._id l) -> In c l -> Cycle.status c = Cycle.available ->
  updateOne (fun x => Nat.eqb (Cycle._id x) (Cycle._id c))
            (Cycle.set_status Cycle.available)
            (updateOne (fun x => Nat.eqb (Cycle._id x) (Cycle._id c))
                       (Cycle.set_status Cycle.in_use) l) = l.
Proof.
  intros Hnd Hc Hs. rewrite updateOne_twice; [|reflexivity].
  apply updateOne_fixed. intros x Hx He. apply Nat.eqb_eq in He.
  assert (x = c) by (apply (NoDup_id_inj Cycle._id l); auto). subst x.
  destruct c. simpl in *. subst. reflexivity.
Qed.

(** The update of the ride just inserted touches no older ride. *)
Lemma new_ride_updated (d : Db) (r : Ride.t) (g : Ride.t -> Ride.t) :
  ride_ids_issued d -> Ride._id r = nextId d ->
  updateOne (fun x => Nat.eqb (Ride._id x) (Ride._id r)) g (rides d ++ [r]) =
  (rides d ++ [g r])%list.
Proof.
  intros Hiss Hid. rewrite updateOne_app_no_match.
  - simpl. rewrite Nat.eqb_refl. reflexivity.
  - apply find_none_iff. intros x Hx. apply Nat.eqb_neq.
    specialize (Hiss x Hx). lia.
Qed.

Lemma findActiveRide_none_find (user : ObjectId) (d : Db) :
  Ride_findActiveRide user d = None <->
  find (Ride.isActiveRideOf user) (rides d) = None.
Proof.
  unfold Ride_findActiveRide.
  destruct (find (Ride.isActiveRideOf user) (rides d)); simpl;
    split; congruence.
Qed.

(** The state a successful start leaves, ready for the next request of the
    rider. *)
Lemma after_start (user : ObjectId) (body : StartReq.t) (now : Z) (d : Db) :
  NoDup (map Cycle._id (cycles d)) ->
  code (fst (post_start user body now None d)) = 201%nat ->
  exists c st,
    resolveCycle (StartReq.cycleId body) d = Some c /\
    Cycle.status c = Cycle.available /\
    Ride_findActiveRide user d = None /\
    let r := newRide d user c st now in
    let d1 := withCycleStatus (Cycle._id c) Cycle.in_use (withRide r d) in
    snd (post_start user body now None d) = d1 /\
    Ride_findActiveRide user d1 = Some (populate d1 r) /\
    resolveCycle (StartReq.cycleId body) d1 =
      Some (Cycle.set_status Cycle.in_use c).
Proof.
  intros Hnd Hcode. apply post_start_201_iff in Hcode.
  destruct Hcode as (_ & Ha & c & st & Hc & Hs & _ & _ & Hrun).
  exists c, st. repeat (split; [assumption|]). cbv zeta.
  split; [rewrite Hrun; reflexivity|].
  split; [now apply findActiveRide_after_insert|].
  unfold resolveCycle, Cycle_findOne, withCycleStatus, withRide.
  cbn [fst cycles set_cycles].
  apply (find_other_updateOne Cycle._id); auto.
Qed.

(** X7. Start, then end. In a database whose cycles have distinct ids and
    whose ride ids were all issued, a start that goes through followed by an
    end of the same rider that scans the same identifier at an existing
    station goes through as well, and leaves every cycle and station as
    before the start, one more ride, completed from the start time to the
    end time, and the rider without an active ride. *)
Theorem start_then_end (user : ObjectId) (sbody : StartReq.t)
  (ebody : EndReq.t) (t1 t2 : Z) (d : Db) :
  NoDup (map Cycle._id (cycles d)) ->
  ride_ids_issued d ->
  code (fst (post_start user sbody t1 None d)) = 201%nat ->
  EndReq.validationResult ebody = [] ->
  EndReq.cycleId ebody = StartReq.cycleId sbody ->
  knownStation (EndReq.stationId ebody) d ->
  let d1 := snd (post_start user sbody t1 None d) in
  let d2 := snd (post_end user ebody t2 None d1) in
  code (fst (post_end user ebody t2 None d1)) = 200%nat /\
  cycles d2 = cycles d /\ stations d2 = stations d /\
  (exists r, rides d2 = (rides d ++ [r])%list /\
             Ride.userId r = user /\ Ride.status r = Ride.completed /\
             Ride.startTime r = t1 /\ Ride.endTime r = Some t2 /\
             Ride.endStation r = objectId (EndReq.stationId ebody)) /\
  Ride_findActiveRide user d2 = None.
Proof.
  intros Hnd Hiss Hcode Hv Hqr Hk. cbv zeta.
  destruct (after_start user sbody t1 d Hnd Hcode)
    as (c & st & Hc & Hs & Ha & Hd1 & Ha1 & Hc1).
  cbv zeta in Hd1, Ha1, Hc1. rewrite Hd1.
  set (r := newRide d user c st t1) in *.
  set (d1 := withCycleStatus (Cycle._id c) Cycle.in_use (withRide r d)) in *.
  assert (Hrun : post_end user ebody t2 None d1 =
                 ended d1 (populate d1 r) ebody t2).
  { apply (post_end_run user ebody t2 d1 (populate d1 r)
             (Cycle.set_status Cycle.in_use c));
      [exact Hv|exact Ha1|rewrite Hqr; exact Hc1|reflexivity|exact Hk]. }
  rewrite Hrun. unfold ended. cbn [fst snd code ok ride populate].
  split; [reflexivity|].
  unfold withCycleStatus, withRideUpdate.
  cbn [cycles stations rides set_cycles set_rides].
  subst d1. unfold withCycleStatus, withRide.
  cbn [cycles stations rides set_cycles].
  assert (Hr : Ride.cycleId r = Cycle._id c) by reflexivity.
  rewrite Hr.
  split; [apply cycles_restored; auto; now apply (resolveCycle_In _ _ _ Hc)|].
  split; [reflexivity|].
  rewrite (new_ride_updated d r _ Hiss eq_refl).
  split.
  - eexists. split; [reflexivity|]. repeat split; reflexivity.
  - apply findActiveRide_none_find. apply findActiveRide_none_find in Ha.
    cbn [rides set_cycles set_rides].
    try rewrite (new_ride_updated d r _ Hiss eq_refl).
    rewrite find_app_none by exact Ha.
    subst r. cbn [find]. unfold Ride.isActiveRideOf. simpl.
    destruct (Nat.eqb user user); reflexivity.
Qed.

Lemma scenarioDb_issued : ride_ids_issued scenarioDb.
Proof. intros r []. Qed.

Lemma start_then_end_witness :
  cycles afterEnd = cycles scenarioDb /\
  Ride_findActiveRide U1 afterEnd = None.
Proof.
  assert (Hnd : NoDup (map Cycle._id (cycles scenarioDb))).
  { simpl. repeat constructor; simpl; intuition discriminate. }
  assert (Hk : knownStation (Some (castable S2)) scenarioDb).
  { exists S2. split; [reflexivity|]. simpl. auto. }
  destruct (start_then_end U1 (StartReq.mk "CYCLE001" (Some (castable S1)))
              (EndReq.mk "CYCLE001" (Some (castable S2))
                         (Some (Ride.mkFeedback (Some 5) None)))
              0 600000 scenarioDb Hnd scenarioDb_issued eq_refl eq_refl
              eq_refl Hk) as (_ & Hcy & _ & _ & Ha).
  split; [exact Hcy|exact Ha].
Defined.

(** X8. Start, then cancel. Under the same conditions a start that goes
    through followed by a cancel of the same rider leaves every cycle and
    station as before the start, one more ride, cancelled, with no end
    station, and the rider without an active ride. *)
Theorem start_then_cancel (user : ObjectId) (sbody : StartReq.t)
  (t1 t2 : Z) (d : Db) :
  NoDup (map Cycle._id (cycles d)) ->
  ride_ids_issued d ->
  code (fst (post_start user sbody t1 None d)) = 201%nat ->
  let d1 := snd (post_start user sbody t1 None d) in
  let d2 := snd (post_cancel user t2 None d1) in
  code (fst (post_cancel user t2 None d1)) = 200%nat /\
  cycles d2 = cycles d /\ stations d2 = stations d /\
  (exists r, rides d2 = (rides d ++ [r])%list /\
             Ride.userId r = user /\ Ride.status r = Ride.cancelled /\
             Ride.startTime r = t1 /\ Ride.endTime r = Some t2 /\
             Ride.endStation r = None) /\
  Ride_findActiveRide user d2 = None.
Proof.
  intros Hnd Hiss Hcode. cbv zeta.
  destruct (after_start user sbody t1 d Hnd Hcode)
    as (c & st & Hc & Hs & Ha & Hd1 & Ha1 & _).
  cbv zeta in Hd1, Ha1. rewrite Hd1.
  set (r := newRide d user c st t1) in *.
  set (d1 := withCycleStatus (Cycle._id c) Cycle.in_use (withRide r d)) in *.
  rewrite (post_cancel_run user t2 d1 _ Ha1).
  unfold cancelled. cbn [fst snd code ok ride populate].
  split; [reflexivity|].
  unfold withCycleStatus, withRideUpdate.
  cbn [cycles stations rides set_cycles set_rides].
  subst d1. unfold withCycleStatus, withRide.
  cbn [cycles stations rides set_cycles].
  assert (Hr : Ride.cycleId r = Cycle._id c) by reflexivity.
  rewrite Hr.
  split; [apply cycles_restored; auto; now apply (resolveCycle_In _ _ _ Hc)|].
  split; [reflexivity|].
  rewrite (new_ride_updated d r _ Hiss eq_refl).
  split.
  - eexists. split; [reflexivity|]. repeat split; reflexivity.
  - apply findActiveRide_none_find. apply findActiveRide_none_find in Ha.
    cbn [rides set_cycles set_rides].
    try rewrite (new_ride_updated d r _ Hiss eq_refl).
    rewrite find_app_none by exact Ha.
    subst r. cbn [find]. unfold Ride.isActiveRideOf. simpl.
    destruct (Nat.eqb user user); reflexivity.
Qed.

Lemma start_then_cancel_witness :
  cycles (snd (post_cancel U1 9 None afterStart)) = cycles scenarioDb /\
  Ride_findActiveRide U1 (snd (post_cancel U1 9 None afterStart)) = None.
Proof.
  assert (Hnd : NoDup (map Cycle._id (cycles scenarioDb))).
  { simpl. repeat constructor; simpl; intuition discriminate. }
  destruct (start_then_cancel U1 (StartReq.mk "CYCLE001" (Some (castable S1))) 0 9
              scenarioDb Hnd scenarioDb_issued eq_refl)
    as (_ & Hcy & _ & _ & Ha).
  split; [exact Hcy|exact Ha].
Defined.

(** ** The three ride requests, when they go through *)

(** X1. When the database serves, [POST /start] answers 201 exactly when the
    body carries both fields, the rider has no active ride, the scanned
    identifier resolves to an active cycle with status [available] and the
    station id is the id of a stored station; it then stores the new active
    ride, marks that cycle [in-use] and answers with the ride. *)
Theorem start_goes_through_iff (user : ObjectId) (body : StartReq.t)
  (now : Z) (d : Db) :
  (code (fst (post_start user body now None d)) = 201%nat <->
   StartReq.validationResult body = [] /\
   Ride_findActiveRide user d = None /\
   exists c st,
     resolveCycle (StartReq.cycleId body) d = Some c /\
     Cycle.status c = Cycle.available /\
     StartReq.stationId body = Some (castable st) /\
     In st (map Station._id (stations d))) /\
  (forall c st,
     code (fst (post_start user body now None d)) = 201%nat ->
     resolveCycle (StartReq.cycleId body) d = Some c ->
     StartReq.stationId body = Some (castable st) ->
     let r := newRide d user c st now in
     let d' := withCycleStatus (Cycle._id c) Cycle.in_use (withRide r d) in
     post_start user body now None d =
       (ok 201 (Some "Ride started successfully")
           (PopulatedData (fst (Ride_populate r d'))), d')).
Proof.
  split; [split|].
  - apply post_start_201_inv.
  - intros (Hv & Ha & c & st & Hc & Hs & Hst & Hin).
    rewrite (post_start_run user body now d c st); auto.
  - intros c st Hcode Hc Hst.
    destruct (post_start_201_inv user body now d Hcode)
      as (Hv & Ha & c' & st' & Hc' & Hs & Hst' & Hin).
    rewrite Hc in Hc'. injection Hc' as <-.
    rewrite Hst in Hst'. injection Hst' as <-.
    now apply post_start_run.
Qed.

Lemma start_goes_through_iff_witness :
  post_start U1 (StartReq.mk "CYCLE001" (Some (castable S1))) 0 None
             scenarioDb =
  started scenarioDb U1 (Cycle.mk 10 "CYCLE001" S1 Cycle.available true) S1 0.
Proof.
  destruct (start_goes_through_iff U1
              (StartReq.mk "CYCLE001" (Some (castable S1))) 0 scenarioDb)
    as [[_ Hgo] Hrun].
  apply Hrun; [|reflexivity|reflexivity].
  apply Hgo. split; [reflexivity|]. split; [reflexivity|].
  exists (Cycle.mk 10 "CYCLE001" S1 Cycle.available true), S1.
  repeat split. simpl. auto.
Defined.

(** X2. When the database serves, [POST /end] answers 200 exactly when the
    body passes validation, the rider has an active ride, the scanned
    identifier resolves to the active cycle that ride references and the
    station id is the id of a stored station; it then completes the ride
    (end time, end station, feedback), writes [available] on the cycle and
    answers with the ride. *)
Theorem end_goes_through_iff (user : ObjectId) (body : EndReq.t) (now : Z)
  (d : Db) :
  (code (fst (post_end user body now None d)) = 200%nat <->
   EndReq.validationResult body = [] /\
   exists ar c,
     Ride_findActiveRide user d = Some ar /\
     resolveCycle (EndReq.cycleId body) d = Some c /\
     Cycle._id c = Ride.cycleId (ride ar) /\
     knownStation (EndReq.stationId body) d) /\
  (forall ar,
     code (fst (post_end user body now None d)) = 200%nat ->
     Ride_findActiveRide user d = Some ar ->
     let upd := endUpdate now (objectId (EndReq.stationId body))
                          (EndReq.sanitized body) in
     post_end user body now None d =
       (ok 200 (Some "Ride ended successfully")
           (RideData
              (option_map upd
                 (find (fun r => Nat.eqb (Ride._id r) (Ride._id (ride ar)))
                       (rides d)))),
        withCycleStatus (Ride.cycleId (ride ar)) Cycle.available
          (withRideUpdate (Ride._id (ride ar)) upd d))).
Proof.
  split; [split|].
  - apply post_end_200_inv.
  - intros (Hv & ar & c & Ha & Hc & Hid & Hk).
    rewrite (post_end_run user body now d ar c); auto.
  - intros ar Hcode Ha.
    destruct (post_end_200_inv user body now d Hcode)
      as (Hv & ar' & c & Ha' & Hc & Hid & Hk).
    rewrite Ha in Ha'. injection Ha' as <-.
    now apply (post_end_run user body now d ar c).
Qed.

Lemma end_goes_through_iff_witness :
  code (fst (post_end U1 (EndReq.mk "CYCLE001" (Some (castable S2)) None)
                      600000 None afterStart)) = 200%nat.
Proof.
  destruct (end_goes_through_iff U1
              (EndReq.mk "CYCLE001" (Some (castable S2)) None) 600000
              afterStart) as [[_ Hgo] _].
  apply Hgo. split; [reflexivity|].
  exists (populate afterStart
            (Ride.mk 100 U1 10 S1 0 None (Some 0) Ride.active S1 None
                     Ride.noFeedback)),
         (Cycle.mk 10 "CYCLE001" S1 Cycle.in_use true).
  repeat split. exists S2. split; [reflexivity|]. simpl. auto.
Defined.

(** X3. When the database serves, [POST /cancel] answers 200 exactly when
    the rider has an active ride, whatever became of its cycle; it then
    marks the ride cancelled with its end time and writes [available] on the
    cycle the ride references, if that cycle is still stored. *)
Theorem cancel_goes_through_iff (user : ObjectId) (now : Z) (d : Db) :
  (code (fst (post_cancel user now None d)) = 200%nat <->
   exists ar, Ride_findActiveRide user d = Some ar) /\
  (forall ar,
     Ride_findActiveRide user d = Some ar ->
     post_cancel user now None d =
       (ok 200 (Some "Ride cancelled successfully")
           (RideData
              (option_map (cancelUpdate now)
                 (find (fun r => Nat.eqb (Ride._id r) (Ride._id (ride ar)))
                       (rides d)))),
        withCycleStatus (Ride.cycleId (ride ar)) Cycle.available
          (withRideUpdate (Ride._id (ride ar)) (cancelUpdate now) d))).
Proof.
  split; [split|].
  - intros Hcode. apply post_cancel_200_iff in Hcode.
    destruct Hcode as (ar & Ha & _). eauto.
  - intros (ar & Ha). rewrite (post_cancel_run user now d ar Ha). reflexivity.
  - intros ar Ha. now apply post_cancel_run.
Qed.

Lemma cancel_goes_through_iff_witness :
  code (fst (post_cancel U1 9 None afterStart)) = 200%nat.
Proof.
  destruct (cancel_goes_through_iff U1 9 afterStart) as [[_ Hgo] _].
  apply Hgo. eexists. reflexivity.
Defined.

(** ** What the routes keep true of the stored rides *)

Lemma post_end_invalid (user : ObjectId) (body : EndReq.t) (now : Z)
  (f : option nat) (d : Db) :
  EndReq.validationResult body <> [] ->
  snd (post_end user body now f d) = d.
Proof.
  intros Hv. handler.
  destruct (EndReq.validationResult body); [now destruct Hv|reflexivity].
Qed.

(** A body that passes validation names a station and carries a feedback
    within the bounds. *)
Lemma valid_end_body (body : EndReq.t) :
  EndReq.validationResult body = [] ->
  EndReq.stationId body <> None /\ validFeedback (EndReq.sanitized body).
Proof.
  unfold EndReq.validationResult. intros H.
  apply app_eq_nil in H. destruct H as [_ H].
  apply app_eq_nil in H. destruct H as [Hst H].
  apply app_eq_nil in H. destruct H as [Hr Hc].
  split; [destruct (EndReq.stationId body); congruence|].
  unfold EndReq.rating, EndReq.comment, EndReq.sanitized, validFeedback in *.
  destruct (EndReq.feedback body) as [fb|]; cbn [Ride.rating Ride.comment].
  - split.
    + intros n Hn. rewrite Hn in Hr.
      destruct ((1 <=? n) && (n <=? 5)) eqn:Hb; [|discriminate].
      apply andb_prop in Hb. destruct Hb as [H1 H5].
      apply Z.leb_le in H1. apply Z.leb_le in H5. lia.
    + intros c Hcm. rewrite Hcm in Hc.
      destruct (Nat.leb (String.length c) 500) eqn:Hb; [|discriminate].
      now apply Nat.leb_le.
  - split; intros ? [=].
Qed.

(** An end writes only for a station id that is an id. *)
Lemma post_end_station (user : ObjectId) (body : EndReq.t) (now : Z)
  (f : option nat) (d : Db) :
  snd (post_end user body now f d) = d \/
  objectId (EndReq.stationId body) <> None.
Proof.
  destruct (EndReq.stationId body) as [[st|]|] eqn:Hst;
    [right; discriminate| |]; left; handler; rewrite Hst;
    (destruct (EndReq.validationResult body); [|reflexivity]);
    cbn [isEmpty negb];
    (destruct (Ride_findActiveRide user d) as [ar|]; [|reflexivity]);
    unfold Station_findById; cbn [objectId];
    destruct f as [[|[|n]]|]; cbn [fuse db];
    repeat (match goal with
            | |- context [match ?x with _ => _ end] =>
                match type of x with
                | option _ => destruct x
                | bool => destruct x
                end; cbn [fuse db negb]
            end);
    reflexivity.
Qed.

(** What one request does to the rides, in full. *)
Lemma exec_rides_detail (op : Op) (f : option nat) (d : Db) :
  let d' := snd (exec op f d) in
  (rides d' = rides d /\ nextId d' = nextId d) \/
  (exists user c st now,
     rides d' = (rides d ++ [newRide d user c st now])%list /\
     nextId d' = S (nextId d)) \/
  (exists user ar g,
     Ride_findActiveRide user d = Some ar /\
     nextId d' = nextId d /\
     rides d' =
       updateOne (fun r => Nat.eqb (Ride._id r) (Ride._id (ride ar))) g
                 (rides d) /\
     ((exists body now,
         EndReq.validationResult body = [] /\
         objectId (EndReq.stationId body) <> None /\
         g = endUpdate now (objectId (EndReq.stationId body))
                       (EndReq.sanitized body)) \/
      (exists now, g = cancelUpdate now))).
Proof.
  destruct op as [user body now|user body now|user now|id status]; cbn [exec].
  - destruct (post_start_cases user body now f d)
      as [(-> & _)|(c & st & _ & Ha & _ & _ & _ & H)]; [left; auto|].
    right. left. exists user, c, st, now.
    destruct H as [(_ & _ & ->)|[(_ & _ & ->)|(_ & ->)]]; split; reflexivity.
  - destruct (EndReq.validationResult body) as [|e es] eqn:Hv.
    + destruct (post_end_station user body now f d) as [->|Hsome];
        [left; auto|].
      destruct (post_end_cases user body now f d)
        as [(-> & _)|(ar & c & rc & Ha & _ & _ & _ & H)]; [left; auto|].
      right. right.
      exists user, ar,
        (endUpdate now (objectId (EndReq.stationId body))
             (EndReq.sanitized body)).
      split; [exact Ha|].
      destruct H as [(_ & _ & ->)|(_ & ->)];
        (split; [reflexivity|]); (split; [reflexivity|]);
        left; exists body, now; auto.
    + left. rewrite post_end_invalid; [auto|]. rewrite Hv. discriminate.
  - destruct (post_cancel_cases user now f d)
      as [(-> & _)|(ar & Ha & H)]; [left; auto|].
    right. right. exists user, ar, (cancelUpdate now).
    split; [exact Ha|].
    destruct H as [(_ & _ & ->)|(_ & ->)].
    + split; [reflexivity|]. split; [reflexivity|]. right. eauto.
    + destruct (cycleDoc ar); (split; [reflexivity|]);
        (split; [reflexivity|]); right; eauto.
  - destruct (patch_cycle_status_cases id status f d) as [->|(s & _ & ->)];
      left; auto.
Qed.

Lemma rides_as_stored_step (op : Op) (f : option nat) (d : Db) :
  RidesAsStored d -> RidesAsStored (snd (exec op f d)).
Proof.
  intros [Hnd Hiss Hlife Hdur Hst Hfb].
  destruct (exec_rides_detail op f d)
    as [[Hr Hn]|[(user & c & st & now & Hr & Hn)
                |(user & ar & g & Ha & Hn & Hr & Hg)]].
  - constructor; unfold ride_ids_issued; rewrite ?Hr, ?Hn; auto.
  - assert (Hall : forall (P : Ride.t -> Prop),
              (forall r, In r (rides d) -> P r) ->
              P (newRide d user c st now) ->
              forall r, In r (rides d ++ [newRide d user c st now]) -> P r).
    { intros P Hold Hnew r Hin. apply in_app_iff in Hin.
      destruct Hin as [Hin|[<-|[]]]; auto. }
    constructor; unfold ride_ids_issued; rewrite ?Hr, ?Hn.
    + rewrite map_app. apply NoDup_app; [exact Hnd|repeat constructor; simpl; tauto|].
      intros a Ha' [He|[]]. apply in_map_iff in Ha'.
      destruct Ha' as (x & Hx & Hin). specialize (Hiss x Hin).
      simpl in He. lia.
    + apply Hall; [intros r Hin; specialize (Hiss r Hin); lia|simpl; lia].
    + apply Hall; [exact Hlife|]. repeat split.
    + apply Hall; [exact Hdur|reflexivity].
    + apply Hall; [exact Hst|reflexivity].
    + apply Hall; [exact Hfb|]. split; intros ? [=].
  - destruct (findActiveRide_some _ _ _ Ha) as (Hin0 & _ & Hs0 & _).
    assert (Hid : forall x, Ride._id (g x) = Ride._id x).
    { destruct Hg as [(body & now & _ & _ & ->)|(now & ->)]; reflexivity. }
    assert (Hall : forall (P : Ride.t -> Prop),
              (forall r, In r (rides d) -> P r) ->
              P (g (ride ar)) ->
              forall r,
                In r (updateOne
                        (fun r0 => Nat.eqb (Ride._id r0) (Ride._id (ride ar)))
                        g (rides d)) -> P r).
    { intros P Hold Hnew r Hin.
      apply (updateOne_by_id_In Ride._id) in Hin; [|exact Hnd|exact Hid].
      destruct Hin as [[Hin _]|(x & Hx & He & ->)]; [auto|].
      assert (x = ride ar) by (apply (NoDup_id_inj Ride._id (rides d)); auto).
      subst x. exact Hnew. }
    pose proof (Hlife _ Hin0) as Hl0. unfold lifecycle in Hl0.
    rewrite Hs0 in Hl0. destruct Hl0 as (_ & Hes0 & Hfb0).
    constructor; unfold ride_ids_issued; rewrite ?Hr, ?Hn.
    + rewrite updateOne_map; [exact Hnd|exact Hid].
    + apply Hall; [exact Hiss|]. rewrite Hid. now apply Hiss.
    + apply Hall; [exact Hlife|].
      destruct Hg as [(body & now & Hv & Hsome & ->)|(now & ->)];
        unfold lifecycle; simpl.
      * split; [discriminate|exact Hsome].
      * split; [discriminate|]. auto.
    + apply Hall; [exact Hdur|].
      destruct Hg as [(body & now & _ & _ & ->)|(now & ->)]; simpl; now apply Hdur.
    + apply Hall; [exact Hst|].
      destruct Hg as [(body & now & _ & _ & ->)|(now & ->)]; simpl; now apply Hst.
    + apply Hall; [exact Hfb|].
      destruct Hg as [(body & now & Hv & _ & ->)|(now & ->)]; simpl.
      * now destruct (valid_end_body body Hv).
      * now apply Hfb.
Qed.

Lemma rides_as_stored_reachable (d0 d : Db) :
  rides d0 = [] -> reachable anyRequest d0 d -> RidesAsStored d.
Proof.
  intros Hempty Hreach. induction Hreach as [|d op f _ IH _].
  - constructor; unfold ride_ids_issued; rewrite Hempty; simpl;
      try (intros r []). constructor.
  - now apply rides_as_stored_step.
Qed.

Lemma reach_afterEnd : reachable anyRequest scenarioDb afterEnd.
Proof.
  apply (reach_step anyRequest scenarioDb afterStart
           (EndRide U1 (EndReq.mk "CYCLE001" (Some (castable S2))
                                  (Some (Ride.mkFeedback (Some 5) None)))
                    600000) None).
  - apply (reach_step anyRequest scenarioDb scenarioDb
             (StartRide U1 (StartReq.mk "CYCLE001" (Some (castable S1))) 0) None).
    + apply reach_init.
    + exact I.
  - exact I.
Qed.

(** X9. From a database without rides, after any sequence of requests, with
    or without failing database calls, every stored ride is in [active]
    state exactly when it has no end time, is [completed] exactly when it
    has an end station, carries a feedback only when it is completed, and
    has its start station as [stationId]. *)
Theorem ride_state_and_paths (d0 d : Db) :
  rides d0 = [] -> reachable anyRequest d0 d ->
  forall r, In r (rides d) ->
    (Ride.status r = Ride.active <-> Ride.endTime r = None) /\
    (Ride.status r = Ride.completed <-> Ride.endStation r <> None) /\
    (Ride.status r <> Ride.completed -> Ride.feedback r = Ride.noFeedback) /\
    Ride.startStation r = Ride.stationId r.
Proof.
  intros Hempty Hreach r Hr.
  destruct (rides_as_stored_reachable d0 d Hempty Hreach)
    as [_ _ Hlife _ Hst _].
  specialize (Hlife r Hr). specialize (Hst r Hr). unfold lifecycle in Hlife.
  destruct (Ride.status r); repeat split; try tauto; try congruence;
    try (intros; exfalso; tauto).
Qed.

Lemma endedRide_stored : In endedRide (rides afterEnd).
Proof. left. reflexivity. Qed.

Lemma ride_state_and_paths_witness :
  (Ride.status endedRide = Ride.active <-> Ride.endTime endedRide = None) /\
  (Ride.status endedRide = Ride.completed <->
   Ride.endStation endedRide <> None).
Proof.
  destruct (ride_state_and_paths scenarioDb afterEnd eq_refl reach_afterEnd
              endedRide endedRide_stored) as (H1 & H2 & _).
  split; [exact H1|exact H2].
Defined.

Lemma sumZ_zero {A : Type} (g : A -> Z) (l : list A) :
  (forall x, In x l -> g x = 0) -> sumZ (map g l) = 0.
Proof.
  induction l as [|x l IH]; simpl; intros H; [reflexivity|].
  rewrite (H x (or_introl eq_refl)), IH; [reflexivity|].
  intros y Hy. apply H. now right.
Qed.

(** X10. From a database without rides, after any sequence of requests,
    every stored ride has the duration 0 it was created with, completed
    rides included: each serializes with cost 0 and 'Ongoing', the
    statistics of every rider report total duration, total cost and average
    duration 0, and the revenue of the dashboard and of the analytics
    is 0. *)
Theorem stored_durations_stay_zero (d0 d : Db) :
  rides d0 = [] -> reachable anyRequest d0 d ->
  (forall r, In r (rides d) ->
     Ride.duration r = Some 0 /\ Ride.cost r = 0 /\
     Ride.formattedDuration r = "Ongoing") /\
  (forall role caller id s,
     get_user_stats role caller id d = StatsOk s ->
     totalDuration s = 0 /\ totalCost s = 0 /\ avgDuration s = 0) /\
  (Admin.dashboardRevenue (rides d) == 0)%Q /\
  (Admin.analyticsRevenue (rides d) == 0)%Q.
Proof.
  intros Hempty Hreach.
  destruct (rides_as_stored_reachable d0 d Hempty Hreach)
    as [_ _ _ Hdur _ _].
  assert (Hrev : (Admin.analyticsRevenue (rides d) == 0)%Q).
  { unfold Admin.analyticsRevenue. rewrite analyticsRevenue_acc.
    rewrite sumZ_zero; [reflexivity|].
    intros r Hr. rewrite (Hdur r Hr). reflexivity. }
  split; [|split; [|split; [|exact Hrev]]].
  - intros r Hr. specialize (Hdur r Hr).
    unfold Ride.cost, Ride.formattedDuration. rewrite Hdur. simpl. auto.
  - intros role caller id s. unfold get_user_stats.
    destruct (negb (isAdmin role) && negb (Nat.eqb caller id)); [discriminate|].
    pose proof (getUserStats_group id d) as Hg. cbv zeta in Hg.
    assert (Hsub : forall r, In r (completedRidesOf id d) -> In r (rides d)).
    { intros r Hr. apply filter_In in Hr. tauto. }
    destruct (Ride.getUserStats id (rides d)) as [|g gs]; intros [= <-]; simpl.
    + auto.
    + destruct Hg as (_ & Hn & Hd & Hc).
      assert (Hd0 : Ride.totalDuration g = 0).
      { rewrite Hd. apply sumZ_zero. intros r Hr.
        rewrite (Hdur r (Hsub r Hr)). reflexivity. }
      assert (Hc0 : Ride.totalCost g = 0).
      { rewrite Hc. apply sumZ_zero. intros r Hr. unfold Ride.costExpr.
        rewrite (Hdur r (Hsub r Hr)). reflexivity. }
      split; [exact Hd0|]. split; [exact Hc0|].
      destruct (Z.gtb_spec (Ride.totalRides g) 0) as [Hpos|]; [|reflexivity].
      rewrite Hd0, round_div by lia.
      apply Z.div_small. lia.
  - rewrite dashboardRevenue_analytics. exact Hrev.
Qed.

Lemma stored_durations_stay_zero_witness :
  Ride.status endedRide = Ride.completed /\
  Ride.duration endedRide = Some 0 /\
  Ride.formattedDuration endedRide = "Ongoing".
Proof.
  destruct (stored_durations_stay_zero scenarioDb afterEnd eq_refl
              reach_afterEnd) as (Hall & _).
  destruct (Hall endedRide endedRide_stored) as (Hd & _ & Hf).
  split; [reflexivity|]. split; [exact Hd|exact Hf].
Defined.

(** X11. From a database without rides, after any sequence of requests,
    every stored feedback has its rating, when there is one, within 1..5
    and its comment, when there is one, of at most 500 characters. *)
Theorem stored_feedback_within_bounds (d0 d : Db) :
  rides d0 = [] -> reachable anyRequest d0 d ->
  forall r, In r (rides d) ->
    (forall n, Ride.rating (Ride.feedback r) = Some n -> 1 <= n <= 5) /\
    (forall c, Ride.comment (Ride.feedback r) = Some c ->
               (String.length c <= 500)%nat).
Proof.
  intros Hempty Hreach r Hr.
  destruct (rides_as_stored_reachable d0 d Hempty Hreach)
    as [_ _ _ _ _ Hfb].
  exact (Hfb r Hr).
Qed.

Lemma stored_feedback_within_bounds_witness :
  Ride.rating (Ride.feedback endedRide) = Some 5 /\ 1 <= 5 <= 5.
Proof.
  destruct (stored_feedback_within_bounds scenarioDb afterEnd eq_refl
              reach_afterEnd endedRide endedRide_stored) as [Hrate _].
  split; [reflexivity|]. apply (Hrate 5). reflexivity.
Defined.

(** X12. From a database without rides, after any sequence of requests, one
    more request of any kind, with or without a failing database call,
    removes no ride, leaves every ride that is completed or cancelled
    exactly as it is, and never rewrites the rider, the cycle, the stations
    of the start, the start time or the duration of a ride. *)
Theorem finished_rides_are_kept (d0 d : Db) (op : Op) (f : option nat) :
  rides d0 = [] -> reachable anyRequest d0 d ->
  let d' := snd (exec op f d) in
  (forall r, In r (rides d) -> Ride.status r <> Ride.active ->
             In r (rides d')) /\
  (forall r, In r (rides d) -> exists r', In r' (rides d') /\ sameRide r r').
Proof.
  intros Hempty Hreach d'.
  destruct (rides_as_stored_reachable d0 d Hempty Hreach) as [Hnd _ _ _ _ _].
  assert (Hsame : forall r, sameRide r r) by (intros r; repeat split).
  subst d'.
  destruct (exec_rides_detail op f d)
    as [[Hr _]|[(user & c & st & now & Hr & _)
               |(user & ar & g & Ha & _ & Hr & Hg)]]; rewrite Hr.
  - split; [auto|]. intros r Hin. exists r. auto.
  - split.
    + intros r Hin _. apply in_app_iff. now left.
    + intros r Hin. exists r. split; [apply in_app_iff; now left|auto].
  - destruct (findActiveRide_some _ _ _ Ha) as (Hin0 & _ & Hs0 & _).
    assert (Hid : forall x, Ride._id (g x) = Ride._id x).
    { destruct Hg as [(body & now & _ & _ & ->)|(now & ->)]; reflexivity. }
    assert (Hg' : forall x, sameRide x (g x)).
    { destruct Hg as [(body & now & _ & _ & ->)|(now & ->)];
        intros x; repeat split. }
    split.
    + intros r Hin Hs.
      apply (updateOne_by_id_In Ride._id); [exact Hnd|exact Hid|].
      left. split; [exact Hin|]. intros He.
      assert (r = ride ar) by (apply (NoDup_id_inj Ride._id (rides d)); auto).
      subst r. contradiction.
    + intros r Hin.
      destruct (Nat.eq_dec (Ride._id r) (Ride._id (ride ar))) as [He|Hne].
      * exists (g r). split; [|apply Hg'].
        apply (updateOne_by_id_In Ride._id); [exact Hnd|exact Hid|].
        right. exists r. auto.
      * exists r. split; [|apply Hsame].
        apply (updateOne_by_id_In Ride._id); [exact Hnd|exact Hid|]. auto.
Qed.

Lemma finished_rides_are_kept_witness :
  In endedRide
     (rides (snd (exec (StartRide U1 (StartReq.mk "CYCLE002" (Some (castable S1))) 700000)
                       None afterEnd))).
Proof.
  destruct (finished_rides_are_kept scenarioDb afterEnd
              (StartRide U1 (StartReq.mk "CYCLE002" (Some (castable S1))) 700000) None
              eq_refl reach_afterEnd) as [Hkeep _].
  apply Hkeep; [exact endedRide_stored|discriminate].
Defined.

(** ** Cycles and stations taken out of service *)

Lemma removeOne_In {A : Type} (id : A -> ObjectId) (k : ObjectId)
  (l : list A) (y : A) :
  NoDup (map id l) ->
  In y (removeOne (fun x => Nat.eqb (id x) k) l) -> In y l /\ id y <> k.
Proof.
  intros Hnd. induction l as [|a l IH]; simpl; [tauto|].
  apply NoDup_cons_iff in Hnd. destruct Hnd as [Hna Hnd].
  destruct (Nat.eqb_spec (id a) k) as [Ha|Ha].
  - intros Hy. split; [now right|]. intros Hk. apply Hna.
    rewrite Ha, <- Hk. now apply in_map.
  - intros [<-|Hy]; [auto|]. destruct (IH Hnd Hy). auto.
Qed.

Lemma NoDup_key_inj {A B : Type} (key : A -> B) (l : list A) (x y : A) :
  NoDup (map key l) -> In x l -> In y l -> key x = key y -> x = y.
Proof.
  induction l as [|a l IH]; simpl; [tauto|].
  intros Hnd Hx Hy He. apply NoDup_cons_iff in Hnd. destruct Hnd as [Hna Hnd].
  destruct Hx as [<-|Hx], Hy as [<-|Hy]; auto.
  - exfalso. apply Hna. rewrite He. now apply in_map.
  - exfalso. apply Hna. rewrite <- He. now apply in_map.
Qed.

(** The lookup after a request that wrote no ride. *)
Lemma findActiveRide_same_rides (user : ObjectId) (d d1 : Db)
  (ar : PopulatedRide) :
  rides d1 = rides d ->
  Ride_findActiveRide user d = Some ar ->
  Ride_findActiveRide user d1 = Some (populate d1 (ride ar)).
Proof.
  unfold Ride_findActiveRide. intros ->.
  destruct (find (Ride.isActiveRideOf user) (rides d)); [|discriminate].
  intros [= <-]. reflexivity.
Qed.

(** With no active cycle stored under the [_id] the active ride references,
    an end cannot go through, and writes nothing. *)
Lemma post_end_blocked (user : ObjectId) (d : Db) (ar : PopulatedRide) :
  Ride_findActiveRide user d = Some ar ->
  (forall c, In c (cycles d) -> Cycle._id c = Ride.cycleId (ride ar) ->
             Cycle.isActive c = false) ->
  forall body now f,
    code (fst (post_end user body now f d)) <> 200%nat /\
    snd (post_end user body now f d) = d.
Proof.
  intros Ha Hgone body now f.
  destruct (post_end_cases user body now f d)
    as [(Hd & Hcode)|(ar' & c & rc & Ha' & Hc & Hrc & Hid & _)]; [auto|].
  exfalso. rewrite Ha in Ha'. injection Ha' as <-.
  pose proof (populated_cycle _ _ _ Ha) as Hpop. rewrite Hrc in Hpop.
  pose proof (resolveCycle_In _ _ _ Hc) as Hin.
  apply find_some in Hc. destruct Hc as [_ Hq]. unfold byQrCode in Hq.
  apply andb_prop in Hq. destruct Hq as [_ Hact].
  rewrite (Hgone c Hin) in Hact; [discriminate|congruence].
Qed.

(** After either way of deleting a cycle, when the database serves, no
    active cycle is stored under its [_id], and no ride was written. *)
Lemma cycle_deleted (k : ObjectId) (d : Db) :
  NoDup (map Cycle._id (cycles d)) ->
  forall d1,
    d1 = snd (delete_cycle k None d) \/ d1 = snd (admin_delete_cycle k None d) ->
    rides d1 = rides d /\ stations d1 = stations d /\
    (forall c, In c (cycles d1) -> Cycle._id c = k -> Cycle.isActive c = false).
Proof.
  intros Hnd d1 [->| ->].
  - unfold delete_cycle, try_catch, bind, await, ret, Cycle_deactivate.
    cbn [fuse db fst snd].
    destruct (find (fun c => Nat.eqb (Cycle._id c) k) (cycles d));
      cbn [option_map db snd rides stations cycles set_cycles];
      (split; [reflexivity|]); (split; [reflexivity|]);
      intros c Hc Hk;
      (apply (updateOne_by_id_In Cycle._id) in Hc; [|exact Hnd|reflexivity]);
      (destruct Hc as [[_ Hne]|(x & _ & _ & ->)]; [contradiction|reflexivity]).
  - unfold admin_delete_cycle, try_catch, bind, await, ret,
      Cycle_findByIdAndDelete.
    cbn [fuse db fst snd].
    destruct (find (fun c => Nat.eqb (Cycle._id c) k) (cycles d));
      cbn [db snd rides stations cycles set_cycles];
      (split; [reflexivity|]); (split; [reflexivity|]);
      intros c Hc Hk;
      apply (removeOne_In Cycle._id) in Hc; auto; destruct Hc; contradiction.
Qed.

(** X13. In a database whose cycles have distinct ids, once the cycle of a
    rider's active ride has been deactivated ([DELETE /:id] of the cycles
    router) or removed ([DELETE /cycles/:id] of the administrator), no end
    request of that rider goes through, whatever is scanned, and none writes
    anything: the ride stays active.  Cancelling still goes through. *)
Theorem no_end_once_cycle_is_deleted (user : ObjectId) (d d1 : Db)
  (ar : PopulatedRide) :
  NoDup (map Cycle._id (cycles d)) ->
  Ride_findActiveRide user d = Some ar ->
  d1 = snd (delete_cycle (Ride.cycleId (ride ar)) None d) \/
  d1 = snd (admin_delete_cycle (Ride.cycleId (ride ar)) None d) ->
  (forall body now f,
     code (fst (post_end user body now f d1)) <> 200%nat /\
     snd (post_end user body now f d1) = d1) /\
  (forall now, code (fst (post_cancel user now None d1)) = 200%nat).
Proof.
  intros Hnd Ha Hd1.
  destruct (cycle_deleted _ d Hnd d1 Hd1) as (Hr & _ & Hgone).
  pose proof (findActiveRide_same_rides user d d1 ar Hr Ha) as Ha1.
  split.
  - apply (post_end_blocked user d1 _ Ha1). exact Hgone.
  - intros now. rewrite (post_cancel_run user now d1 _ Ha1). reflexivity.
Qed.

Lemma no_end_once_cycle_is_deleted_witness :
  code (fst (post_end U1 (EndReq.mk "CYCLE001" (Some (castable S2)) None) 9 None
               (snd (delete_cycle 10 None afterStart)))) = 404%nat /\
  code (fst (post_cancel U1 9 None (snd (delete_cycle 10 None afterStart))))
    = 200%nat.
Proof.
  destruct afterStart_distinct as (_ & Hnc & _).
  assert (Har : Ride_findActiveRide U1 afterStart =
                Some (populate afterStart
                        (Ride.mk 100 U1 10 S1 0 None (Some 0) Ride.active S1
                                 None Ride.noFeedback))) by reflexivity.
  destruct (no_end_once_cycle_is_deleted U1 afterStart
              (snd (delete_cycle 10 None afterStart)) _ Hnc Har
              (or_introl eq_refl)) as [_ Hcancel].
  split; [reflexivity|apply Hcancel].
Defined.

(** X14. In a database whose cycles have distinct ids and distinct QR
    identifiers, once a cycle has been deactivated or removed, no start
    request that scans its identifier, with or without white space around
    it, goes through, and none writes anything; the request that passes the
    earlier checks is answered 404 'Cycle not found'. *)
Theorem no_start_once_cycle_is_deleted (c : Cycle.t) (d d1 : Db) :
  NoDup (map Cycle._id (cycles d)) ->
  NoDup (map Cycle.cycleId (cycles d)) ->
  In c (cycles d) ->
  d1 = snd (delete_cycle (Cycle._id c) None d) \/
  d1 = snd (admin_delete_cycle (Cycle._id c) None d) ->
  forall user body now,
    trim (StartReq.cycleId body) = Cycle.cycleId c ->
    (forall f, code (fst (post_start user body now f d1)) <> 201%nat /\
               snd (post_start user body now f d1) = d1) /\
    (StartReq.validationResult body = [] ->
     Ride_findActiveRide user d1 = None ->
     fst (post_start user body now None d1) = fail 404 "Cycle not found").
Proof.
  intros Hnd Hqr Hc Hd1 user body now Hbody.
  assert (Hunknown : unknownCycle (StartReq.cycleId body) d1).
  { intros c' Hc' Hq. rewrite Hbody in Hq.
    destruct (cycle_deleted _ d Hnd d1 Hd1) as (_ & _ & Hgone).
    apply Hgone; [exact Hc'|].
    assert (Hold : exists x, In x (cycles d) /\ Cycle._id x = Cycle._id c' /\
                             Cycle.cycleId x = Cycle.cycleId c').
    { destruct Hd1 as [->| ->].
      - revert Hc'. unfold delete_cycle, try_catch, bind, await, ret,
          Cycle_deactivate. cbn [fuse db fst snd].
        destruct (find (fun c0 => Nat.eqb (Cycle._id c0) (Cycle._id c)) (cycles d));
          cbn [option_map db snd cycles set_cycles]; intros Hc';
          apply updateOne_In in Hc';
          (destruct Hc' as [Hin|(x & Hin & _ & ->)];
           [exists c'; auto|exists x; auto]).
      - revert Hc'. unfold admin_delete_cycle, try_catch, bind, await, ret,
          Cycle_findByIdAndDelete. cbn [fuse db fst snd].
        destruct (find (fun c0 => Nat.eqb (Cycle._id c0) (Cycle._id c)) (cycles d));
          cbn [db snd cycles set_cycles]; intros Hc';
          apply (removeOne_In Cycle._id) in Hc'; auto;
          exists c'; tauto. }
    destruct Hold as (x & Hx & Hid & Hxq).
    assert (x = c).
    { apply (NoDup_key_inj Cycle.cycleId (cycles d)); auto. congruence. }
    subst x. auto. }
  split.
  - intros f.
    destruct (post_start_cases user body now f d1)
      as [(Hd & Hcode & _)|(c' & st & _ & _ & Hres & _)]; [auto|].
    exfalso. unfold resolveCycle, Cycle_findOne in Hres. cbn [fst] in Hres.
    rewrite (unknownCycle_find _ _ Hunknown) in Hres. discriminate.
  - intros Hv Ha. handler. rewrite Hv, Ha. cbn [isEmpty negb].
    rewrite (unknownCycle_find _ _ Hunknown). reflexivity.
Qed.

Lemma no_start_once_cycle_is_deleted_witness :
  fst (post_start U1 (StartReq.mk "CYCLE002" (Some (castable S1))) 9 None
         (snd (delete_cycle 11 None scenarioDb))) =
  fail 404 "Cycle not found".
Proof.
  assert (Hnd : NoDup (map Cycle._id (cycles scenarioDb))).
  { simpl. repeat constructor; simpl; intuition discriminate. }
  assert (Hqr : NoDup (map Cycle.cycleId (cycles scenarioDb))).
  { simpl. repeat constructor; simpl; intuition discriminate. }
  destruct (no_start_once_cycle_is_deleted
              (Cycle.mk 11 "CYCLE002" S1 Cycle.available true) scenarioDb
              (snd (delete_cycle 11 None scenarioDb)) Hnd Hqr
              (or_intror (or_introl eq_refl)) (or_introl eq_refl)
              U1 (StartReq.mk "CYCLE002" (Some (castable S1))) 9 eq_refl) as [_ H404].
  apply H404; reflexivity.
Defined.

Lemma delete_station_db (id : ObjectId) (d : Db) :
  snd (delete_station id None d) =
  set_stations (updateOne (fun s => Nat.eqb (Station._id s) id)
                          (Station_set_isActive false) (stations d)) d.
Proof.
  unfold delete_station, try_catch, bind, await, ret, Station_deactivate.
  cbn [fuse db fst snd].
  destruct (find (fun s => Nat.eqb (Station._id s) id) (stations d));
    reflexivity.
Qed.

(** X15. Deactivating a station ([DELETE /:id] of the stations router) only
    marks it inactive: the station ids stay as they are, the lookup by id
    returns the station with [isActive] false, and a start or an end at
    any station, this one included, goes through after the deactivation
    exactly when it would have gone through before. *)
Theorem deactivated_station_still_serves (id user : ObjectId)
  (sbody : StartReq.t) (ebody : EndReq.t) (now : Z) (d : Db) :
  let d1 := snd (delete_station id None d) in
  map Station._id (stations d1) = map Station._id (stations d) /\
  fst (Station_findById (Some id) d1) =
    option_map (Station_set_isActive false)
               (fst (Station_findById (Some id) d)) /\
  (code (fst (post_start user sbody now None d1)) = 201%nat <->
   code (fst (post_start user sbody now None d)) = 201%nat) /\
  (code (fst (post_end user ebody now None d1)) = 200%nat <->
   code (fst (post_end user ebody now None d)) = 200%nat).
Proof.
  cbv zeta. rewrite delete_station_db.
  set (l1 := updateOne (fun s => Nat.eqb (Station._id s) id)
                       (Station_set_isActive false) (stations d)).
  assert (Hids : map Station._id l1 = map Station._id (stations d)).
  { subst l1. apply updateOne_map. reflexivity. }
  assert (Hk : forall st, knownStation st (set_stations l1 d) <->
                          knownStation st d).
  { intros st. unfold knownStation. cbn [stations set_stations].
    rewrite Hids. reflexivity. }
  assert (Hlook : forall o, Ride_findActiveRide user (set_stations l1 d) = o <->
                            Ride_findActiveRide user d = o).
  { intros o. reflexivity. }
  split; [exact Hids|]. split.
  { unfold Station_findById. cbn [fst stations set_stations]. subst l1.
    apply (find_updateOne Station._id). reflexivity. }
  split; split; intros Hcode.
  - apply post_start_201_iff in Hcode.
    destruct Hcode as (Hv & Ha & c & st & Hc & Hs & Hst & Hin & _).
    cbn [stations set_stations] in Hin. rewrite Hids in Hin.
    rewrite (post_start_run user sbody now d c st); auto.
  - apply post_start_201_iff in Hcode.
    destruct Hcode as (Hv & Ha & c & st & Hc & Hs & Hst & Hin & _).
    rewrite (post_start_run user sbody now (set_stations l1 d) c st); auto.
    cbn [stations set_stations]. rewrite Hids. exact Hin.
  - apply post_end_200_iff in Hcode.
    destruct Hcode as (Hv & ar & c & Ha & Hc & Hid & Hst & _).
    apply Hk in Hst.
    rewrite (post_end_run user ebody now d ar c); auto.
  - apply post_end_200_iff in Hcode.
    destruct Hcode as (Hv & ar & c & Ha & Hc & Hid & Hst & _).
    apply Hk in Hst.
    rewrite (post_end_run user ebody now (set_stations l1 d) ar c); auto.
Qed.

(** ** Counting rides *)

(** X16. [GET /stats] of the rides router reports as completed every stored
    ride, the active and the cancelled ones included, because every ride is
    stored with an [endTime] path.  From a database without rides, after
    any sequence of requests, what it reports as active is the number of
    rides in [active] state. *)
Theorem ride_counts (d0 d : Db) :
  rides d0 = [] -> reachable anyRequest d0 d ->
  let s := get_rides_stats d in
  RideCounts.completedRides s = RideCounts.totalRides s /\
  RideCounts.activeRides s = List.length (filter rideIsActive (rides d)) /\
  (RideCounts.activeRides s <= RideCounts.totalRides s)%nat.
Proof.
  intros Hempty Hreach. cbv zeta. unfold get_rides_stats.
  cbn [RideCounts.completedRides RideCounts.totalRides RideCounts.activeRides].
  destruct (rides_as_stored_reachable d0 d Hempty Hreach)
    as [_ _ Hlife _ _ _].
  assert (Hall : filter Admin.endTimeExists (rides d) = rides d).
  { clear. induction (rides d) as [|r l IH]; simpl; [reflexivity|].
    now rewrite IH. }
  rewrite Hall. split; [reflexivity|].
  assert (Hsame : filter endTimeIsNull (rides d) =
                  filter rideIsActive (rides d)).
  { apply filter_ext_in. intros r Hr. specialize (Hlife r Hr).
    unfold lifecycle in Hlife. unfold endTimeIsNull, rideIsActive.
    destruct (Ride.status r); simpl.
    - destruct Hlife as (-> & _). reflexivity.
    - destruct (Ride.endTime r); [reflexivity|]. now destruct Hlife.
    - destruct (Ride.endTime r); [reflexivity|]. now destruct Hlife. }
  rewrite Hsame. split; [reflexivity|]. apply filter_length_le.
Qed.

Lemma ride_counts_witness :
  RideCounts.completedRides (get_rides_stats afterEnd) =
    RideCounts.totalRides (get_rides_stats afterEnd) /\
  RideCounts.activeRides (get_rides_stats afterEnd) = 0%nat.
Proof.
  destruct (ride_counts scenarioDb afterEnd eq_refl reach_afterEnd)
    as (Hall & Hact & _).
  split; [exact Hall|]. rewrite Hact. reflexivity.
Defined.

(** ** The ride history in pages *)

Lemma endTime_ltb_asym (a b : option Z) :
  endTime_ltb a b = true -> endTime_ltb b a = false.
Proof.
  destruct a as [x|], b as [y|]; simpl; try congruence.
  intros H. apply Z.ltb_lt in H. apply Z.ltb_ge. lia.
Qed.

Lemma endTime_ltb_trans (a b c : option Z) :
  endTime_ltb a b = false -> endTime_ltb b c = false ->
  endTime_ltb a c = false.
Proof.
  destruct a as [x|], b as [y|], c as [z|]; simpl; try congruence.
  intros H1 H2. apply Z.ltb_ge in H1. apply Z.ltb_ge in H2.
  apply Z.ltb_ge. lia.
Qed.

Lemma insertByEndTime_perm (r : Ride.t) (l : list Ride.t) :
  Permutation (insertByEndTime r l) (r :: l).
Proof.
  induction l as [|x l IH]; simpl; [reflexivity|].
  destruct (endTime_ltb (Ride.endTime r) (Ride.endTime x)); [|reflexivity].
  rewrite IH. apply perm_swap.
Qed.

Lemma sortByEndTimeDesc_perm (l : list Ride.t) :
  Permutation (sortByEndTimeDesc l) l.
Proof.
  induction l as [|x l IH]; simpl; [reflexivity|].
  rewrite insertByEndTime_perm. now constructor.
Qed.

Lemma insertByEndTime_sorted (r : Ride.t) (l : list Ride.t) :
  StronglySorted endsNotBefore l ->
  StronglySorted endsNotBefore (insertByEndTime r l).
Proof.
  induction l as [|x l IH]; simpl; intros Hs.
  - repeat constructor.
  - apply StronglySorted_inv in Hs. destruct Hs as [Hs Hx].
    destruct (endTime_ltb (Ride.endTime r) (Ride.endTime x)) eqn:Hlt.
    + constructor; [now apply IH|].
      rewrite Forall_forall in *. intros y Hy.
      apply (Permutation_in _ (insertByEndTime_perm r l)) in Hy.
      destruct Hy as [<-|Hy]; [|now apply Hx].
      now apply endTime_ltb_asym.
    + constructor; [now constructor|].
      constructor; [exact Hlt|].
      rewrite Forall_forall in *. intros y Hy.
      unfold endsNotBefore in *.
      now apply (endTime_ltb_trans _ (Ride.endTime x)); [|apply Hx].
Qed.

Lemma sortByEndTimeDesc_sorted (l : list Ride.t) :
  StronglySorted endsNotBefore (sortByEndTimeDesc l).
Proof.
  induction l as [|x l IH]; simpl; [constructor|].
  now apply insertByEndTime_sorted.
Qed.

Section Pages.

Context {A : Type}.

Lemma firstn_skipn_add (a b : nat) (l : list A) :
  (firstn a l ++ firstn b (skipn a l))%list = firstn (a + b) l.
Proof.
  revert l. induction a as [|a IH]; intros l; [reflexivity|].
  destruct l as [|x l]; simpl.
  - now rewrite firstn_nil.
  - now rewrite IH.
Qed.

(** The first [k] pages of [n], one after the other, are the first [k * n]
    documents. *)
Lemma pages_concat (n k : nat) (l : list A) :
  List.concat (map (fun i => firstn n (skipn (i * n) l)) (seq 0 k)) =
  firstn (k * n) l.
Proof.
  induction k as [|k IH]; [reflexivity|].
  rewrite seq_S, map_app, concat_app, IH. simpl.
  rewrite app_nil_r, firstn_skipn_add. f_equal. lia.
Qed.

Lemma StronglySorted_firstn (R : A -> A -> Prop) (n : nat) (l : list A) :
  StronglySorted R l -> StronglySorted R (firstn n l).
Proof.
  revert l. induction n as [|n IH]; intros l Hs; [constructor|].
  destruct l as [|x l]; [constructor|]. simpl.
  apply StronglySorted_inv in Hs. destruct Hs as [Hs Hx].
  constructor; [now apply IH|].
  rewrite Forall_forall in *. intros y Hy. apply Hx.
  rewrite <- (firstn_skipn n l). apply in_app_iff. now left.
Qed.

Lemma StronglySorted_skipn (R : A -> A -> Prop) (n : nat) (l : list A) :
  StronglySorted R l -> StronglySorted R (skipn n l).
Proof.
  revert l. induction n as [|n IH]; intros l Hs; [exact Hs|].
  destruct l as [|x l]; [constructor|]. simpl.
  apply StronglySorted_inv in Hs. now apply IH.
Qed.

End Pages.

(** The page of a request with a page number and a limit of at least 1. *)
Lemma get_history_page (user : ObjectId) (d : Db) (page limit : Z) :
  1 <= page -> 1 <= limit ->
  get_history user (Some page) (Some limit) d =
  Some (History.mkPage
          (firstn (Z.to_nat limit)
                  (skipn (Z.to_nat ((page - 1) * limit))
                         (sortByEndTimeDesc (completedRidesOf user d))))
          page limit
          (Z.of_nat (List.length (completedRidesOf user d)))
          (Math.ceil (inject_Z (Z.of_nat (List.length (completedRidesOf user d)))
                      / inject_Z limit))).
Proof.
  intros Hp Hl. unfold get_history, queryInt.
  destruct (Z.eqb_spec page 0) as [|_]; [lia|].
  destruct (Z.eqb_spec limit 0) as [|_]; [lia|].
  destruct (Z.ltb_spec ((page - 1) * limit) 0) as [Hneg|_]; [nia|].
  rewrite Z.abs_eq by lia. reflexivity.
Qed.

(** X17. A history request with a page number and a limit of at least 1 is
    answered with at most [limit] rides, all of them completed rides of the
    rider, latest end first; [total] is the number of the rider's completed
    rides and [pages] the least number of pages of [limit] that hold them;
    a page after the last one is empty.  A missing or zero parameter stands
    for page 1 and limit 10.  [GET /:id/rides] of the users router gives the
    same page to the rider and to an administrator, and a 403 to anybody
    else. *)
Theorem history_page (user : ObjectId) (d : Db) (page limit : Z) :
  1 <= page -> 1 <= limit ->
  exists p,
    get_history user (Some page) (Some limit) d = Some p /\
    Z.of_nat (List.length (History.data p)) <= limit /\
    (forall r, In r (History.data p) ->
               Ride.userId r = user /\ Ride.status r = Ride.completed /\
               In r (rides d)) /\
    StronglySorted endsNotBefore (History.data p) /\
    History.total p = Z.of_nat (List.length (completedRidesOf user d)) /\
    (History.pages p - 1) * limit < History.total p
      <= History.pages p * limit /\
    (History.pages p < page -> History.data p = []) /\
    get_history user None None d = get_history user (Some 1) (Some 10) d /\
    get_history user (Some 0) (Some 0) d =
      get_history user (Some 1) (Some 10) d /\
    (forall role caller,
       get_user_rides role caller user (Some page) (Some limit) d =
       if isAdmin role || Nat.eqb caller user then Some (Some p) else None).
Proof.
  intros Hp Hl. rewrite (get_history_page user d page limit Hp Hl).
  eexists. split; [reflexivity|]. cbn [History.data History.total History.pages].
  set (all := sortByEndTimeDesc (completedRidesOf user d)).
  set (total := Z.of_nat (List.length (completedRidesOf user d))).
  assert (Hlen : List.length all = List.length (completedRidesOf user d)).
  { apply Permutation_length. apply sortByEndTimeDesc_perm. }
  assert (Hpages : (Math.ceil (inject_Z total / inject_Z limit) - 1) * limit
                   < total
                   <= Math.ceil (inject_Z total / inject_Z limit) * limit).
  { rewrite ceil_div.
    pose proof (Z.div_mod (- total) limit ltac:(lia)) as Hdm.
    pose proof (Z.mod_pos_bound (- total) limit ltac:(lia)) as Hm.
    nia. }
  split.
  { pose proof (firstn_le_length (Z.to_nat limit)
                  (skipn (Z.to_nat ((page - 1) * limit)) all)). lia. }
  split.
  { intros r Hr.
    assert (Hin : In r all).
    { rewrite <- (firstn_skipn (Z.to_nat ((page - 1) * limit)) all).
      apply in_app_iff. right.
      rewrite <- (firstn_skipn (Z.to_nat limit)
                    (skipn (Z.to_nat ((page - 1) * limit)) all)).
      apply in_app_iff. now left. }
    apply (Permutation_in _ (sortByEndTimeDesc_perm _)) in Hin.
    apply filter_In in Hin. destruct Hin as [Hin Hq].
    apply andb_prop in Hq. destruct Hq as [Hu Hs].
    split; [now apply Nat.eqb_eq|].
    split; [destruct (Ride.status r); simpl in Hs; congruence|exact Hin]. }
  split.
  { apply StronglySorted_firstn, StronglySorted_skipn.
    apply sortByEndTimeDesc_sorted. }
  split; [reflexivity|]. split; [exact Hpages|].
  split.
  { intros Hlast. rewrite skipn_all2; [apply firstn_nil|].
    rewrite Hlen. fold total in Hpages |- *. nia. }
  split; [reflexivity|]. split; [reflexivity|].
  intros role caller. unfold get_user_rides.
  rewrite (get_history_page user d page limit Hp Hl).
  destruct (isAdmin role), (Nat.eqb caller user); reflexivity.
Qed.

Lemma history_page_witness :
  exists p,
    get_history U1 (Some 2) (Some 1) historyDb = Some p /\
    History.data p = [completedRide 100 1] /\
    History.total p = 2 /\ History.pages p = 2.
Proof.
  destruct (history_page U1 historyDb 2 1 ltac:(lia) ltac:(lia))
    as (p & Hp & _).
  exists p. split; [exact Hp|].
  vm_compute in Hp. injection Hp as <-.
  repeat split; reflexivity.
Defined.

(** *** Pages cut from separate queries *)

Lemma endTime_ltb_antisym (a b : option Z) :
  endTime_ltb a b = false -> endTime_ltb b a = false -> a = b.
Proof.
  destruct a as [x|], b as [y|]; simpl; try congruence.
  intros H1 H2. apply Z.ltb_ge in H1. apply Z.ltb_ge in H2. f_equal. lia.
Qed.

(** With distinct end times the order of a sorted answer is determined. *)
Lemma sortedByEndTime_unique (l1 l2 : list Ride.t) :
  NoDup (map Ride.endTime l1) -> Permutation l1 l2 ->
  StronglySorted endsNotBefore l1 -> StronglySorted endsNotBefore l2 ->
  l1 = l2.
Proof.
  revert l2. induction l1 as [|x l1 IH]; intros l2 Hnd Hperm Hs1 Hs2.
  - apply Permutation_nil in Hperm. now subst.
  - destruct l2 as [|y l2];
      [apply Permutation_sym, Permutation_nil in Hperm; discriminate|].
    assert (Hy : In y (x :: l1))
      by (apply (Permutation_in _ (Permutation_sym Hperm)); now left).
    assert (Hx : In x (y :: l2))
      by (apply (Permutation_in _ Hperm); now left).
    assert (Hxy : x = y).
    { destruct Hy as [Hy|Hy]; [exact Hy|].
      destruct Hx as [Hx|Hx]; [now symmetry|].
      apply StronglySorted_inv in Hs1. destruct Hs1 as [_ H1].
      apply StronglySorted_inv in Hs2. destruct Hs2 as [_ H2].
      rewrite Forall_forall in H1, H2.
      apply (NoDup_key_inj Ride.endTime (x :: l1)); simpl; auto.
      apply endTime_ltb_antisym; [apply (H1 y Hy)|apply (H2 x Hx)]. }
    subst y. f_equal.
    apply Permutation_cons_inv in Hperm.
    apply StronglySorted_inv in Hs1. apply StronglySorted_inv in Hs2.
    simpl in Hnd. apply NoDup_cons_iff in Hnd.
    apply IH; tauto.
Qed.

Lemma sortByEndTimeDesc_answer (l : list Ride.t) :
  sortedByEndTime l (sortByEndTimeDesc l).
Proof.
  split; [apply sortByEndTimeDesc_perm|apply sortByEndTimeDesc_sorted].
Qed.

(** A list is the list of its elements by position. *)
Lemma list_by_position {A : Type} (g : nat -> A) (l : list A) (s : nat) :
  (forall k x, nth_error l k = Some x -> x = g (s + k)%nat) ->
  l = map g (seq s (List.length l)).
Proof.
  revert s. induction l as [|a l IH]; intros s H; [reflexivity|].
  cbn [List.length seq map]. f_equal.
  - rewrite (H 0%nat a eq_refl). f_equal. lia.
  - apply IH. intros k x Hk. rewrite (H (S k) x Hk). f_equal. lia.
Qed.

(** The page the model computes is one the database may answer. *)
Lemma historyPage_answer (user : ObjectId) (d : Db) (n k : nat) :
  (1 <= n)%nat -> isHistoryPage user d n k (historyPage user d n k).
Proof.
  intros Hn. exists (sortByEndTimeDesc (completedRidesOf user d)).
  split; [apply sortByEndTimeDesc_answer|].
  unfold historyPage.
  rewrite (get_history_page user d (Z.of_nat (S k)) (Z.of_nat n)) by lia.
  cbn [History.data]. rewrite Nat2Z.id. f_equal. f_equal.
  replace ((Z.of_nat (S k) - 1) * Z.of_nat n) with (Z.of_nat (k * n)) by lia.
  apply Nat2Z.id.
Qed.

(** X18. The pages of the history come from one query each, and the
    database does not fix the order of rides that ended at the same time.
    When the completed rides of the rider have distinct end times, with a
    limit [n] of at least 1, the pages 1, 2, ... up to the number of pages
    announced, one after the other, are the completed rides of the rider,
    each exactly once, latest end first, whatever order each query was
    answered in. *)
Theorem history_pages_cover (user : ObjectId) (d : Db) (n : nat)
  (pgs : list (list Ride.t)) :
  (1 <= n)%nat ->
  NoDup (map Ride.endTime (completedRidesOf user d)) ->
  List.length pgs = historyPages user d n ->
  (forall k pg, nth_error pgs k = Some pg -> isHistoryPage user d n k pg) ->
  Permutation (List.concat pgs) (completedRidesOf user d) /\
  StronglySorted endsNotBefore (List.concat pgs) /\
  exists p,
    get_history user (Some 1) (Some (Z.of_nat n)) d = Some p /\
    Z.to_nat (History.pages p) = historyPages user d n.
Proof.
  intros Hn Hnd Hlen Hpgs.
  set (done := completedRidesOf user d) in *.
  set (all := sortByEndTimeDesc done).
  assert (Hpage : forall k pg,
    nth_error pgs k = Some pg -> pg = firstn n (skipn (k * n) all)).
  { intros k pg Hk. destruct (Hpgs k pg Hk) as (out & [Hperm Hsort] & ->).
    replace out with all; [reflexivity|].
    apply sortedByEndTime_unique.
    - apply (Permutation_NoDup
               (Permutation_map Ride.endTime
                  (Permutation_sym (sortByEndTimeDesc_perm done)))).
      exact Hnd.
    - subst all. rewrite sortByEndTimeDesc_perm. now symmetry.
    - apply sortByEndTimeDesc_sorted.
    - exact Hsort. }
  assert (Hall : List.concat pgs = all).
  { rewrite (list_by_position (fun k => firstn n (skipn (k * n) all)) pgs 0);
      [|intros k x Hk; now apply Hpage].
    rewrite pages_concat, Hlen. apply firstn_all2.
    subst all. rewrite (Permutation_length (sortByEndTimeDesc_perm done)).
    unfold historyPages.
    change (filter (Ride.isCompletedRideOf user) (rides d)) with done.
    rewrite ceil_div.
    pose proof (Z.div_mod (- Z.of_nat (List.length done)) (Z.of_nat n)
                  ltac:(lia)) as Hdm.
    pose proof (Z.mod_pos_bound (- Z.of_nat (List.length done)) (Z.of_nat n)
                  ltac:(lia)) as Hm.
    nia. }
  rewrite Hall.
  split; [apply sortByEndTimeDesc_perm|].
  split; [apply sortByEndTimeDesc_sorted|].
  rewrite (get_history_page user d 1 (Z.of_nat n)) by lia.
  eexists. split; [reflexivity|]. reflexivity.
Qed.

Lemma history_pages_cover_witness :
  Permutation
    (List.concat [historyPage U1 historyDb 1 0; historyPage U1 historyDb 1 1])
    (completedRidesOf U1 historyDb).
Proof.
  assert (Hnd : NoDup (map Ride.endTime (completedRidesOf U1 historyDb))).
  { simpl. repeat constructor; simpl; intuition discriminate. }
  destruct (history_pages_cover U1 historyDb 1
              [historyPage U1 historyDb 1 0; historyPage U1 historyDb 1 1]
              (le_n 1) Hnd eq_refl) as (Hperm & _).
  - intros k pg Hk. destruct k as [|[|k]]; cbn [nth_error] in Hk.
    + injection Hk as <-. apply historyPage_answer. lia.
    + injection Hk as <-. apply historyPage_answer. lia.
    + destruct k; discriminate.
  - exact Hperm.
Defined.

(** ** Station statistics *)

Lemma count_split {A : Type} (p q : A -> bool) (l : list A) :
  List.length (filter p l) =
  (List.length (filter (fun x => p x && q x) l) +
   List.length (filter (fun x => p x && negb (q x)) l))%nat.
Proof.
  induction l as [|x l IH]; simpl; [reflexivity|].
  destruct (p x), (q x); simpl; lia.
Qed.

(** X19. [GET /:id/stats] of the stations router answers 404 exactly when no
    station has the id.  Otherwise the cycle counts are over the active
    cycles at the station, [available] is at most [total], and [inUse], the
    difference, counts every such cycle that is not [available]: the ones
    under maintenance or out of service as well as the ones in use. *)
Theorem station_cycle_counts (id : ObjectId) (d : Db) :
  (get_station_stats id d = None <->
   forall s, In s (stations d) -> Station._id s <> id) /\
  (forall s, get_station_stats id d = Some s ->
     StationStats.total s =
       Z.of_nat (List.length (filter (cycleAtStation id) (cycles d))) /\
     0 <= StationStats.available s <= StationStats.total s /\
     StationStats.total s = StationStats.available s + StationStats.inUse s /\
     StationStats.inUse s =
       Z.of_nat (List.length (filter (notAvailableAtStation id) (cycles d)))).
Proof.
  unfold get_station_stats, Station_findById. cbn [fst]. split.
  - destruct (find (fun s => Nat.eqb (Station._id s) id) (stations d))
      as [s|] eqn:Hf.
    + split; [discriminate|]. intros H. exfalso.
      apply find_some in Hf. destruct Hf as [Hin He].
      apply Nat.eqb_eq in He. now apply (H s Hin).
    + split; [|reflexivity]. intros _ s Hs He.
      pose proof (find_none _ _ Hf s Hs) as Hn. simpl in Hn.
      rewrite He, Nat.eqb_refl in Hn. discriminate.
  - intros s.
    destruct (find (fun s => Nat.eqb (Station._id s) id) (stations d));
      [|discriminate].
    assert (Havail : filter (availableAtStation id) (cycles d) =
                     filter (fun c => cycleAtStation id c &&
                               Cycle.Status_eqb (Cycle.status c) Cycle.available)
                            (cycles d)).
    { apply filter_ext. intros c. unfold availableAtStation, cycleAtStation.
      destruct (Nat.eqb (Cycle.stationId c) id), (Cycle.isActive c),
               (Cycle.Status_eqb (Cycle.status c) Cycle.available); reflexivity. }
    pose proof (count_split (cycleAtStation id)
                  (fun c => Cycle.Status_eqb (Cycle.status c) Cycle.available)
                  (cycles d)) as Hsplit.
    cbv beta in Hsplit. rewrite <- Havail in Hsplit.
    intros [= <-].
    destruct (filter (completedFromStation id) (rides d));
      cbn [StationStats.total StationStats.available StationStats.inUse];
      unfold notAvailableAtStation in *; repeat split; lia.
Qed.

(** ** The summary of the analytics *)

Lemma fold_left_sum (l : list Ride.t) (acc : Z) :
  fold_left (fun sum ride => sum + or0 (Ride.duration ride)) l acc =
  acc + sumZ (map (fun r => or0 (Ride.duration r)) l).
Proof.
  revert acc. induction l as [|r l IH]; intros acc; simpl; [lia|].
  rewrite IH. lia.
Qed.

Lemma sumZ_bounds {A : Type} (g : A -> Z) (lo hi : Z) (l : list A) :
  (forall x, In x l -> lo <= g x <= hi) ->
  Z.of_nat (List.length l) * lo <= sumZ (map g l)
    <= Z.of_nat (List.length l) * hi.
Proof.
  induction l as [|x l IH]; intros H; [simpl; lia|].
  cbn [map sumZ fold_right List.length].
  fold (sumZ (map g l)).
  specialize (IH (fun y Hy => H y (or_intror Hy))).
  specialize (H x (or_introl eq_refl)). lia.
Qed.

(** X20. The summary of [GET /analytics/rides] over a list of rides: the
    number of rides, the sum of their durations (a missing one counting 0),
    and as average the quotient rounded to the nearest integer, which lies
    between any two bounds of the durations; without rides the three
    are 0. *)
Theorem analytics_summary (l : list Ride.t) :
  let s := analyticsSummary l in
  Summary.totalRides s = Z.of_nat (List.length l) /\
  Summary.totalDuration s = sumZ (map (fun r => or0 (Ride.duration r)) l) /\
  (l = [] -> Summary.totalDuration s = 0 /\ Summary.averageDuration s = 0) /\
  (l <> [] ->
   2 * Summary.totalDuration s - Summary.totalRides s
     < 2 * Summary.averageDuration s * Summary.totalRides s
     <= 2 * Summary.totalDuration s + Summary.totalRides s) /\
  (forall lo hi,
     l <> [] ->
     (forall r, In r l -> lo <= or0 (Ride.duration r) <= hi) ->
     lo <= Summary.averageDuration s <= hi).
Proof.
  cbv zeta. unfold analyticsSummary.
  cbn [Summary.totalRides Summary.totalDuration Summary.averageDuration].
  rewrite fold_left_sum, Z.add_0_l.
  set (n := Z.of_nat (List.length l)).
  set (T := sumZ (map (fun r => or0 (Ride.duration r)) l)).
  split; [reflexivity|]. split; [reflexivity|].
  split; [intros ->; split; reflexivity|].
  assert (Hpos : l <> [] -> 0 < n).
  { intros Hne. subst n. destruct l; [congruence|simpl; lia]. }
  split.
  - intros Hne. specialize (Hpos Hne).
    assert (Hgt : (n >? 0) = true) by (apply Z.gtb_lt; lia).
    rewrite Hgt. apply round_div_nearest. exact Hpos.
  - intros lo hi Hne Hb. specialize (Hpos Hne).
    assert (Hgt : (n >? 0) = true) by (apply Z.gtb_lt; lia).
    rewrite Hgt, round_div by exact Hpos.
    pose proof (sumZ_bounds (fun r => or0 (Ride.duration r)) lo hi l Hb) as HT.
    fold n in HT. fold T in HT. clearbody n T.
    split.
    + apply Z.div_le_lower_bound; [lia|]. nia.
    + assert ((2 * T + n) / (2 * n) < hi + 1); [|lia].
      apply Z.div_lt_upper_bound; [lia|]. nia.
Qed.

(** ** The status update of the administrator *)

Lemma Status_of_string_names (s : string) :
  Cycle.Status_of_string s <> None <-> In s statusNames.
Proof.
  unfold Cycle.Status_of_string, statusNames.
  destruct (String.eqb_spec s "available") as [->|H1];
    [split; [simpl; auto|discriminate]|].
  destruct (String.eqb_spec s "in-use") as [->|H2];
    [split; [simpl; auto|discriminate]|].
  destruct (String.eqb_spec s "maintenance") as [->|H3];
    [split; [simpl; auto|discriminate]|].
  destruct (String.eqb_spec s "out-of-service") as [->|H4];
    [split; [simpl; auto|discriminate]|].
  split; [congruence|]. simpl. intuition congruence.
Qed.

(** X21. [PATCH /:id/status], when the database serves and cycles have
    distinct ids: a status outside the four names is answered 400 and an
    unknown id 404, both without a write; otherwise the answer carries the
    cycle with the new status, the lookup by id returns it, every other
    cycle is as it was and no ride is written, whatever rides reference
    the cycle. *)
Theorem cycle_status_update (id : ObjectId) (status : string) (d : Db) :
  NoDup (map Cycle._id (cycles d)) ->
  (~ In status statusNames ->
   patch_cycle_status id status None d =
     (invalid ["Invalid status value"], d)) /\
  (In status statusNames ->
   (forall c, In c (cycles d) -> Cycle._id c <> id) ->
   patch_cycle_status id status None d = (fail 404 "Cycle not found", d)) /\
  (forall c, In c (cycles d) -> Cycle._id c = id ->
   In status statusNames ->
   exists s,
     Cycle.Status_of_string status = Some s /\
     fst (patch_cycle_status id status None d) =
       ok 200 None (CycleData (Cycle.set_status s c)) /\
     let d' := snd (patch_cycle_status id status None d) in
     rides d' = rides d /\ stations d' = stations d /\
     fst (Cycle_findById id d') = Some (Cycle.set_status s c) /\
     (forall c', In c' (cycles d) -> Cycle._id c' <> id -> In c' (cycles d')) /\
     List.length (cycles d') = List.length (cycles d)).
Proof.
  intros Hnd. split; [|split].
  - intros Hbad. handler.
    destruct (Cycle.Status_of_string status) eqn:Hs; [|reflexivity].
    exfalso. apply Hbad. apply Status_of_string_names. congruence.
  - intros Hok Hnone. handler.
    apply Status_of_string_names in Hok.
    destruct (Cycle.Status_of_string status); [|congruence].
    assert (Hf : find (fun c => Nat.eqb (Cycle._id c) id) (cycles d) = None).
    { apply find_none_iff. intros c Hc. apply Nat.eqb_neq. now apply Hnone. }
    rewrite Hf. reflexivity.
  - intros c Hc Hid Hok. apply Status_of_string_names in Hok.
    destruct (Cycle.Status_of_string status) as [s|] eqn:Hs; [|congruence].
    exists s. split; [reflexivity|].
    assert (Hf : find (fun c0 => Nat.eqb (Cycle._id c0) id) (cycles d) = Some c).
    { rewrite <- Hid. now apply (find_by_id Cycle._id). }
    handler. rewrite Hs, Hf. unfold Cycle_save.
    cbn [fst snd db cycles rides stations set_cycles Cycle._id Cycle.status
         Cycle.set_status].
    split; [reflexivity|]. split; [reflexivity|]. split; [reflexivity|].
    rewrite Hid. split.
    + rewrite (find_updateOne Cycle._id); [|reflexivity]. now rewrite Hf.
    + split; [|apply updateOne_length].
      intros c' Hc' Hne.
      apply (updateOne_by_id_In Cycle._id); [exact Hnd|reflexivity|]. auto.
Qed.

Lemma cycle_status_update_witness :
  fst (patch_cycle_status 10 "maintenance" None afterStart) =
    ok 200 None
       (CycleData (Cycle.mk 10 "CYCLE001" S1 Cycle.maintenance true)) /\
  rides (snd (patch_cycle_status 10 "maintenance" None afterStart)) =
    rides afterStart.
Proof.
  destruct afterStart_distinct as (_ & Hnc & _).
  destruct (cycle_status_update 10 "maintenance" afterStart Hnc)
    as (_ & _ & Hok).
  destruct (Hok (Cycle.mk 10 "CYCLE001" S1 Cycle.in_use true)
                (or_introl eq_refl) eq_refl)
    as (s & Hs & Hres & Hr & _).
  { simpl. auto. }
  injection Hs as <-. split; [exact Hres|exact Hr].
Defined.

Lemma station_cycle_counts_witness :
  exists s, get_station_stats S1 afterStart = Some s /\
            StationStats.total s = 2 /\ StationStats.available s = 1 /\
            StationStats.inUse s = 1.
Proof.
  destruct (station_cycle_counts S1 afterStart) as [_ Hcounts].
  eexists. split; [reflexivity|].
  destruct (Hcounts _ eq_refl) as (Ht & _ & _ & Hi).
  split; [exact Ht|]. split; [reflexivity|exact Hi].
Defined.

Lemma analytics_summary_witness :
  Summary.totalRides (analyticsSummary (rides historyDb)) = 2 /\
  Summary.totalDuration (analyticsSummary (rides historyDb)) = 3 /\
  1 <= Summary.averageDuration (analyticsSummary (rides historyDb)) <= 2.
Proof.
  destruct (analytics_summary (rides historyDb)) as (Hn & Hd & _ & _ & Hb).
  split; [exact Hn|]. split; [exact Hd|].
  apply Hb; [discriminate|].
  intros r [<-|[<-|[]]]; simpl; lia.
Defined.

(** ** What a request leaves alone *)

(** X22. No request rewrites a station, adds or removes a cycle, or changes
    the id, the QR identifier, the station or the active flag of a cycle:
    a ride request or a status update can only change the status of
    cycles. *)
Theorem requests_keep_cycles_and_stations (op : Op) (f : option nat)
  (d : Db) :
  let d' := snd (exec op f d) in
  stations d' = stations d /\
  map Cycle._id (cycles d') = map Cycle._id (cycles d) /\
  map Cycle.cycleId (cycles d') = map Cycle.cycleId (cycles d) /\
  map Cycle.stationId (cycles d') = map Cycle.stationId (cycles d) /\
  map Cycle.isActive (cycles d') = map Cycle.isActive (cycles d).
Proof.
  assert (Hset : forall k s d0,
    stations (withCycleStatus k s d0) = stations d0 /\
    map Cycle._id (cycles (withCycleStatus k s d0)) = map Cycle._id (cycles d0) /\
    map Cycle.cycleId (cycles (withCycleStatus k s d0)) =
      map Cycle.cycleId (cycles d0) /\
    map Cycle.stationId (cycles (withCycleStatus k s d0)) =
      map Cycle.stationId (cycles d0) /\
    map Cycle.isActive (cycles (withCycleStatus k s d0)) =
      map Cycle.isActive (cycles d0)).
  { intros k s d0. unfold withCycleStatus. cbn [stations cycles set_cycles].
    repeat split; apply updateOne_map; reflexivity. }
  cbv zeta.
  destruct op as [user body now|user body now|user now|id status]; cbn [exec].
  - destruct (post_start_cases user body now f d)
      as [(-> & _)|(c & st & _ & _ & _ & _ & _ & H)]; [repeat split|].
    destruct H as [(_ & _ & ->)|[(_ & _ & ->)|(_ & ->)]];
      [repeat split| |]; apply (Hset _ _ (withRide _ d)).
  - destruct (post_end_cases user body now f d)
      as [(-> & _)|(ar & c & rc & _ & _ & _ & _ & H)]; [repeat split|].
    destruct H as [(_ & _ & ->)|(_ & ->)];
      [repeat split|apply (Hset _ _ (withRideUpdate _ _ d))].
  - destruct (post_cancel_cases user now f d)
      as [(-> & _)|(ar & _ & H)]; [repeat split|].
    destruct H as [(_ & _ & ->)|(_ & ->)]; [repeat split|].
    destruct (cycleDoc ar);
      [apply (Hset _ _ (withRideUpdate _ _ d))|repeat split].
  - destruct (patch_cycle_status_cases id status f d) as [->|(s & _ & ->)];
      [repeat split|apply Hset].
Qed.

(** ** Statistics and the requests *)

Lemma get_user_stats_same (d d' : Db) :
  (forall id, filter (Ride.isCompletedRideOf id) (rides d') =
              filter (Ride.isCompletedRideOf id) (rides d)) ->
  forall role caller id,
    get_user_stats role caller id d' = get_user_stats role caller id d.
Proof.
  intros H role caller id. unfold get_user_stats, Ride.getUserStats.
  rewrite H. reflexivity.
Qed.

(** X23. From a database without rides, after any sequence of requests, a
    further request that is not an end request (a start, a cancel, a status
    update), with or without a failing database call, changes nobody's
    statistics. *)
Theorem statistics_move_on_end_only (d0 d : Db) (op : Op) (f : option nat) :
  rides d0 = [] -> reachable anyRequest d0 d ->
  (forall user body now, op <> EndRide user body now) ->
  forall role caller id,
    get_user_stats role caller id (snd (exec op f d)) =
    get_user_stats role caller id d.
Proof.
  intros Hempty Hreach Hop.
  destruct (rides_as_stored_reachable d0 d Hempty Hreach) as [Hnd _ _ _ _ _].
  apply get_user_stats_same. intros id.
  destruct op as [user body now|user body now|user now|k status]; cbn [exec].
  - destruct (post_start_cases user body now f d)
      as [(-> & _)|(c & st & _ & _ & _ & _ & _ & H)]; [reflexivity|].
    assert (Hr : rides (snd (post_start user body now f d)) =
                 (rides d ++ [newRide d user c st now])%list).
    { destruct H as [(_ & _ & ->)|[(_ & _ & ->)|(_ & ->)]]; reflexivity. }
    rewrite Hr, filter_app. simpl.
    unfold Ride.isCompletedRideOf at 2. simpl.
    rewrite andb_false_r. apply app_nil_r.
  - now destruct (Hop user body now).
  - destruct (post_cancel_cases user now f d)
      as [(-> & _)|(ar & Ha & H)]; [reflexivity|].
    assert (Hr : rides (snd (post_cancel user now f d)) =
                 updateOne (fun r => Nat.eqb (Ride._id r) (Ride._id (ride ar)))
                           (cancelUpdate now) (rides d)).
    { destruct H as [(_ & _ & ->)|(_ & ->)]; [reflexivity|].
      destruct (cycleDoc ar); reflexivity. }
    rewrite Hr. apply filter_updateOne_same. intros x Hx Hp.
    destruct (findActiveRide_some _ _ _ Ha) as (Hin0 & _ & Hs0 & _).
    apply Nat.eqb_eq in Hp.
    assert (x = ride ar) by (apply (NoDup_id_inj Ride._id (rides d)); auto).
    subst x. unfold Ride.isCompletedRideOf. simpl. rewrite Hs0. simpl.
    split; apply andb_false_r.
  - destruct (patch_cycle_status_cases k status f d) as [->|(s & _ & ->)];
      reflexivity.
Qed.

Lemma statistics_move_on_end_only_witness :
  statsOf U1 (snd (exec (CancelRide U1 9) None afterStart)) =
  statsOf U1 afterStart.
Proof.
  assert (Hreach : reachable anyRequest scenarioDb afterStart).
  { apply (reach_step anyRequest scenarioDb scenarioDb
             (StartRide U1 (StartReq.mk "CYCLE001" (Some (castable S1))) 0) None).
    - apply reach_init.
    - exact I. }
  apply (statistics_move_on_end_only scenarioDb afterStart (CancelRide U1 9)
           None eq_refl Hreach).
  intros user body now. discriminate.
Defined.

(** ** The virtuals and the hook of the Ride model *)

(** X24. For a ride with a stored duration, the cost is the number of
    started hours, for any integer: 60 * (cost - 1) < duration <= 60 * cost;
    a ride of at least one minute costs at least 1, and a longer ride never
    costs less. *)
Theorem cost_counts_started_hours (r : Ride.t) (m : Z) :
  Ride.duration r = Some m ->
  60 * (Ride.cost r - 1) < m <= 60 * Ride.cost r /\
  (1 <= m -> 1 <= Ride.cost r) /\
  (forall r' m', Ride.duration r' = Some m' -> m <= m' ->
                 Ride.cost r <= Ride.cost r').
Proof.
  intros Hm.
  assert (Hc : forall x n, Ride.duration x = Some n ->
                           60 * (Ride.cost x - 1) < n <= 60 * Ride.cost x).
  { intros x n Hn. rewrite cost_spec, Hn. unfold spec_cost. cbn [or0].
    pose proof (ceil_div_hours n) as H. cbv zeta in H. lia. }
  pose proof (Hc r m Hm) as H1.
  split; [exact H1|]. split; [lia|].
  intros r' m' Hm' Hle. pose proof (Hc r' m' Hm') as H2. lia.
Qed.

Lemma cost_counts_started_hours_witness :
  60 * (Ride.cost (completedRide 100 61) - 1) < 61
    <= 60 * Ride.cost (completedRide 100 61).
Proof.
  destruct (cost_counts_started_hours (completedRide 100 61) 61 eq_refl)
    as [H _].
  exact H.
Defined.

(** X25. The formatted duration of a ride with a positive stored duration
    [m]: below one hour it is the minutes followed by 'm'; from one hour on
    it is 'h' hours and 'm' minutes with 60 * h + m the duration and the
    minutes below 60. *)
Theorem formatted_duration_splits (r : Ride.t) (m : Z) :
  Ride.duration r = Some m -> 0 < m ->
  (m < 60 -> Ride.formattedDuration r = (toString m ++ "m")%string) /\
  (60 <= m ->
   exists h mi,
     Ride.formattedDuration r =
       (toString h ++ "h " ++ toString mi ++ "m")%string /\
     m = 60 * h + mi /\ 0 <= mi < 60 /\ 1 <= h).
Proof.
  intros Hm Hpos. unfold Ride.formattedDuration. rewrite Hm.
  cbn [falsy or0].
  destruct (Z.eqb_spec m 0) as [|_]; [lia|].
  rewrite floor_div.
  assert (Hrem : Z.rem m 60 = m mod 60) by (apply Z.rem_mod_nonneg; lia).
  rewrite Hrem.
  pose proof (Z.div_mod m 60 ltac:(lia)) as Hdm.
  pose proof (Z.mod_pos_bound m 60 ltac:(lia)) as Hb.
  split.
  - intros Hlt. rewrite Z.div_small by lia. cbn [Z.gtb Z.compare].
    rewrite Z.mod_small by lia. reflexivity.
  - intros Hge. exists (m / 60), (m mod 60).
    assert (Hh : 1 <= m / 60) by (apply Z.div_le_lower_bound; lia).
    destruct (Z.gtb_spec (m / 60) 0) as [_|]; [|lia].
    repeat split; lia.
Qed.

Lemma formatted_duration_splits_witness :
  Ride.formattedDuration (completedRide 100 45) = "45m".
Proof.
  destruct (formatted_duration_splits (completedRide 100 45) 45 eq_refl
              ltac:(lia)) as [Hshort _].
  rewrite Hshort by lia. reflexivity.
Defined.

(** X26. The [pre('save')] hook leaves a ride without an end time as it is;
    with an end time at most [2 ^ 53] milliseconds from the start time it
    stores the number of minutes nearest to the elapsed time, at most 30
    seconds away from it, and rewrites no other path; run twice it does what
    it does once. *)
Theorem preSave_nearest_minute (r : Ride.t) :
  (Ride.endTime r = None -> Ride.preSave r = r) /\
  (forall e, Ride.endTime r = Some e ->
     Ride.exactElapsed (e - Ride.startTime r) ->
     exists m,
       Ride.preSave r = Ride.set_duration (Some m) r /\
       -30000 < 60000 * m - (e - Ride.startTime r) <= 30000) /\
  Ride.preSave (Ride.preSave r) = Ride.preSave r.
Proof.
  unfold Ride.preSave. split; [intros ->; reflexivity|]. split.
  - intros e He _. rewrite He. eexists. split; [reflexivity|].
    change (1000 * 60) with 60000.
    pose proof (round_div_nearest (e - Ride.startTime r) 60000 ltac:(lia)) as H.
    cbv zeta in H. lia.
  - destruct (Ride.endTime r) as [e|] eqn:He; [|rewrite He; reflexivity].
    cbn [Ride.endTime Ride.set_duration Ride.startTime]. rewrite He.
    reflexivity.
Qed.

Lemma preSave_nearest_minute_witness :
  Ride.duration (Ride.preSave (completedRide 100 0)) = Some 0.
Proof.
  destruct (preSave_nearest_minute (completedRide 100 0)) as (_ & Hend & _).
  destruct (Hend 0 eq_refl) as (m & Hm & Hb).
  { unfold Ride.exactElapsed. simpl. lia. }
  rewrite Hm. change (Ride.startTime (completedRide 100 0)) with 0 in Hb.
  cbn [Ride.duration Ride.set_duration]. f_equal. lia.
Defined.
